(** * LuckeePass vault engine: a shallow embedding of [src/core] and [src/models]

    The development follows the Python sources class by class:
    - [src/models/*.py]            -> modules [FileEntry], [PasswordEntry],
                                      [SecureNote], [CardEntry], [IdentityEntry]
    - [src/core/encryption_manager.py] -> module [EncryptionManager]
    - [src/core/user_manager.py]       -> module [UserManager]
    - [src/core/password_generator.py] -> module [PasswordGenerator]
    - [src/core/password_manager.py]   -> module [PasswordManager]
    - [src/utils/formatting.py]        -> [format_card_number],
                                          [format_phone_number]

    Third-party libraries ([cryptography], [bcrypt], [base64], [json], the
    clock and the operating system's entropy) are an interface, the classes
    [Platform] and [Hashing]; the laws the proofs rely on are stated as
    hypotheses of the sections that use them, and [Toy] gives an executable
    instance. *)

From Stdlib Require Import ZArith String Ascii List Lia.
From Stdlib.Strings Require Import Byte.
From stdpp Require Import base option list strings gmap.

Set Warnings "-register-all".

Local Open Scope string_scope.
Local Open Scope Z_scope.

(** ** Python values *)

Abbreviation bytes := (list byte).

#[global] Instance byte_eq_dec : EqDecision byte := Byte.byte_eq_dec.

(** [bytes.startswith(prefix)] *)
Fixpoint startswith (data prefix : bytes) {struct prefix} : bool :=
  match prefix, data with
  | [], _ => true
  | p :: ps, d :: ds => if decide (d = p) then startswith ds ps else false
  | _ :: _, [] => false
  end.

(** [bytes.find(sub)]: the lowest index where [sub] occurs, [-1] if none. *)
Fixpoint find_from (i : Z) (data sub : bytes) : Z :=
  if startswith data sub then i
  else match data with
       | [] => -1
       | _ :: rest => find_from (i + 1) rest sub
       end.

Definition find (data sub : bytes) : Z := find_from 0 data sub.

(** [data[start:]] for a non-negative [start]. *)
Definition slice_from (start : Z) (data : bytes) : bytes :=
  drop (Z.to_nat start) data.

(** [len(data)] as a Python int. *)
Definition len {A} (l : list A) : Z := Z.of_nat (length l).

(** Text: a character is a code point below U+0100.

    [c.isdigit()] holds for the ten ASCII digits and for the superscripts
    two, three and one (U+00B2, U+00B3, U+00B9). *)
Definition isdigit (c : ascii) : bool :=
  let n := nat_of_ascii c in
  ((48 <=? n) && (n <=? 57) || (n =? 178) || (n =? 179) || (n =? 185))%nat.

(** [c.lower()]: the letters A-Z and U+00C0-U+00DE, the multiplication sign
    U+00D7 apart, move 32 places up. *)
Definition lower_char (c : ascii) : ascii :=
  let n := nat_of_ascii c in
  if ((65 <=? n) && (n <=? 90) || (192 <=? n) && (n <=? 222) && negb (n =? 215))%nat
  then ascii_of_nat (n + 32) else c.

(** [s.lower()] *)
Fixpoint lower (s : string) : string :=
  match s with
  | EmptyString => EmptyString
  | String c rest => String (lower_char c) (lower rest)
  end.

(** [''.join(filter(p, s))] *)
Fixpoint str_filter (p : ascii -> bool) (s : string) : string :=
  match s with
  | EmptyString => EmptyString
  | String c rest => if p c then String c (str_filter p rest) else str_filter p rest
  end.

(** [s.split(sep)] for a separator of one character: the pieces between
    the separators, at least one. *)
Fixpoint str_split (sep : ascii) (s : string) : list string :=
  match s with
  | EmptyString => [EmptyString]
  | String c rest =>
      if decide (c = sep) then EmptyString :: str_split sep rest
      else match str_split sep rest with
           | piece :: pieces => String c piece :: pieces
           | [] => [String c EmptyString]
           end
  end.

(** What [json.loads] produces and [json.dumps] consumes.  A [dict] is kept
    as the list of its items in insertion order. *)
Inductive json : Type :=
| JNull
| JBool (b : bool)
| JInt (n : Z)
| JStr (s : string)
| JList (l : list json)
| JDict (d : list (string * json)).

Abbreviation dict := (list (string * json)).

(** [d.get(k)] / [k in d] *)
Fixpoint dict_get (k : string) (d : dict) : option json :=
  match d with
  | [] => None
  | (k', v) :: rest => if decide (k' = k) then Some v else dict_get k rest
  end.

(** [d[k] = v]: the value is replaced in place when the key exists, the item
    is appended otherwise. *)
Fixpoint dict_set (k : string) (v : json) (d : dict) : dict :=
  match d with
  | [] => [(k, v)]
  | (k', v') :: rest =>
      if decide (k' = k) then (k', v) :: rest else (k', v') :: dict_set k v rest
  end.

(** Keys are pairwise distinct at every level: the values that are Python
    objects. *)
Fixpoint json_wf (j : json) : bool :=
  match j with
  | JList l => forallb json_wf l
  | JDict d =>
      (fix items (d : dict) (seen : list string) : bool :=
         match d with
         | [] => true
         | (k, v) :: rest =>
             negb (bool_decide (k ∈ seen)) && json_wf v && items rest (k :: seen)
         end) d []
  | _ => true
  end.

(** ** Exceptions, outcomes, effects *)

Inductive exn : Type :=
| ValueError (msg : string)
| KeyError (key : string)
| TypeError
| AttributeError
| IndexError
| InvalidToken          (* cryptography.fernet.InvalidToken *)
| BinasciiError         (* binascii.Error *)
| UnicodeDecodeError
| JSONDecodeError (msg : string)   (* json.JSONDecodeError *)
| RecursionError
| OSError (msg : string)
| Exception (msg : string).

(** [str(e)] as far as the sources format it into a message. *)
Definition exn_str (e : exn) : string :=
  match e with
  | ValueError m | OSError m | Exception m | JSONDecodeError m => m
  | KeyError k => "'" +:+ k +:+ "'"
  | _ => ""
  end.

(** The result of running a piece of Python.  The record types below carry
    the types the sources annotate ([title: str], [file_size: int], ...);
    [Untyped] is the outcome of reading a JSON value of another type into
    such a field, which Python would store as it is: the embedding stops
    there instead of inventing a behaviour. *)
Inductive outcome (A : Type) : Type :=
| Ok (a : A)
| Raise (e : exn)
| Untyped.
Arguments Ok {A} a.
Arguments Raise {A} e.
Arguments Untyped {A}.

(** What the process wrote on standard output.  [Warning what title e]
    stands for the two lines
    [print(f"Warning: Could not decrypt {what} '{title}': {str(e)}")] and
    [print("  This might be due to a different master password ...")]. *)
Inductive event : Type :=
| Printed (line : string)
| Warning (what : string) (title : json) (e : exn).

(** The part of the process state outside the objects: how often the clock
    and the entropy source were read, how often [Fernet.decrypt] was called,
    standard output, and the files of the application-data directory. *)
Record world : Type := World {
  ticks : nat;
  draws : nat;
  decrypts : nat;
  stdout : list event;
  disk : gmap string bytes
}.

(** State and exceptions: a raised exception keeps the state reached. *)
Definition ST (S A : Type) : Type := S -> outcome A * S.

Definition ret {S A} (a : A) : ST S A := fun s => (Ok a, s).

Definition bind {S A B} (c : ST S A) (k : A -> ST S B) : ST S B :=
  fun s => match c s with
           | (Ok a, s') => k a s'
           | (Raise e, s') => (Raise e, s')
           | (Untyped, s') => (Untyped, s')
           end.

Definition raise {S A} (e : exn) : ST S A := fun s => (Raise e, s).

Definition untyped {S A} : ST S A := fun s => (Untyped, s).

(** [try: body except Exception as e: handler(e)] *)
Definition try_except {S A} (body : ST S A) (handler : exn -> ST S A) : ST S A :=
  fun s => match body s with
           | (Raise e, s') => handler e s'
           | r => r
           end.

Declare Scope py_scope.
Delimit Scope py_scope with py.
Notation "x <- c ;; k" := (bind c (fun x => k))
  (at level 89, c at next level, right associativity) : py_scope.
Notation "c ;;; k" := (bind c (fun _ => k))
  (at level 89, right associativity) : py_scope.
Local Open Scope py_scope.

(** [for x in l: body(x)] *)
Fixpoint for_each {S A} (l : list A) (body : A -> ST S unit) : ST S unit :=
  match l with
  | [] => ret tt
  | x :: rest => body x ;;; for_each rest body
  end.

(** [[f(x) for x in l]], evaluated left to right *)
Fixpoint map_st {S A B} (f : A -> ST S B) (l : list A) : ST S (list B) :=
  match l with
  | [] => ret []
  | x :: rest => y <- f x ;; ys <- map_st f rest ;; ret (y :: ys)
  end.

Definition W := ST world.

Definition print (line : string) : W unit :=
  fun w => (Ok tt, World (ticks w) (draws w) (decrypts w) (stdout w ++ [Printed line]) (disk w)).

Definition warn (what : string) (title : json) (e : exn) : W unit :=
  fun w => (Ok tt, World (ticks w) (draws w) (decrypts w)
                         (stdout w ++ [Warning what title e]) (disk w)).

(** ** The libraries the sources call *)

Class Platform : Type := {
(** [datetime.now().isoformat()] at the n-th reading of the clock *)
  clock : nat -> string;
(** [os.urandom(16)] at the n-th reading of the entropy source *)
  urandom16 : nat -> bytes;
(** [secrets.randbelow(k)] at the n-th reading of the entropy source *)
  randbelow : nat -> nat -> nat;
  fernet_key : Type;
(** [base64.urlsafe_b64encode(PBKDF2HMAC(SHA256(), 32, salt, 100000).derive(password))]
      as accepted by [Fernet(key)] *)
  derive : bytes -> bytes -> fernet_key;
(** [Fernet(key).encrypt(data.encode()).decode()]; the token depends on
      the time and 16 random bytes, the n-th reading of the entropy source *)
  fernet_encrypt : fernet_key -> nat -> string -> string;
(** [Fernet(key).decrypt(token.encode()).decode()]; [inl e] is the
      exception raised, [InvalidToken] or [UnicodeDecodeError] *)
  fernet_decrypt : fernet_key -> string -> exn + string;
(** [base64.b64encode(data).decode('utf-8')] *)
  b64encode : bytes -> string;
(** [base64.b64decode(text)]; [None] is the exception it raises, see
      [b64decode_error] below *)
  b64decode : string -> option bytes;
(** [text.encode('utf-8')] and [data.decode('utf-8')] *)
  utf8_encode : string -> bytes;
  utf8_decode : bytes -> option string;
(** [json.dumps(value, indent=2)] and [json.loads(text)]; [inl e] is the
      exception raised: [JSONDecodeError detail] with [str(e) = detail] for
      text that is no JSON, [RecursionError] for a document nested too deep,
      [ValueError] for an integer of more digits than the interpreter
      converts *)
  json_dumps : json -> string;
  json_loads : string -> exn + json;
(** [bcrypt.checkpw(password, hashed)]; [None] is [ValueError] *)
  bcrypt_checkpw : bytes -> bytes -> option bool
}.

(** [bcrypt.hashpw(password, bcrypt.gensalt())] with the salt of the n-th
    reading of the entropy source; [inl detail] is [ValueError(detail)]. *)
Class Hashing : Type := {
  bcrypt_hashpw : nat -> bytes -> string + bytes
}.

(** ** Reading Python values *)

Section Access.
Context {S : Type}.

(** [d[k]] on a dict *)
Definition item (d : dict) (k : string) : ST S json :=
    match dict_get k d with
    | Some v => ret v
    | None => raise (KeyError k)
    end.

(** [d.get(k, default)] on a dict *)
Definition get (d : dict) (k : string) (default : json) : json :=
    match dict_get k d with
    | Some v => v
    | None => default
    end.

(** [k in d] on a dict *)
Definition contains (d : dict) (k : string) : bool :=
    match dict_get k d with
    | Some _ => true
    | None => false
    end.

(** The elements a [for] loop visits: the items of a list, the characters
      of a string, the keys of a dict; other JSON values are not iterable. *)
Definition py_iter (v : json) : ST S (list json) :=
    match v with
    | JList l => ret l
    | JStr s => ret (map (fun c => JStr (String c "")) (list_ascii_of_string s))
    | JDict d => ret (map (fun kv => JStr (fst kv)) d)
    | _ => raise TypeError
    end.

(** A JSON value stored into a field annotated [str], [bool], [int]. *)
Definition as_str (v : json) : ST S string :=
    match v with JStr s => ret s | _ => untyped end.

Definition as_bool (v : json) : ST S bool :=
    match v with JBool b => ret b | _ => untyped end.

Definition as_int (v : json) : ST S Z :=
    match v with JInt n => ret n | _ => untyped end.
End Access.

(** [datetime.now().isoformat()] *)
Definition now_isoformat `{Platform} : W string :=
  fun w => (Ok (clock (ticks w)),
            World (Datatypes.S (ticks w)) (draws w) (decrypts w) (stdout w) (disk w)).

(** What [base64.b64decode(text)] raises for a text it does not decode:
    [ValueError] when a character of the text is outside ASCII, which it
    tests first, [binascii.Error] otherwise. *)
Definition is_ascii (text : string) : bool :=
  forallb (fun c => (nat_of_ascii c <? 128)%nat) (list_ascii_of_string text).

Definition b64decode_error (text : string) : exn :=
  if is_ascii text then BinasciiError
  else ValueError "string argument should contain only ASCII characters".

(** [base64.b64decode(v)]: [v] must be text, and valid base64. *)
Definition py_b64decode `{Platform} {S} (v : json) : ST S bytes :=
  match v with
  | JStr s => match b64decode s with
              | Some data => ret data
              | None => raise (b64decode_error s)
              end
  | _ => raise TypeError
  end.

(** ** src/models/file_entry.py *)

Module FileEntry.
Record t : Type := Make {
    title : string;
    file_data : bytes;
    file_name : string;
    file_type : string;
    file_size : Z;
    category : string;
    notes : string;
    is_favorite : bool;
    created : string;
    modified : string
  }.

Definition set_modified (now : string) (self : t) : t :=
    Make (title self) (file_data self) (file_name self) (file_type self)
         (file_size self) (category self) (notes self) (is_favorite self)
         (created self) now.

Section Methods.
Context `{Platform}.

(** [__init__]; the defaults are [file_type=""], [file_size=0],
        [category="Files"], [notes=""], [is_favorite=False]. *)
Definition init (title : string) (file_data : bytes) (file_name file_type : string)
        (file_size : Z) (category notes : string) (is_favorite : bool) : W t :=
      now <- now_isoformat ;;
      ret (Make title file_data file_name file_type file_size category notes
                is_favorite now now).

Definition to_dict (self : t) : dict :=
      [ ("title", JStr (title self));
        ("file_data", JStr (b64encode (file_data self)));
        ("file_name", JStr (file_name self));
        ("file_type", JStr (file_type self));
        ("file_size", JInt (file_size self));
        ("category", JStr (category self));
        ("notes", JStr (notes self));
        ("is_favorite", JBool (is_favorite self));
        ("created", JStr (created self));
        ("modified", JStr (modified self)) ].

Definition from_dict (data : json) : W t :=
      match data with
      | JDict d =>
          raw <- item d "file_data" ;;
          file_data <- py_b64decode raw ;;
          a_title <- item d "title" ;; a_title <- as_str a_title ;;
          a_file_name <- item d "file_name" ;; a_file_name <- as_str a_file_name ;;
          a_file_type <- as_str (get d "file_type" (JStr "")) ;;
          a_file_size <- as_int (get d "file_size" (JInt 0)) ;;
          a_category <- as_str (get d "category" (JStr "Files")) ;;
          a_notes <- as_str (get d "notes" (JStr "")) ;;
          a_is_favorite <- as_bool (get d "is_favorite" (JBool false)) ;;
          entry <- init a_title file_data a_file_name a_file_type a_file_size
                        a_category a_notes a_is_favorite ;;
          now <- now_isoformat ;;
          a_created <- as_str (get d "created" (JStr now)) ;;
          a_modified <- as_str (get d "modified" (JStr a_created)) ;;
          ret (Make (title entry) (FileEntry.file_data entry) (file_name entry)
                    (file_type entry) (file_size entry) (category entry)
                    (notes entry) (is_favorite entry) a_created a_modified)
      | _ => raise TypeError
      end.

(** [self.file_name.split('.')[-1].lower()] when the name holds a dot. *)
Definition get_file_extension (self : t) : string :=
      if bool_decide ("."%char ∈ list_ascii_of_string (file_name self)) then
        match last (str_split "." (file_name self)) with
        | Some piece => lower piece
        | None => EmptyString
        end
      else EmptyString.

Definition image_extensions : gset string :=
      {["jpg"; "jpeg"; "png"; "gif"; "bmp"; "tiff"; "webp"; "svg"]}.

Definition document_extensions : gset string :=
      {["pdf"; "doc"; "docx"; "txt"; "rtf"; "odt"; "pages"]}.

Definition archive_extensions : gset string :=
      {["zip"; "rar"; "7z"; "tar"; "gz"; "bz2"]}.

Definition is_image (self : t) : bool :=
      bool_decide (get_file_extension self ∈ image_extensions).

Definition is_document (self : t) : bool :=
      bool_decide (get_file_extension self ∈ document_extensions).

Definition is_archive (self : t) : bool :=
      bool_decide (get_file_extension self ∈ archive_extensions).

(** The loop all four other models share:
        [if 'attached_files' in data: for file_data in data['attached_files']: ...] *)
Definition attached_from_dict (d : dict) : W (list t) :=
      if contains d "attached_files" then
        raw <- item d "attached_files" ;;
        l <- py_iter raw ;;
        map_st from_dict l
      else ret [].
End Methods.
End FileEntry.

(** ** src/models/password_entry.py *)

Module PasswordEntry.
Record t : Type := Make {
    title : string;
    username : string;
    password : string;
    url : string;
    notes : string;
    category : string;
    is_favorite : bool;
    attached_files : list FileEntry.t;
    created : string;
    modified : string
  }.

Definition set_modified (now : string) (self : t) : t :=
    Make (title self) (username self) (password self) (url self) (notes self)
         (category self) (is_favorite self) (attached_files self) (created self) now.

Section Methods.
Context `{Platform}.

Definition init (title username password url notes category : string)
        (is_favorite : bool) (attached_files : list FileEntry.t) : W t :=
      now <- now_isoformat ;;
      ret (Make title username password url notes category is_favorite
                attached_files now now).

Definition to_dict (self : t) : dict :=
      [ ("title", JStr (title self));
        ("username", JStr (username self));
        ("password", JStr (password self));
        ("url", JStr (url self));
        ("notes", JStr (notes self));
        ("category", JStr (category self));
        ("is_favorite", JBool (is_favorite self));
        ("attached_files", JList (map (fun f => JDict (FileEntry.to_dict f)) (attached_files self)));
        ("created", JStr (created self));
        ("modified", JStr (modified self)) ].

Definition from_dict (data : json) : W t :=
      match data with
      | JDict d =>
          files <- FileEntry.attached_from_dict d ;;
          a_title <- item d "title" ;; a_title <- as_str a_title ;;
          a_username <- item d "username" ;; a_username <- as_str a_username ;;
          a_password <- item d "password" ;; a_password <- as_str a_password ;;
          a_url <- as_str (get d "url" (JStr "")) ;;
          a_notes <- as_str (get d "notes" (JStr "")) ;;
          a_category <- as_str (get d "category" (JStr "General")) ;;
          a_is_favorite <- as_bool (get d "is_favorite" (JBool false)) ;;
          entry <- init a_title a_username a_password a_url a_notes a_category
                        a_is_favorite files ;;
          now <- now_isoformat ;;
          a_created <- as_str (get d "created" (JStr now)) ;;
          a_modified <- as_str (get d "modified" (JStr a_created)) ;;
          ret (Make (title entry) (username entry) (password entry) (url entry)
                    (notes entry) (category entry) (is_favorite entry)
                    (attached_files entry) a_created a_modified)
      | _ => raise TypeError
      end.
End Methods.
End PasswordEntry.

(** ** src/models/secure_note.py *)

Module SecureNote.
Record t : Type := Make {
    title : string;
    content : string;
    category : string;
    is_favorite : bool;
    attached_files : list FileEntry.t;
    created : string;
    modified : string
  }.

Definition set_modified (now : string) (self : t) : t :=
    Make (title self) (content self) (category self) (is_favorite self)
         (attached_files self) (created self) now.

Section Methods.
Context `{Platform}.

Definition init (title content category : string) (is_favorite : bool)
        (attached_files : list FileEntry.t) : W t :=
      now <- now_isoformat ;;
      ret (Make title content category is_favorite attached_files now now).

Definition to_dict (self : t) : dict :=
      [ ("title", JStr (title self));
        ("content", JStr (content self));
        ("category", JStr (category self));
        ("is_favorite", JBool (is_favorite self));
        ("attached_files", JList (map (fun f => JDict (FileEntry.to_dict f)) (attached_files self)));
        ("created", JStr (created self));
        ("modified", JStr (modified self)) ].

Definition from_dict (data : json) : W t :=
      match data with
      | JDict d =>
          files <- FileEntry.attached_from_dict d ;;
          a_title <- item d "title" ;; a_title <- as_str a_title ;;
          a_content <- item d "content" ;; a_content <- as_str a_content ;;
          a_category <- as_str (get d "category" (JStr "General")) ;;
          a_is_favorite <- as_bool (get d "is_favorite" (JBool false)) ;;
          note <- init a_title a_content a_category a_is_favorite files ;;
          now <- now_isoformat ;;
          a_created <- as_str (get d "created" (JStr now)) ;;
          a_modified <- as_str (get d "modified" (JStr a_created)) ;;
          ret (Make (title note) (content note) (category note) (is_favorite note)
                    (attached_files note) a_created a_modified)
      | _ => raise TypeError
      end.
End Methods.
End SecureNote.

(** ** src/models/card_entry.py *)

Module CardEntry.
Record t : Type := Make {
    title : string;
    card_type : string;
    card_number : string;
    cardholder_name : string;
    expiry_month : string;
    expiry_year : string;
    cvv : string;
    notes : string;
    category : string;
    is_favorite : bool;
    attached_files : list FileEntry.t;
    created : string;
    modified : string
  }.

Definition set_modified (now : string) (self : t) : t :=
    Make (title self) (card_type self) (card_number self) (cardholder_name self)
         (expiry_month self) (expiry_year self) (cvv self) (notes self)
         (category self) (is_favorite self) (attached_files self) (created self) now.

Section Methods.
Context `{Platform}.

Definition init (title card_type card_number cardholder_name expiry_month
        expiry_year cvv notes category : string) (is_favorite : bool)
        (attached_files : list FileEntry.t) : W t :=
      now <- now_isoformat ;;
      ret (Make title card_type card_number cardholder_name expiry_month
                expiry_year cvv notes category is_favorite attached_files now now).

Definition to_dict (self : t) : dict :=
      [ ("title", JStr (title self));
        ("card_type", JStr (card_type self));
        ("card_number", JStr (card_number self));
        ("cardholder_name", JStr (cardholder_name self));
        ("expiry_month", JStr (expiry_month self));
        ("expiry_year", JStr (expiry_year self));
        ("cvv", JStr (cvv self));
        ("notes", JStr (notes self));
        ("category", JStr (category self));
        ("is_favorite", JBool (is_favorite self));
        ("attached_files", JList (map (fun f => JDict (FileEntry.to_dict f)) (attached_files self)));
        ("created", JStr (created self));
        ("modified", JStr (modified self)) ].

Definition from_dict (data : json) : W t :=
      match data with
      | JDict d =>
          files <- FileEntry.attached_from_dict d ;;
          a_title <- item d "title" ;; a_title <- as_str a_title ;;
          a_card_type <- item d "card_type" ;; a_card_type <- as_str a_card_type ;;
          a_card_number <- item d "card_number" ;; a_card_number <- as_str a_card_number ;;
          a_cardholder_name <- item d "cardholder_name" ;;
          a_cardholder_name <- as_str a_cardholder_name ;;
          a_expiry_month <- item d "expiry_month" ;; a_expiry_month <- as_str a_expiry_month ;;
          a_expiry_year <- item d "expiry_year" ;; a_expiry_year <- as_str a_expiry_year ;;
          a_cvv <- as_str (get d "cvv" (JStr "")) ;;
          a_notes <- as_str (get d "notes" (JStr "")) ;;
          a_category <- as_str (get d "category" (JStr "Cards")) ;;
          a_is_favorite <- as_bool (get d "is_favorite" (JBool false)) ;;
          entry <- init a_title a_card_type a_card_number a_cardholder_name
                        a_expiry_month a_expiry_year a_cvv a_notes a_category
                        a_is_favorite files ;;
          now <- now_isoformat ;;
          a_created <- as_str (get d "created" (JStr now)) ;;
          a_modified <- as_str (get d "modified" (JStr a_created)) ;;
          ret (Make (title entry) (card_type entry) (card_number entry)
                    (cardholder_name entry) (expiry_month entry) (expiry_year entry)
                    (cvv entry) (notes entry) (category entry) (is_favorite entry)
                    (attached_files entry) a_created a_modified)
      | _ => raise TypeError
      end.
End Methods.
End CardEntry.

(** ** src/models/identity_entry.py *)

Module IdentityEntry.
Record t : Type := Make {
    title : string;
    first_name : string;
    last_name : string;
    email : string;
    phone : string;
    address : string;
    city : string;
    state : string;
    zip_code : string;
    country : string;
    date_of_birth : string;
    social_security_number : string;
    driver_license : string;
    passport_number : string;
    notes : string;
    category : string;
    is_favorite : bool;
    attached_files : list FileEntry.t;
    created : string;
    modified : string
  }.

Definition set_modified (now : string) (self : t) : t :=
    Make (title self) (first_name self) (last_name self) (email self) (phone self)
         (address self) (city self) (state self) (zip_code self) (country self)
         (date_of_birth self) (social_security_number self) (driver_license self)
         (passport_number self) (notes self) (category self) (is_favorite self)
         (attached_files self) (created self) now.

Section Methods.
Context `{Platform}.

Definition init (title first_name last_name email phone address city state
        zip_code country date_of_birth social_security_number driver_license
        passport_number notes category : string) (is_favorite : bool)
        (attached_files : list FileEntry.t) : W t :=
      now <- now_isoformat ;;
      ret (Make title first_name last_name email phone address city state
                zip_code country date_of_birth social_security_number
                driver_license passport_number notes category is_favorite
                attached_files now now).

Definition to_dict (self : t) : dict :=
      [ ("title", JStr (title self));
        ("first_name", JStr (first_name self));
        ("last_name", JStr (last_name self));
        ("email", JStr (email self));
        ("phone", JStr (phone self));
        ("address", JStr (address self));
        ("city", JStr (city self));
        ("state", JStr (state self));
        ("zip_code", JStr (zip_code self));
        ("country", JStr (country self));
        ("date_of_birth", JStr (date_of_birth self));
        ("social_security_number", JStr (social_security_number self));
        ("driver_license", JStr (driver_license self));
        ("passport_number", JStr (passport_number self));
        ("notes", JStr (notes self));
        ("category", JStr (category self));
        ("is_favorite", JBool (is_favorite self));
        ("attached_files", JList (map (fun f => JDict (FileEntry.to_dict f)) (attached_files self)));
        ("created", JStr (created self));
        ("modified", JStr (modified self)) ].

Definition from_dict (data : json) : W t :=
      match data with
      | JDict d =>
          files <- FileEntry.attached_from_dict d ;;
          a_title <- item d "title" ;; a_title <- as_str a_title ;;
          a_first_name <- item d "first_name" ;; a_first_name <- as_str a_first_name ;;
          a_last_name <- item d "last_name" ;; a_last_name <- as_str a_last_name ;;
          a_email <- as_str (get d "email" (JStr "")) ;;
          a_phone <- as_str (get d "phone" (JStr "")) ;;
          a_address <- as_str (get d "address" (JStr "")) ;;
          a_city <- as_str (get d "city" (JStr "")) ;;
          a_state <- as_str (get d "state" (JStr "")) ;;
          a_zip_code <- as_str (get d "zip_code" (JStr "")) ;;
          a_country <- as_str (get d "country" (JStr "")) ;;
          a_date_of_birth <- as_str (get d "date_of_birth" (JStr "")) ;;
          a_ssn <- as_str (get d "social_security_number" (JStr "")) ;;
          a_driver_license <- as_str (get d "driver_license" (JStr "")) ;;
          a_passport_number <- as_str (get d "passport_number" (JStr "")) ;;
          a_notes <- as_str (get d "notes" (JStr "")) ;;
          a_category <- as_str (get d "category" (JStr "Identity")) ;;
          a_is_favorite <- as_bool (get d "is_favorite" (JBool false)) ;;
          entry <- init a_title a_first_name a_last_name a_email a_phone a_address
                        a_city a_state a_zip_code a_country a_date_of_birth a_ssn
                        a_driver_license a_passport_number a_notes a_category
                        a_is_favorite files ;;
          now <- now_isoformat ;;
          a_created <- as_str (get d "created" (JStr now)) ;;
          a_modified <- as_str (get d "modified" (JStr a_created)) ;;
          ret (Make (title entry) (first_name entry) (last_name entry) (email entry)
                    (phone entry) (address entry) (city entry) (state entry)
                    (zip_code entry) (country entry) (date_of_birth entry)
                    (social_security_number entry) (driver_license entry)
                    (passport_number entry) (notes entry) (category entry)
                    (is_favorite entry) (attached_files entry) a_created a_modified)
      | _ => raise TypeError
      end.
End Methods.
End IdentityEntry.

(** ** src/core/encryption_manager.py *)

Module EncryptionManager.
Section Methods.
Context `{Platform}.

(** [cipher = Fernet(key)] is determined by [key]. *)
Record t : Type := Make {
      master_password : bytes;
      salt : bytes;
      key : fernet_key
    }.

Definition _derive_key (master_password salt : bytes) : fernet_key :=
      derive salt master_password.

(** [__init__(master_password, salt=None)] *)
Definition init (password : string) (a_salt : option bytes) : W t :=
      let pw := utf8_encode password in
      the_salt <- match a_salt with
                  | Some s => ret s
                  | None => fun w => (Ok (urandom16 (draws w)),
                                      World (ticks w) (Datatypes.S (draws w)) (decrypts w)
                                            (stdout w) (disk w))
                  end ;;
      ret (Make pw the_salt (_derive_key pw the_salt)).

Definition get_salt (self : t) : bytes := salt self.

Definition encrypt (self : t) (data : string) : W string :=
      fun w => (Ok (fernet_encrypt (key self) (draws w) data),
                World (ticks w) (Datatypes.S (draws w)) (decrypts w) (stdout w) (disk w)).

(** [encrypted_data.encode()] needs a [str]. *)
Definition decrypt (self : t) (encrypted_data : json) : W string :=
      match encrypted_data with
      | JStr token =>
          fun w =>
            let w' := World (ticks w) (draws w) (Datatypes.S (decrypts w)) (stdout w) (disk w) in
            match fernet_decrypt (key self) token with
            | inr data => (Ok data, w')
            | inl e => (Raise e, w')
            end
      | _ => raise AttributeError
      end.
End Methods.
End EncryptionManager.

(** ** Files of the application-data directory *)

(** What the operating system does to one [open(path, 'wb')] / [write]. *)
Inductive io_fault : Type :=
| NoFault
| OpenFails
| WriteFailsAfter (written : nat).

(** [with open(path, 'rb') as f: return f.read()] *)
Definition read_file (path : string) : W bytes :=
  fun w => match disk w !! path with
           | Some data => (Ok data, w)
           | None => (Raise (OSError "No such file or directory"), w)
           end.

(** [with open(path, 'wb') as f: f.write(data)]: opening truncates the file,
    a failing write leaves the bytes written so far. *)
Definition write_file (fault : io_fault) (path : string) (data : bytes) : W unit :=
  fun w =>
    let put content := World (ticks w) (draws w) (decrypts w) (stdout w)
                             (<[path := content]> (disk w)) in
    match fault with
    | NoFault => (Ok tt, put data)
    | OpenFails => (Raise (OSError "Permission denied"), w)
    | WriteFailsAfter n => (Raise (OSError "No space left on device"), put (take n data))
    end.

(** [os.path.exists(path)] *)
Definition path_exists (path : string) : W bool :=
  fun w => (Ok (bool_decide (is_Some (disk w !! path))), w).

(** [os.remove(path)]; [locked] tells the paths the operating system refuses
    to remove. *)
Definition remove_file (locked : string -> bool) (path : string) : W unit :=
  fun w =>
    match disk w !! path with
    | None => (Raise (OSError "No such file or directory"), w)
    | Some _ =>
        if locked path then (Raise (OSError "Permission denied"), w)
        else (Ok tt, World (ticks w) (draws w) (decrypts w) (stdout w)
                           (delete path (disk w)))
    end.

(** [os.urandom(16)] *)
Definition os_urandom16 `{Platform} : W bytes :=
  fun w => (Ok (urandom16 (draws w)),
            World (ticks w) (Datatypes.S (draws w)) (decrypts w) (stdout w) (disk w)).

(** ** src/core/user_manager.py *)

Module UserManager.
Record t : Type := Make {
    hashed_master_password : option bytes;
    vault_salt : option bytes;
    master_password_file : string;
    vault_salt_file : string
  }.

Section Methods.
Context `{Platform}.

Definition load_optional (path : string) (what : string) : W (option bytes) :=
      e <- path_exists path ;;
      if (e : bool) then
        try_except (data <- read_file path ;; ret (Some data))
                   (fun err => print (what +:+ exn_str err) ;;; ret None)
      else ret None.

Definition _load_master_password_hash (path : string) : W (option bytes) :=
      load_optional path "Error loading master password hash: ".

Definition _load_vault_salt (path : string) : W (option bytes) :=
      load_optional path "Error loading vault salt: ".

Definition init : W t :=
      let master_password_file := "luckeepass_master.dat" in
      let vault_salt_file := "luckeepass_vault_salt.dat" in
      h <- _load_master_password_hash master_password_file ;;
      s <- _load_vault_salt vault_salt_file ;;
      ret (Make h s master_password_file vault_salt_file).

(** [not self.hashed_master_password] holds for [None] and for [b""]. *)
Definition verify_master_password (self : t) (master_password : string) : W bool :=
      match hashed_master_password self with
      | None | Some [] => ret false
      | Some hashed =>
          try_except
            (match bcrypt_checkpw (utf8_encode master_password) hashed with
             | Some b => ret b
             | None => raise (ValueError "Invalid salt")
             end)
            (fun e => match e with
                      | ValueError msg =>
                          print ("Warning: Stored master password hash is invalid: "
                                 +:+ msg +:+ ". Please reset your password.") ;;;
                          ret false
                      | _ => raise e
                      end)
      end.

Definition get_vault_salt (self : t) : option bytes := vault_salt self.

Definition is_master_password_set (self : t) : bool :=
      match hashed_master_password self with Some _ => true | None => false end.

(** *** set_master_password, delete_user_data *)

Context `{Hashing}.

Definition set_vault_salt (v : option bytes) (self : t) : t :=
      Make (hashed_master_password self) v (master_password_file self)
           (vault_salt_file self).

(** The file is written; [self.hashed_master_password] is not assigned. *)
Definition _save_master_password_hash (fault : io_fault) (self : t)
        (hashed_password : bytes) : W unit :=
      try_except
        (write_file fault (master_password_file self) hashed_password)
        (fun e => print ("Error saving master password hash: " +:+ exn_str e)).

(** [self.vault_salt = salt] follows the write inside the [try]; the
        result is the object as the method leaves it. *)
Definition _save_vault_salt (fault : io_fault) (self : t) (salt : bytes) : W t :=
      try_except
        (write_file fault (vault_salt_file self) salt ;;;
         ret (set_vault_salt (Some salt) self))
        (fun e => print ("Error saving vault salt: " +:+ exn_str e) ;;; ret self).

(** [fault_hash] and [fault_salt] are what the operating system does to
        the two writes; the result is the object as the method leaves it. *)
Definition set_master_password (fault_hash fault_salt : io_fault) (self : t)
        (master_password : string) : W t :=
      hashed <- (fun w =>
                   let w' := World (ticks w) (Datatypes.S (draws w)) (decrypts w)
                                   (stdout w) (disk w) in
                   match bcrypt_hashpw (draws w) (utf8_encode master_password) with
                   | inr hashed => (Ok hashed, w')
                   | inl detail => (Raise (ValueError detail), w')
                   end) ;;
      _save_master_password_hash fault_hash self hashed ;;;
      match vault_salt self with
      | None =>
          new_salt <- os_urandom16 ;;
          _save_vault_salt fault_salt self new_salt
      | Some _ => ret self
      end.

(** [if os.path.exists(path): os.remove(path)] *)
Definition remove_if_exists (locked : string -> bool) (path : string) : W unit :=
      e <- path_exists path ;;
      if (e : bool) then remove_file locked path else ret tt.

Definition delete_user_data (locked : string -> bool) (self : t) : W unit :=
      try_except
        (remove_if_exists locked (master_password_file self) ;;;
         remove_if_exists locked (vault_salt_file self) ;;;
         let lp_path := "luckeepass_data.lp" in
         remove_if_exists locked lp_path)
        (fun e => print ("Error deleting user data: " +:+ exn_str e) ;;; raise e).
End Methods.
End UserManager.

(** ** src/core/password_generator.py *)

(** [len(s)], [s[n:]], [c in s], [s.replace(c, '')] on text *)
Definition str_len (s : string) : Z := Z.of_nat (String.length s).

Fixpoint str_drop (n : nat) (s : string) : string :=
  match n, s with
  | O, _ => s
  | Datatypes.S n', String _ rest => str_drop n' rest
  | Datatypes.S _, EmptyString => EmptyString
  end.

Fixpoint str_mem (c : ascii) (s : string) : bool :=
  match s with
  | EmptyString => false
  | String c' rest => if decide (c' = c) then true else str_mem c rest
  end.

Fixpoint str_any (p : ascii -> bool) (s : string) : bool :=
  match s with
  | EmptyString => false
  | String c rest => p c || str_any p rest
  end.

Fixpoint str_remove (c : ascii) (s : string) : string :=
  match s with
  | EmptyString => EmptyString
  | String c' rest => if decide (c' = c) then str_remove c rest
                      else String c' (str_remove c rest)
  end.

Module PasswordGenerator.
Record t : Type := Make {
    lowercase : string;
    uppercase : string;
    digits : string;
    symbols : string
  }.

Definition init : t :=
    Make "abcdefghijklmnopqrstuvwxyz" "ABCDEFGHIJKLMNOPQRSTUVWXYZ" "0123456789"
         "!@#$%^&*()_+-=[]{}|;:,.<>?".

Section Methods.
Context `{Platform}.

(** [secrets.choice(seq)] *)
Definition choice (seq : string) : W ascii :=
      fun w =>
        let n := String.length seq in
        let w' := World (ticks w) (Datatypes.S (draws w)) (decrypts w) (stdout w) (disk w) in
        match String.get (randbelow (draws w) n mod n)%nat seq with
        | Some c => (Ok c, w')
        | None => (Raise IndexError, w)
        end.

(** [''.join(secrets.choice(chars) for _ in range(n))] *)
Fixpoint join_choices (chars : string) (n : nat) : W string :=
      match n with
      | O => ret EmptyString
      | Datatypes.S n' =>
          c <- choice chars ;; rest <- join_choices chars n' ;; ret (String c rest)
      end.

Definition generate_password (self : t) (length : Z)
        (use_uppercase use_digits use_symbols exclude_similar : bool) : W string :=
      let chars := lowercase self in
      let chars := if use_uppercase then chars +:+ uppercase self else chars in
      let chars := if use_digits then chars +:+ digits self else chars in
      let chars := if use_symbols then chars +:+ symbols self else chars in
      let chars :=
        if exclude_similar then
          str_remove "5" (str_remove "S" (str_remove "0" (str_remove "O"
            (str_remove "I" (str_remove "1" (str_remove "l" chars))))))
        else chars in
      if str_len chars <? length then
        raise (ValueError "Character set too small for requested length")
      else
        password <- join_choices chars (Z.to_nat length) ;;
        password <-
          (if use_uppercase && negb (str_any (fun c => str_mem c (uppercase self)) password)
           then c <- choice (uppercase self) ;; ret (String c (str_drop 1 password))
           else ret password) ;;
        password <-
          (if use_digits && negb (str_any (fun c => str_mem c (digits self)) password)
           then c <- choice (digits self) ;; ret (String c (str_drop 2 password))
           else ret password) ;;
        password <-
          (if use_symbols && negb (str_any (fun c => str_mem c (symbols self)) password)
           then c <- choice (symbols self) ;; ret (String c (str_drop 3 password))
           else ret password) ;;
        ret password.
End Methods.
End PasswordGenerator.

(** ** src/utils/formatting.py *)

(** [range(0, stop, step)] for a positive [step] *)
Definition py_range (stop step : nat) : list nat :=
  map (fun k => (k * step)%nat) (seq 0 (Nat.div (stop + step - 1) step)).

(** [s[i:j]] for [0 <= i <= j] *)
Definition str_slice (i j : nat) (s : string) : string := substring i (j - i) s.

Definition format_card_number (card_number : string) : string :=
  let digits := str_filter isdigit card_number in
  String.concat " " (map (fun i => str_slice i (i + 4) digits)
                         (py_range (String.length digits) 4)).

Definition format_phone_number (phone : string) : string :=
  let digits := str_filter isdigit phone in
  let n := String.length digits in
  if (n =? 10)%nat then
    "(" +:+ str_slice 0 3 digits +:+ ") " +:+ str_slice 3 6 digits
        +:+ "-" +:+ str_drop 6 digits
  else if (n =? 11)%nat && bool_decide (String.get 0 digits = Some "1"%char) then
    "+1 (" +:+ str_slice 1 4 digits +:+ ") " +:+ str_slice 4 7 digits
           +:+ "-" +:+ str_drop 7 digits
  else if (10 <? n)%nat then
    let cc_len := (n - 10)%nat in
    let cc := str_slice 0 cc_len digits in
    let rest := str_drop cc_len digits in
    "+" +:+ cc +:+ " (" +:+ str_slice 0 3 rest +:+ ") " +:+ str_slice 3 6 rest
        +:+ "-" +:+ str_drop 6 rest
  else phone.

(** ** src/core/password_manager.py *)

Definition lp_header : bytes := list_byte_of_string "LUCKEEPASS_BACKUP_V1.0".
Definition lp_separator : bytes := [x00; xff; x00; xff].

(** [seq[index]] for a sequence of [n] elements: the position addressed, with
    Python's negative indices; [None] is [IndexError]. *)
Definition py_index (n : nat) (index : Z) : option nat :=
  if (0 <=? index) && (index <? Z.of_nat n) then Some (Z.to_nat index)
  else if (- Z.of_nat n <=? index) && (index <? 0) then Some (Z.to_nat (Z.of_nat n + index))
  else None.

(** One row of the favourites view: a stored record with the [type]
    attribute the property sets on it. *)
Inductive record : Type :=
| RPassword (e : PasswordEntry.t)
| RNote (e : SecureNote.t)
| RCard (e : CardEntry.t)
| RIdentity (e : IdentityEntry.t)
| RFile (e : FileEntry.t).

(** What [get_backup_info] returns: the four metadata values as the file
    holds them, and the five counts. *)
Record backup_info : Type := BackupInfo {
  app_name : json;
  company : json;
  version : json;
  created : json;
  password_count : Z;
  note_count : Z;
  card_count : Z;
  identity_count : Z;
  file_count : Z
}.

(** [len(v)] on a JSON value: lists, text and dicts have a length. *)
Definition py_len {S} (v : json) : ST S Z :=
  match v with
  | JList l => ret (len l)
  | JStr s => ret (str_len s)
  | JDict d => ret (len d)
  | _ => raise TypeError
  end.

Module PasswordManager.
Section Methods.
Context `{Platform}.

Record t : Type := Make {
      master_password : string;
      user_manager : UserManager.t;
      data_file : string;
      passwords : list PasswordEntry.t;
      notes : list SecureNote.t;
      cards : list CardEntry.t;
      identities : list IdentityEntry.t;
      files : list FileEntry.t;
      categories : gset string;
      encryption_manager : EncryptionManager.t
    }.

Definition set_passwords (v : list PasswordEntry.t) (self : t) : t :=
      Make (master_password self) (user_manager self) (data_file self) v (notes self)
           (cards self) (identities self) (files self) (categories self)
           (encryption_manager self).
Definition set_notes (v : list SecureNote.t) (self : t) : t :=
      Make (master_password self) (user_manager self) (data_file self) (passwords self) v
           (cards self) (identities self) (files self) (categories self)
           (encryption_manager self).
Definition set_cards (v : list CardEntry.t) (self : t) : t :=
      Make (master_password self) (user_manager self) (data_file self) (passwords self)
           (notes self) v (identities self) (files self) (categories self)
           (encryption_manager self).
Definition set_identities (v : list IdentityEntry.t) (self : t) : t :=
      Make (master_password self) (user_manager self) (data_file self) (passwords self)
           (notes self) (cards self) v (files self) (categories self)
           (encryption_manager self).
Definition set_files (v : list FileEntry.t) (self : t) : t :=
      Make (master_password self) (user_manager self) (data_file self) (passwords self)
           (notes self) (cards self) (identities self) v (categories self)
           (encryption_manager self).
Definition set_categories (v : gset string) (self : t) : t :=
      Make (master_password self) (user_manager self) (data_file self) (passwords self)
           (notes self) (cards self) (identities self) (files self) v
           (encryption_manager self).
Definition set_encryption_manager (v : EncryptionManager.t) (self : t) : t :=
      Make (master_password self) (user_manager self) (data_file self) (passwords self)
           (notes self) (cards self) (identities self) (files self) (categories self) v.

(** A method runs on [self] and the rest of the process state. *)
Definition M := ST (t * world).

Definition lift {A} (c : W A) : M A :=
      fun s => let (r, w') := c (snd s) in (r, (fst s, w')).

Definition self : M t := fun s => (Ok (fst s), s).

Definition update (f : t -> t) : M unit := fun s => (Ok tt, (f (fst s), snd s)).

(** [__init__(master_password, user_manager)] *)
Definition init (password : string) (um : UserManager.t) : W t :=
      em <- EncryptionManager.init password (UserManager.get_vault_salt um) ;;
      ret (Make password um "luckeepass_data.lp" [] [] [] [] [] ∅ em).

(** *** add / update / delete *)

(** [self.xs[index] = x] *)
Definition assign {A} (index : Z) (x : A) (l : list A) : M (list A) :=
      match py_index (length l) index with
      | Some i => ret (<[i := x]> l)
      | None => raise IndexError
      end.

(** [del self.xs[index]] *)
Definition del {A} (index : Z) (l : list A) : M (list A) :=
      match py_index (length l) index with
      | Some i => ret (delete i l)
      | None => raise IndexError
      end.

Definition add_password (entry : PasswordEntry.t) : M unit :=
      now <- lift now_isoformat ;;
      let entry := PasswordEntry.set_modified now entry in
      update (fun m => set_passwords (passwords m ++ [entry]) m) ;;;
      update (fun m => set_categories ({[PasswordEntry.category entry]} ∪ categories m) m).

Definition update_password (index : Z) (entry : PasswordEntry.t) : M unit :=
      now <- lift now_isoformat ;;
      let entry := PasswordEntry.set_modified now entry in
      m <- self ;;
      l <- assign index entry (passwords m) ;;
      update (set_passwords l) ;;;
      update (fun m => set_categories ({[PasswordEntry.category entry]} ∪ categories m) m).

Definition delete_password (index : Z) : M unit :=
      m <- self ;;
      l <- del index (passwords m) ;;
      update (set_passwords l).

Definition add_note (note : SecureNote.t) : M unit :=
      now <- lift now_isoformat ;;
      let note := SecureNote.set_modified now note in
      update (fun m => set_notes (notes m ++ [note]) m) ;;;
      update (fun m => set_categories ({[SecureNote.category note]} ∪ categories m) m).

Definition update_note (index : Z) (note : SecureNote.t) : M unit :=
      now <- lift now_isoformat ;;
      let note := SecureNote.set_modified now note in
      m <- self ;;
      l <- assign index note (notes m) ;;
      update (set_notes l) ;;;
      update (fun m => set_categories ({[SecureNote.category note]} ∪ categories m) m).

Definition delete_note (index : Z) : M unit :=
      m <- self ;;
      l <- del index (notes m) ;;
      update (set_notes l).

Definition add_card (card : CardEntry.t) : M unit :=
      now <- lift now_isoformat ;;
      let card := CardEntry.set_modified now card in
      update (fun m => set_cards (cards m ++ [card]) m) ;;;
      update (fun m => set_categories ({[CardEntry.category card]} ∪ categories m) m).

Definition update_card (index : Z) (card : CardEntry.t) : M unit :=
      now <- lift now_isoformat ;;
      let card := CardEntry.set_modified now card in
      m <- self ;;
      l <- assign index card (cards m) ;;
      update (set_cards l) ;;;
      update (fun m => set_categories ({[CardEntry.category card]} ∪ categories m) m).

Definition delete_card (index : Z) : M unit :=
      m <- self ;;
      l <- del index (cards m) ;;
      update (set_cards l).

Definition add_identity (identity : IdentityEntry.t) : M unit :=
      now <- lift now_isoformat ;;
      let identity := IdentityEntry.set_modified now identity in
      update (fun m => set_identities (identities m ++ [identity]) m) ;;;
      update (fun m => set_categories ({[IdentityEntry.category identity]} ∪ categories m) m).

Definition update_identity (index : Z) (identity : IdentityEntry.t) : M unit :=
      now <- lift now_isoformat ;;
      let identity := IdentityEntry.set_modified now identity in
      m <- self ;;
      l <- assign index identity (identities m) ;;
      update (set_identities l) ;;;
      update (fun m => set_categories ({[IdentityEntry.category identity]} ∪ categories m) m).

Definition delete_identity (index : Z) : M unit :=
      m <- self ;;
      l <- del index (identities m) ;;
      update (set_identities l).

Definition add_file (file_entry : FileEntry.t) : M unit :=
      now <- lift now_isoformat ;;
      let file_entry := FileEntry.set_modified now file_entry in
      update (fun m => set_files (files m ++ [file_entry]) m) ;;;
      update (fun m => set_categories ({[FileEntry.category file_entry]} ∪ categories m) m).

Definition update_file (index : Z) (file_entry : FileEntry.t) : M unit :=
      now <- lift now_isoformat ;;
      let file_entry := FileEntry.set_modified now file_entry in
      m <- self ;;
      l <- assign index file_entry (files m) ;;
      update (set_files l) ;;;
      update (fun m => set_categories ({[FileEntry.category file_entry]} ∪ categories m) m).

Definition delete_file (index : Z) : M unit :=
      m <- self ;;
      l <- del index (files m) ;;
      update (set_files l).

(** *** export_data *)

(** [encrypted[k] = self.encryption_manager.encrypt(entry[k])];
        [data.encode()] needs a [str]. *)
Definition encrypt_field (k : string) (entry encrypted : dict) : M dict :=
      v <- item entry k ;;
      data <- match v with JStr s => ret s | _ => raise AttributeError end ;;
      m <- self ;;
      token <- lift (EncryptionManager.encrypt (encryption_manager m) data) ;;
      ret (dict_set k (JStr token) encrypted).

Definition encrypt_password (entry : dict) : M json :=
      let encrypted_entry := entry in
      encrypted_entry <- encrypt_field "password" entry encrypted_entry ;;
      encrypted_entry <- encrypt_field "notes" entry encrypted_entry ;;
      ret (JDict encrypted_entry).

Definition encrypt_note (note : dict) : M json :=
      let encrypted_note := note in
      encrypted_note <- encrypt_field "content" note encrypted_note ;;
      ret (JDict encrypted_note).

Definition encrypt_card (card : dict) : M json :=
      let encrypted_card := card in
      encrypted_card <- encrypt_field "card_number" card encrypted_card ;;
      encrypted_card <- encrypt_field "cvv" card encrypted_card ;;
      encrypted_card <- encrypt_field "notes" card encrypted_card ;;
      ret (JDict encrypted_card).

Definition encrypt_identity (identity : dict) : M json :=
      let encrypted_identity := identity in
      encrypted_identity <- encrypt_field "social_security_number" identity encrypted_identity ;;
      encrypted_identity <- encrypt_field "driver_license" identity encrypted_identity ;;
      encrypted_identity <- encrypt_field "passport_number" identity encrypted_identity ;;
      encrypted_identity <- encrypt_field "notes" identity encrypted_identity ;;
      ret (JDict encrypted_identity).

Definition encrypt_file (file : dict) : M json :=
      let encrypted_file := file in
      encrypted_file <- encrypt_field "file_data" file encrypted_file ;;
      encrypted_file <- encrypt_field "notes" file encrypted_file ;;
      ret (JDict encrypted_file).

(** The document [json.dumps] receives. *)
Definition envelope (e_passwords e_notes e_cards e_identities e_files : list json)
        (created encryption_salt : string) : json :=
      JDict [ ("passwords", JList e_passwords);
              ("notes", JList e_notes);
              ("cards", JList e_cards);
              ("identities", JList e_identities);
              ("files", JList e_files);
              ("version", JStr "1.0");
              ("app_name", JStr "LuckeePass");
              ("company", JStr "LuckeeSoft");
              ("created", JStr created);
              ("encryption_salt", JStr encryption_salt) ].

Definition export_data : M bytes :=
      m <- self ;;
      let d_passwords := map PasswordEntry.to_dict (passwords m) in
      let d_notes := map SecureNote.to_dict (notes m) in
      let d_cards := map CardEntry.to_dict (cards m) in
      let d_identities := map IdentityEntry.to_dict (identities m) in
      let d_files := map FileEntry.to_dict (files m) in
      created <- lift now_isoformat ;;
      let encryption_salt :=
        b64encode (EncryptionManager.get_salt (encryption_manager m)) in
      e_passwords <- map_st encrypt_password d_passwords ;;
      e_notes <- map_st encrypt_note d_notes ;;
      e_cards <- map_st encrypt_card d_cards ;;
      e_identities <- map_st encrypt_identity d_identities ;;
      e_files <- map_st encrypt_file d_files ;;
      let encrypted_data :=
        envelope e_passwords e_notes e_cards e_identities e_files created encryption_salt in
      let json_data := json_dumps encrypted_data in
      ret (lp_header ++ lp_separator ++ utf8_encode json_data)%list.

(** *** is_valid_lp_file *)

Definition is_valid_lp_file (file_path : string) : W bool :=
      try_except (data <- read_file file_path ;; ret (startswith data lp_header))
                 (fun _ => ret false).

(** *** import_data *)

(** [entry[k] = self.encryption_manager.decrypt(entry[k])] *)
Definition decrypt_field (k : string) (entry : dict) : M dict :=
      v <- item entry k ;;
      m <- self ;;
      data <- lift (EncryptionManager.decrypt (encryption_manager m) v) ;;
      ret (dict_set k (JStr data) entry).

(** [self.categories.add(entry['category'])] *)
Definition add_category (entry : dict) : M unit :=
      c <- item entry "category" ;;
      c <- as_str c ;;
      update (fun m => set_categories ({[c]} ∪ categories m) m).

(** [entry = entry_data.copy()]: dicts and lists have [copy], and a list
        cannot be subscripted by a key. *)
Definition copy_entry (entry_data : json) : M dict :=
      match entry_data with
      | JDict d => ret d
      | JList _ => raise TypeError
      | _ => raise AttributeError
      end.

(** The [except Exception as e] block of every loop; [entry_data.get]
        needs a dict. *)
Definition skip_with_warning (what : string) (entry_data : json) (e : exn) : M unit :=
      match entry_data with
      | JDict d => lift (warn what (get d "title" (JStr "Unknown")) e)
      | _ => raise AttributeError
      end.

Definition load_password (entry_data : json) : M unit :=
      try_except
        (entry <- copy_entry entry_data ;;
         entry <- decrypt_field "password" entry ;;
         entry <- decrypt_field "notes" entry ;;
         e <- lift (PasswordEntry.from_dict (JDict entry)) ;;
         update (fun m => set_passwords (passwords m ++ [e]) m) ;;;
         add_category entry)
        (skip_with_warning "password entry" entry_data).

Definition load_note (note_data : json) : M unit :=
      try_except
        (note <- copy_entry note_data ;;
         note <- decrypt_field "content" note ;;
         e <- lift (SecureNote.from_dict (JDict note)) ;;
         update (fun m => set_notes (notes m ++ [e]) m) ;;;
         add_category note)
        (skip_with_warning "note" note_data).

Definition load_card (card_data : json) : M unit :=
      try_except
        (card <- copy_entry card_data ;;
         card <- decrypt_field "card_number" card ;;
         card <- decrypt_field "cvv" card ;;
         card <- decrypt_field "notes" card ;;
         e <- lift (CardEntry.from_dict (JDict card)) ;;
         update (fun m => set_cards (cards m ++ [e]) m) ;;;
         add_category card)
        (skip_with_warning "card entry" card_data).

Definition load_identity (identity_data : json) : M unit :=
      try_except
        (identity <- copy_entry identity_data ;;
         identity <- decrypt_field "social_security_number" identity ;;
         identity <- decrypt_field "driver_license" identity ;;
         identity <- decrypt_field "passport_number" identity ;;
         identity <- decrypt_field "notes" identity ;;
         e <- lift (IdentityEntry.from_dict (JDict identity)) ;;
         update (fun m => set_identities (identities m ++ [e]) m) ;;;
         add_category identity)
        (skip_with_warning "identity entry" identity_data).

Definition load_file (file_data : json) : M unit :=
      try_except
        (file <- copy_entry file_data ;;
         file <- decrypt_field "file_data" file ;;
         file <- decrypt_field "notes" file ;;
         e <- lift (FileEntry.from_dict (JDict file)) ;;
         update (fun m => set_files (files m ++ [e]) m) ;;;
         add_category file)
        (skip_with_warning "file" file_data).

(** [data.get('app_name') != 'LuckeePass'] *)
Definition foreign (d : dict) : bool :=
      match dict_get "app_name" d with
      | Some (JStr name) => negb (bool_decide (name = "LuckeePass"))
      | _ => true
      end.

(** The five loops of [import_data]: each collection is emptied, then
    loaded record by record. *)
Definition load_collections (d : dict) : M unit :=
  update (set_passwords []) ;;;
  l <- py_iter (get d "passwords" (JList [])) ;;
  for_each l load_password ;;;
  update (set_notes []) ;;;
  l <- py_iter (get d "notes" (JList [])) ;;
  for_each l load_note ;;;
  update (set_cards []) ;;;
  l <- py_iter (get d "cards" (JList [])) ;;
  for_each l load_card ;;;
  update (set_identities []) ;;;
  l <- py_iter (get d "identities" (JList [])) ;;
  for_each l load_identity ;;;
  update (set_files []) ;;;
  l <- py_iter (get d "files" (JList [])) ;;
  for_each l load_file.

(** [if 'encryption_salt' in data: self.encryption_manager =
    EncryptionManager(self.master_password, salt=b64decode(...))] *)
Definition adopt_salt (d : dict) : M unit :=
  if contains d "encryption_salt" then
    raw <- item d "encryption_salt" ;;
    salt <- py_b64decode raw ;;
    m <- self ;;
    em <- lift (EncryptionManager.init (master_password m) (Some salt)) ;;
    update (set_encryption_manager em)
  else ret tt.

(** The part of [import_data] after [json.loads]; [data.get] needs a dict. *)
Definition import_document (data : json) : M unit :=
  match data with
  | JDict d =>
      if foreign d then
        raise (ValueError "Invalid .lp file format. This file was not created by LuckeePass.")
      else
        adopt_salt d ;;;
        load_collections d
  | _ => raise AttributeError
  end.

Definition import_data (lp_data : bytes) : M unit :=
      if negb (startswith lp_data lp_header) then
        raise (ValueError "Invalid .lp file format. This file was not created by LuckeePass.")
      else
        let separator_pos := find lp_data lp_separator in
        if separator_pos =? -1 then
          raise (ValueError "Invalid .lp file format. Corrupted file.")
        else
          let json_start := separator_pos + len lp_separator in
          if json_start >=? len lp_data then
            raise (ValueError "Invalid .lp file format. File too short.")
          else
            match utf8_decode (slice_from json_start lp_data) with
            | None => raise (ValueError "Invalid .lp file format. Corrupted data encoding.")
            | Some json_data =>
                match json_loads json_data with
                | inl (JSONDecodeError detail) =>
                    raise (ValueError ("Invalid .lp file format. Corrupted JSON data: "
                                       +:+ detail))
                | inl e => raise e
                | inr data => import_document data
                end
            end.

(** *** get_backup_info *)

(** The part of [get_backup_info] after [json.loads]; [backup_data.get]
        needs a dict. *)
Definition backup_summary (backup_data : json) : W backup_info :=
      match backup_data with
      | JDict d =>
          if foreign d then
            raise (ValueError "Invalid .lp file format. This file was not created by LuckeePass.")
          else
            n_passwords <- py_len (get d "passwords" (JList [])) ;;
            n_notes <- py_len (get d "notes" (JList [])) ;;
            n_cards <- py_len (get d "cards" (JList [])) ;;
            n_identities <- py_len (get d "identities" (JList [])) ;;
            n_files <- py_len (get d "files" (JList [])) ;;
            ret (BackupInfo (get d "app_name" (JStr "Unknown"))
                            (get d "company" (JStr "Unknown"))
                            (get d "version" (JStr "Unknown"))
                            (get d "created" (JStr "Unknown"))
                            n_passwords n_notes n_cards n_identities n_files)
      | _ => raise AttributeError
      end.

Definition get_backup_info (file_path : string) : W backup_info :=
      try_except
        (data <- read_file file_path ;;
         if negb (startswith data lp_header) then
           raise (ValueError "Invalid .lp file format")
         else
           let separator_pos := find data lp_separator in
           if separator_pos =? -1 then
             raise (ValueError "Invalid .lp file format")
           else
             let json_start := separator_pos + len lp_separator in
             if json_start >=? len data then
               raise (ValueError "Invalid .lp file format. File too short.")
             else
               match utf8_decode (slice_from json_start data) with
               | None => raise (ValueError "Invalid .lp file format. Corrupted data encoding.")
               | Some json_data =>
                   match json_loads json_data with
                   | inl (JSONDecodeError detail) =>
                       raise (ValueError ("Invalid .lp file format. Corrupted JSON data: "
                                          +:+ detail))
                   | inl e => raise e
                   | inr backup_data => backup_summary backup_data
                   end
               end)
        (fun e => raise (ValueError ("Could not read backup file: " +:+ exn_str e))).

(** *** save_data, load_data, clear_all_data *)

Definition save_data (fault : io_fault) : M unit :=
      try_except
        (lp_data <- export_data ;;
         m <- self ;;
         lift (write_file fault (data_file m) lp_data))
        (fun e => raise (Exception ("Failed to save data: " +:+ exn_str e))).

(** The assignments both [except] blocks of [load_data] make. *)
Definition start_fresh (m : t) : t :=
      set_categories ∅ (set_identities [] (set_cards [] (set_notes [] (set_passwords [] m)))).

Definition load_data : M unit :=
      m <- self ;;
      e <- lift (path_exists (data_file m)) ;;
      if (e : bool) then
        try_except
          (lp_data <- lift (read_file (data_file m)) ;;
           if len lp_data =? 0 then ret tt
           else
             try_except
               (import_data lp_data)
               (fun _ =>
                  lift (print "This usually means the master password is different from when the data was created.") ;;;
                  lift (print "Starting with fresh data. You can delete the data file to avoid this message.") ;;;
                  update start_fresh))
          (fun _ =>
             lift (print "Starting with fresh data") ;;;
             update start_fresh)
      else lift (print "No existing data file found, starting fresh").

Definition clear_all_data (fault : io_fault) : M unit :=
      update (fun m => set_categories ∅ (set_files [] (set_identities [] (set_cards []
                        (set_notes [] (set_passwords [] m)))))) ;;;
      try_except (save_data fault)
                 (fun e => lift (print ("Error clearing data: " +:+ exn_str e))).

(** *** favorites *)

(** One loop of the property: [if entry.is_favorite: entry.type = label;
        favs.append(entry)]. *)
Fixpoint collect {A} (is_favorite : A -> bool) (label : string) (wrap : A -> record)
        (l : list A) (favs : list (string * record)) : list (string * record) :=
      match l with
      | [] => favs
      | entry :: rest =>
          collect is_favorite label wrap rest
                  (if is_favorite entry then favs ++ [(label, wrap entry)] else favs)
      end.

Definition favorites (m : t) : list (string * record) :=
      let favs := [] in
      let favs := collect PasswordEntry.is_favorite "Password" RPassword (passwords m) favs in
      let favs := collect SecureNote.is_favorite "Secure Note" RNote (notes m) favs in
      let favs := collect CardEntry.is_favorite "Card" RCard (cards m) favs in
      let favs := collect IdentityEntry.is_favorite "Identity" RIdentity (identities m) favs in
      let favs := collect FileEntry.is_favorite "File" RFile (files m) favs in
      favs.
End Methods.
End PasswordManager.

(** ** An executable platform

    A stand-in for the libraries, small enough to run: text is its own
    encoding, a key is the framed password followed by the salt, a token is
    the framed key, the framed draw and the plaintext in clear, and a JSON
    document is printed as the binary digits of its code. *)

Module Toy.
(** [n] ones, a zero, then [k]: a prefix from which [k] can be read back. *)
Fixpoint ones (n : nat) : string :=
    match n with
    | O => EmptyString
    | Datatypes.S n' => String "1" (ones n')
    end.

Definition frame (k : string) : string :=
    ones (String.length k) +:+ String "0" k.

Fixpoint strip_ones (s : string) : nat * string :=
    match s with
    | String c rest =>
        if decide (c = "1"%char)
        then let (n, rest') := strip_ones rest in (Datatypes.S n, rest')
        else (O, s)
    | EmptyString => (O, s)
    end.

Fixpoint split_at (n : nat) (s : string) : option (string * string) :=
    match n, s with
    | O, _ => Some (EmptyString, s)
    | Datatypes.S n', String c rest =>
        match split_at n' rest with
        | Some (a, b) => Some (String c a, b)
        | None => None
        end
    | Datatypes.S _, EmptyString => None
    end.

Definition unframe (s : string) : option (string * string) :=
    let (n, rest) := strip_ones s in
    match rest with
    | String c rest' => if decide (c = "0"%char) then split_at n rest' else None
    | EmptyString => None
    end.

Definition kdf (salt password : bytes) : string :=
    frame (string_of_list_byte password) +:+ string_of_list_byte salt.

Definition encrypt (key : string) (draw : nat) (data : string) : string :=
    frame key +:+ frame (ones draw) +:+ data.

Definition decrypt (key : string) (token : string) : exn + string :=
    match unframe token with
    | Some (k, rest) =>
        if decide (k = key) then
          match unframe rest with
          | Some (_, data) => inr data
          | None => inl InvalidToken
          end
        else inl InvalidToken
    | None => inl InvalidToken
    end.

(** JSON documents as trees over their atoms. *)
Abbreviation atom := (bool + (Z + string))%type.

Fixpoint to_tree (j : json) : gen_tree atom :=
    match j with
    | JNull => GenNode 0 []
    | JBool b => GenLeaf (inl b)
    | JInt n => GenLeaf (inr (inl n))
    | JStr s => GenLeaf (inr (inr s))
    | JList l => GenNode 1 (map to_tree l)
    | JDict d =>
        GenNode 2 (map (fun kv => GenNode 3 [GenLeaf (inr (inr (fst kv))); to_tree (snd kv)]) d)
    end.

Fixpoint of_tree (t : gen_tree atom) : option json :=
    match t with
    | GenLeaf (inl b) => Some (JBool b)
    | GenLeaf (inr (inl n)) => Some (JInt n)
    | GenLeaf (inr (inr s)) => Some (JStr s)
    | GenNode 0 [] => Some JNull
    | GenNode 1 ts =>
        option_map JList
          ((fix go (ts : list (gen_tree atom)) : option (list json) :=
              match ts with
              | [] => Some []
              | t :: ts' =>
                  match of_tree t, go ts' with
                  | Some j, Some js => Some (j :: js)
                  | _, _ => None
                  end
              end) ts)
    | GenNode 2 ts =>
        option_map JDict
          ((fix go (ts : list (gen_tree atom)) : option dict :=
              match ts with
              | [] => Some []
              | GenNode 3 [GenLeaf (inr (inr k)); tv] :: ts' =>
                  match of_tree tv, go ts' with
                  | Some v, Some kvs => Some ((k, v) :: kvs)
                  | _, _ => None
                  end
              | _ => None
              end) ts)
    | _ => None
    end.

Fixpoint digits_of (p : positive) : string :=
    match p with
    | xH => "."
    | xO p' => String "0" (digits_of p')
    | xI p' => String "1" (digits_of p')
    end.

Fixpoint of_digits (s : string) : option positive :=
    match s with
    | String c rest =>
        if decide (c = "."%char) then
          match rest with EmptyString => Some xH | _ => None end
        else if decide (c = "0"%char) then option_map xO (of_digits rest)
        else if decide (c = "1"%char) then option_map xI (of_digits rest)
        else None
    | EmptyString => None
    end.

Definition dumps (j : json) : string := digits_of (encode (to_tree j)).

Definition loads (s : string) : exn + json :=
    match of_digits s with
    | Some p =>
        match decode p with
        | Some t => match of_tree t with
                    | Some j => inr j
                    | None => inl (JSONDecodeError "not a document")
                    end
        | None => inl (JSONDecodeError "not a tree")
        end
    | None => inl (JSONDecodeError "not a number")
    end.

#[export] Instance platform : Platform := {|
    clock n := "2025-01-01T00:00:0" +:+ String (ascii_of_nat (48 + n mod 10)) "";
    urandom16 n := replicate 16 "*"%byte;
    randbelow n k := O;
    fernet_key := string;
    derive := kdf;
    fernet_encrypt := encrypt;
    fernet_decrypt := decrypt;
    b64encode := string_of_list_byte;
    b64decode s := Some (list_byte_of_string s);
    utf8_encode := list_byte_of_string;
    utf8_decode data := Some (string_of_list_byte data);
    json_dumps := dumps;
    json_loads := loads;
    bcrypt_checkpw password hashed := Some (bool_decide (password = hashed))
  |}.

(** A hash is the password itself, as [bcrypt_checkpw] above expects. *)
#[export] Instance hashing : Hashing := {|
    bcrypt_hashpw n password := inr password
  |}.
End Toy.

(** ** A platform that pads passwords as HMAC pads keys

    PBKDF2-HMAC uses the password as the key of HMAC, and HMAC fills a key
    shorter than the block of its hash, 64 bytes for SHA-256, with zero
    bytes: a password and the same password followed by NUL bytes are one
    key to it.  This platform is the one above with that padding in its key
    derivation (a longer password, which HMAC hashes first, is left as it
    is), and with base64 text recognised by a leading mark, so that not
    every text decodes. *)

Module Padded.
Definition hmac_key (password : bytes) : bytes :=
    (password ++ replicate (64 - length password) x00)%list.

Definition kdf (salt password : bytes) : string :=
    Toy.kdf salt (hmac_key password).

Definition encode64 (data : bytes) : string :=
    String "="%char (string_of_list_byte data).

Definition decode64 (text : string) : option bytes :=
    match text with
    | String c rest =>
        if decide (c = "="%char) then Some (list_byte_of_string rest) else None
    | EmptyString => None
    end.

Definition platform : Platform := {|
    clock n := "2025-01-01T00:00:0" +:+ String (ascii_of_nat (48 + n mod 10)) "";
    urandom16 n := replicate 16 "*"%byte;
    randbelow n k := O;
    fernet_key := string;
    derive := kdf;
    fernet_encrypt := Toy.encrypt;
    fernet_decrypt := Toy.decrypt;
    b64encode := encode64;
    b64decode := decode64;
    utf8_encode := list_byte_of_string;
    utf8_decode data := Some (string_of_list_byte data);
    json_dumps := Toy.dumps;
    json_loads := Toy.loads;
    bcrypt_checkpw password hashed := Some (bool_decide (password = hashed))
  |}.
End Padded.

(** * Vocabulary of the statements

    What the theorems below say about the methods is phrased with the
    definitions of this part: the effect of a method on the world, the
    document an export writes, an envelope at rest and the records it opens
    to. *)

Section Vocabulary.
Context `{Platform}.
Import PasswordManager.

(** The world after one reading of the clock: nothing else changes, the
    files least of all. *)
Definition tick (w : world) : world :=
  World (Datatypes.S (ticks w)) (draws w) (decrypts w) (stdout w) (disk w).

(** The state an [add_X] or a successful [update_X] leaves: the collection
    is [l'], the category of the stamped record [e'] is in the category set,
    the clock was read once. *)
Definition stamped {A} (set_list : list A -> t -> t) (category : A -> string)
    (l' : list A) (e' : A) (m : t) (w : world) : outcome unit * (t * world) :=
  (Ok tt, (set_categories ({[category e']} ∪ categories m) (set_list l' m), tick w)).

(** What [update_X(index, e)] does, [e'] being [e] with the new [modified]. *)
Definition updated {A} (set_list : list A -> t -> t) (category : A -> string)
    (l : list A) (index : Z) (e' : A) (m : t) (w : world) : outcome unit * (t * world) :=
  match py_index (length l) index with
  | Some i => stamped set_list category (<[i := e']> l) e' m w
  | None => (Raise IndexError, (m, tick w))
  end.

(** What [delete_X(index)] does. *)
Definition deleted {A} (set_list : list A -> t -> t) (l : list A) (index : Z)
    (m : t) (w : world) : outcome unit * (t * world) :=
  match py_index (length l) index with
  | Some i => (Ok tt, (set_list (delete i l) m, w))
  | None => (Raise IndexError, (m, w))
  end.

(** The world after [k] more readings of the entropy source. *)
Definition draw (k : nat) (w : world) : world :=
  World (ticks w) (k + draws w) (decrypts w) (stdout w) (disk w).

(** A record as [export_data] writes it: the dict of [to_dict] with every
    sensitive field replaced by its token, the n-th, (n+1)-th, ... drawn. *)
Definition sealed_password (k : fernet_key) (n : nat) (e : PasswordEntry.t) : json :=
  JDict (dict_set "notes" (JStr (fernet_encrypt k (1 + n) (PasswordEntry.notes e)))
        (dict_set "password" (JStr (fernet_encrypt k n (PasswordEntry.password e)))
        (PasswordEntry.to_dict e))).

Definition sealed_note (k : fernet_key) (n : nat) (e : SecureNote.t) : json :=
  JDict (dict_set "content" (JStr (fernet_encrypt k n (SecureNote.content e)))
        (SecureNote.to_dict e)).

Definition sealed_card (k : fernet_key) (n : nat) (e : CardEntry.t) : json :=
  JDict (dict_set "notes" (JStr (fernet_encrypt k (2 + n) (CardEntry.notes e)))
        (dict_set "cvv" (JStr (fernet_encrypt k (1 + n) (CardEntry.cvv e)))
        (dict_set "card_number" (JStr (fernet_encrypt k n (CardEntry.card_number e)))
        (CardEntry.to_dict e)))).

Definition sealed_identity (k : fernet_key) (n : nat) (e : IdentityEntry.t) : json :=
  JDict (dict_set "notes" (JStr (fernet_encrypt k (3 + n) (IdentityEntry.notes e)))
        (dict_set "passport_number"
                  (JStr (fernet_encrypt k (2 + n) (IdentityEntry.passport_number e)))
        (dict_set "driver_license"
                  (JStr (fernet_encrypt k (1 + n) (IdentityEntry.driver_license e)))
        (dict_set "social_security_number"
                  (JStr (fernet_encrypt k n (IdentityEntry.social_security_number e)))
        (IdentityEntry.to_dict e))))).

Definition sealed_file (k : fernet_key) (n : nat) (e : FileEntry.t) : json :=
  JDict (dict_set "notes" (JStr (fernet_encrypt k (1 + n) (FileEntry.notes e)))
        (dict_set "file_data" (JStr (fernet_encrypt k n (b64encode (FileEntry.file_data e))))
        (FileEntry.to_dict e))).

(** A collection sealed record after record, [per] tokens each. *)
Fixpoint sealed_list {A} (seal : nat -> A -> json) (per : nat) (n : nat) (l : list A)
    : list json :=
  match l with
  | [] => []
  | e :: rest => seal n e :: sealed_list seal per (per + n) rest
  end.

(** The number of tokens a vault takes. *)
Definition tokens (m : t) : nat :=
  (2 * length (files m) + (4 * length (identities m) + (3 * length (cards m)
   + (1 * length (notes m) + (2 * length (passwords m) + 0)))))%nat.

(** The document [export_data] serialises for the vault of [m], when the
    clock reads [created] and [n] tokens were drawn before. *)
Definition exported (m : t) (created : string) (n : nat) : json :=
  let k := EncryptionManager.key (encryption_manager m) in
  let n1 := (2 * length (passwords m) + n)%nat in
  let n2 := (1 * length (notes m) + n1)%nat in
  let n3 := (3 * length (cards m) + n2)%nat in
  let n4 := (4 * length (identities m) + n3)%nat in
  envelope (sealed_list (sealed_password k) 2 n (passwords m))
           (sealed_list (sealed_note k) 1 n1 (notes m))
           (sealed_list (sealed_card k) 3 n2 (cards m))
           (sealed_list (sealed_identity k) 4 n3 (identities m))
           (sealed_list (sealed_file k) 2 n4 (files m))
           created
           (b64encode (EncryptionManager.get_salt (encryption_manager m))).

(** The world with [content] written to [path]. *)
Definition with_file (path : string) (content : bytes) (w : world) : world :=
  World (ticks w) (draws w) (decrypts w) (stdout w) (<[path := content]> (disk w)).

(** The bytes [export_data] returns in the state [(m, w)]. *)
Definition exported_bytes (m : t) (w : world) : bytes :=
  (lp_header ++ lp_separator
   ++ utf8_encode (json_dumps (exported m (clock (ticks w)) (draws w))))%list.

(** The session's encryption manager after [adopt_salt]: built from the
    session's master password and the salt the document carries. *)
Definition rekeyed (m : t) (salt : bytes) : t :=
  set_encryption_manager
    (EncryptionManager.Make (utf8_encode (master_password m)) salt
       (derive salt (utf8_encode (master_password m)))) m.

(** The world after the two lines [load_data] prints when the import
    raises. *)
Definition after_failed_import (w : world) : world :=
  World (ticks w) (draws w) (decrypts w)
        ((stdout w ++
          [Printed "This usually means the master password is different from when the data was created."])
         ++ [Printed "Starting with fresh data. You can delete the data file to avoid this message."])
        (disk w).

(** A piece of a method that leaves [self.encryption_manager] alone. *)
Definition keeps_key {A} (c : M A) : Prop :=
  forall s, encryption_manager (fst (snd (c s))) = encryption_manager (fst s).

(** The world after [t] more readings of the clock and [d] more calls of
    [Fernet.decrypt]. *)
Definition advance (t d : nat) (w : world) : world :=
  World (t + ticks w) (draws w) (d + decrypts w) (stdout w) (disk w).

(** The state after a record [e] was loaded into its collection. *)
Definition loaded {A} (set_list : list A -> t -> t) (l : list A) (category : string)
    (m : t) : t :=
  set_categories ({[category]} ∪ categories m) (set_list l m).

(** The category set after the categories [cs] were added one by one. *)
Fixpoint add_categories (cs : list string) (C : gset string) : gset string :=
  match cs with
  | [] => C
  | c :: rest => add_categories rest ({[c]} ∪ C)
  end.

(** A record at rest is the record with tokens in its sensitive fields; a
    file at rest is the file with its payload replaced by a token.  [open_X]
    is the record the tokens decrypt to under [k], or the exception of the
    first step that fails. *)
Definition open_password (k : fernet_key) (r : PasswordEntry.t) : exn + PasswordEntry.t :=
  match fernet_decrypt k (PasswordEntry.password r) with
  | inl x => inl x
  | inr p =>
      match fernet_decrypt k (PasswordEntry.notes r) with
      | inl x => inl x
      | inr n =>
          inr (PasswordEntry.Make (PasswordEntry.title r) (PasswordEntry.username r) p
                 (PasswordEntry.url r) n (PasswordEntry.category r)
                 (PasswordEntry.is_favorite r) (PasswordEntry.attached_files r)
                 (PasswordEntry.created r) (PasswordEntry.modified r))
      end
  end.

Definition open_note (k : fernet_key) (r : SecureNote.t) : exn + SecureNote.t :=
  match fernet_decrypt k (SecureNote.content r) with
  | inl x => inl x
  | inr c =>
      inr (SecureNote.Make (SecureNote.title r) c (SecureNote.category r)
             (SecureNote.is_favorite r) (SecureNote.attached_files r)
             (SecureNote.created r) (SecureNote.modified r))
  end.

Definition open_card (k : fernet_key) (r : CardEntry.t) : exn + CardEntry.t :=
  match fernet_decrypt k (CardEntry.card_number r) with
  | inl x => inl x
  | inr number =>
      match fernet_decrypt k (CardEntry.cvv r) with
      | inl x => inl x
      | inr code =>
          match fernet_decrypt k (CardEntry.notes r) with
          | inl x => inl x
          | inr n =>
              inr (CardEntry.Make (CardEntry.title r) (CardEntry.card_type r) number
                     (CardEntry.cardholder_name r) (CardEntry.expiry_month r)
                     (CardEntry.expiry_year r) code n (CardEntry.category r)
                     (CardEntry.is_favorite r) (CardEntry.attached_files r)
                     (CardEntry.created r) (CardEntry.modified r))
          end
      end
  end.

Definition open_identity (k : fernet_key) (r : IdentityEntry.t) : exn + IdentityEntry.t :=
  match fernet_decrypt k (IdentityEntry.social_security_number r) with
  | inl x => inl x
  | inr ssn =>
      match fernet_decrypt k (IdentityEntry.driver_license r) with
      | inl x => inl x
      | inr licence =>
          match fernet_decrypt k (IdentityEntry.passport_number r) with
          | inl x => inl x
          | inr passport =>
              match fernet_decrypt k (IdentityEntry.notes r) with
              | inl x => inl x
              | inr n =>
                  inr (IdentityEntry.Make (IdentityEntry.title r) (IdentityEntry.first_name r)
                         (IdentityEntry.last_name r) (IdentityEntry.email r)
                         (IdentityEntry.phone r) (IdentityEntry.address r)
                         (IdentityEntry.city r) (IdentityEntry.state r)
                         (IdentityEntry.zip_code r) (IdentityEntry.country r)
                         (IdentityEntry.date_of_birth r) ssn licence passport n
                         (IdentityEntry.category r) (IdentityEntry.is_favorite r)
                         (IdentityEntry.attached_files r) (IdentityEntry.created r)
                         (IdentityEntry.modified r))
              end
          end
      end
  end.

(** The payload of a file is sealed as base64 text: opening it decrypts the
    token, then the notes, then decodes the text. *)
Definition open_file (k : fernet_key) (r : FileEntry.t * string) : exn + FileEntry.t :=
  match fernet_decrypt k (snd r) with
  | inl x => inl x
  | inr payload =>
      match fernet_decrypt k (FileEntry.notes (fst r)) with
      | inl x => inl x
      | inr n =>
          match b64decode payload with
          | None => inl (b64decode_error payload)
          | Some data =>
              inr (FileEntry.Make (FileEntry.title (fst r)) data (FileEntry.file_name (fst r))
                     (FileEntry.file_type (fst r)) (FileEntry.file_size (fst r))
                     (FileEntry.category (fst r)) n (FileEntry.is_favorite (fst r))
                     (FileEntry.created (fst r)) (FileEntry.modified (fst r)))
          end
      end
  end.

(** The dict of a file at rest. *)
Definition file_at_rest (r : FileEntry.t * string) : json :=
  JDict (dict_set "file_data" (JStr (snd r)) (FileEntry.to_dict (fst r))).

(** The records of a collection that open, in order, and the warnings for
    those that do not. *)
Fixpoint opened {R A} (open : R -> exn + A) (rs : list R) : list A :=
  match rs with
  | [] => []
  | r :: rest =>
      match open r with
      | inr e => e :: opened open rest
      | inl _ => opened open rest
      end
  end.

Fixpoint warnings {R A} (what : string) (title : R -> string) (open : R -> exn + A)
    (rs : list R) : list event :=
  match rs with
  | [] => []
  | r :: rest =>
      match open r with
      | inr _ => warnings what title open rest
      | inl x => Warning what (JStr (title r)) x :: warnings what title open rest
      end
  end.

(** An envelope whose records have the field set of their kind. *)
Record at_rest : Type := AtRest {
  r_passwords : list PasswordEntry.t;
  r_notes : list SecureNote.t;
  r_cards : list CardEntry.t;
  r_identities : list IdentityEntry.t;
  r_files : list (FileEntry.t * string);
  r_created : string;
  r_salt : string
}.

Definition document (E : at_rest) : json :=
  envelope (map (fun r => JDict (PasswordEntry.to_dict r)) (r_passwords E))
           (map (fun r => JDict (SecureNote.to_dict r)) (r_notes E))
           (map (fun r => JDict (CardEntry.to_dict r)) (r_cards E))
           (map (fun r => JDict (IdentityEntry.to_dict r)) (r_identities E))
           (map file_at_rest (r_files E))
           (r_created E) (r_salt E).

(** The world after the events [evs] were printed. *)
Definition warned (evs : list event) (w : world) : world :=
  World (ticks w) (draws w) (decrypts w) (stdout w ++ evs) (disk w).

(** What one pass of a loop of [import_data] does with a record at rest. *)
Definition pass {A} (set_list : list A -> t -> t) (proj : t -> list A)
    (category : A -> string) (what title : string) (result : exn + A)
    (tk dk : nat) (m : t) (w : world) : outcome unit * (t * world) :=
  match result with
  | inr e => (Ok tt, (loaded set_list (proj m ++ [e]) (category e) m, advance tk dk w))
  | inl x => (Ok tt, (m, warned [Warning what (JStr title) x] (advance tk dk w)))
  end.

(** The warnings an import of [E] under [k] prints, in the order of the five
    loops. *)
Definition all_warnings (k : fernet_key) (E : at_rest) : list event :=
  (warnings "password entry" PasswordEntry.title (open_password k) (r_passwords E)
   ++ warnings "note" SecureNote.title (open_note k) (r_notes E)
   ++ warnings "card entry" CardEntry.title (open_card k) (r_cards E)
   ++ warnings "identity entry" IdentityEntry.title (open_identity k) (r_identities E)
   ++ warnings "file" (fun r => FileEntry.title (fst r)) (open_file k) (r_files E))%list.

(** The number of records of an envelope. *)
Definition records (E : at_rest) : nat :=
  (length (r_passwords E) + length (r_notes E) + length (r_cards E)
   + length (r_identities E) + length (r_files E))%nat.

Definition seal_password (k : fernet_key) (n : nat) (e : PasswordEntry.t) : PasswordEntry.t :=
  PasswordEntry.Make (PasswordEntry.title e) (PasswordEntry.username e)
    (fernet_encrypt k n (PasswordEntry.password e)) (PasswordEntry.url e)
    (fernet_encrypt k (1 + n) (PasswordEntry.notes e)) (PasswordEntry.category e)
    (PasswordEntry.is_favorite e) (PasswordEntry.attached_files e)
    (PasswordEntry.created e) (PasswordEntry.modified e).

Definition seal_note (k : fernet_key) (n : nat) (e : SecureNote.t) : SecureNote.t :=
  SecureNote.Make (SecureNote.title e) (fernet_encrypt k n (SecureNote.content e))
    (SecureNote.category e) (SecureNote.is_favorite e) (SecureNote.attached_files e)
    (SecureNote.created e) (SecureNote.modified e).

Definition seal_card (k : fernet_key) (n : nat) (e : CardEntry.t) : CardEntry.t :=
  CardEntry.Make (CardEntry.title e) (CardEntry.card_type e)
    (fernet_encrypt k n (CardEntry.card_number e)) (CardEntry.cardholder_name e)
    (CardEntry.expiry_month e) (CardEntry.expiry_year e)
    (fernet_encrypt k (1 + n) (CardEntry.cvv e))
    (fernet_encrypt k (2 + n) (CardEntry.notes e)) (CardEntry.category e)
    (CardEntry.is_favorite e) (CardEntry.attached_files e)
    (CardEntry.created e) (CardEntry.modified e).

Definition seal_identity (k : fernet_key) (n : nat) (e : IdentityEntry.t) : IdentityEntry.t :=
  IdentityEntry.Make (IdentityEntry.title e) (IdentityEntry.first_name e)
    (IdentityEntry.last_name e) (IdentityEntry.email e) (IdentityEntry.phone e)
    (IdentityEntry.address e) (IdentityEntry.city e) (IdentityEntry.state e)
    (IdentityEntry.zip_code e) (IdentityEntry.country e) (IdentityEntry.date_of_birth e)
    (fernet_encrypt k n (IdentityEntry.social_security_number e))
    (fernet_encrypt k (1 + n) (IdentityEntry.driver_license e))
    (fernet_encrypt k (2 + n) (IdentityEntry.passport_number e))
    (fernet_encrypt k (3 + n) (IdentityEntry.notes e)) (IdentityEntry.category e)
    (IdentityEntry.is_favorite e) (IdentityEntry.attached_files e)
    (IdentityEntry.created e) (IdentityEntry.modified e).

Definition seal_file (k : fernet_key) (n : nat) (e : FileEntry.t) : FileEntry.t * string :=
  (FileEntry.Make (FileEntry.title e) (FileEntry.file_data e) (FileEntry.file_name e)
     (FileEntry.file_type e) (FileEntry.file_size e) (FileEntry.category e)
     (fernet_encrypt k (1 + n) (FileEntry.notes e)) (FileEntry.is_favorite e)
     (FileEntry.created e) (FileEntry.modified e),
   fernet_encrypt k n (b64encode (FileEntry.file_data e))).

Fixpoint seal_list {A R} (seal : nat -> A -> R) (per : nat) (n : nat) (l : list A) : list R :=
  match l with
  | [] => []
  | e :: rest => seal n e :: seal_list seal per (per + n) rest
  end.

(** The envelope at rest that [export_data] writes for the vault of [m]. *)
Definition sealed_envelope (m : t) (created : string) (n : nat) : at_rest :=
  let k := EncryptionManager.key (encryption_manager m) in
  let n1 := (2 * length (passwords m) + n)%nat in
  let n2 := (1 * length (notes m) + n1)%nat in
  let n3 := (3 * length (cards m) + n2)%nat in
  let n4 := (4 * length (identities m) + n3)%nat in
  AtRest (seal_list (seal_password k) 2 n (passwords m))
         (seal_list (seal_note k) 1 n1 (notes m))
         (seal_list (seal_card k) 3 n2 (cards m))
         (seal_list (seal_identity k) 4 n3 (identities m))
         (seal_list (seal_file k) 2 n4 (files m))
         created
         (b64encode (EncryptionManager.get_salt (encryption_manager m))).

(** The events of [warnings] are warnings. *)
Definition is_warning (ev : event) : Prop :=
  match ev with
  | Warning _ _ _ => True
  | Printed _ => False
  end.







Definition rejected_under (k : fernet_key) (token : string) : Prop :=
  exists x, fernet_decrypt k token = inl x.


(** The vault after the import of [E] under [k] into [m]. *)
Definition decoded (C : gset string) (k : fernet_key) (E : at_rest) (m : t) : t :=
  set_categories C
    (set_files (opened (open_file k) (r_files E))
       (set_identities (opened (open_identity k) (r_identities E))
          (set_cards (opened (open_card k) (r_cards E))
             (set_notes (opened (open_note k) (r_notes E))
                (set_passwords (opened (open_password k) (r_passwords E)) m))))).

End Vocabulary.

(** * Vocabulary of the further properties *)

Section Conduct.
Context `{Platform}.
Import PasswordManager.

(** A piece of a method under which the session only moves along [R]. *)
Definition moves {A} (R : t -> t -> Prop) (c : M A) : Prop :=
  forall s, R (fst s) (fst (snd (c s))).

(** A piece of a method that lets out only exceptions in [P]. *)
Definition raises_only {A} (P : exn -> Prop) (c : M A) : Prop :=
  forall s e s', c s = (Raise e, s') -> P e.

(** A computation that reads nothing and writes nothing. *)
Definition inert {A} (c : W A) : Prop :=
  forall w, exists r, c w = (r, w) /\ r <> Untyped.

(** The world with the file at [path] removed. *)
Definition without_file (path : string) (w : world) : world :=
  World (ticks w) (draws w) (decrypts w) (stdout w) (delete path (disk w)).
End Conduct.

Section Drawing.
Context `{Platform}.
Import PasswordGenerator.

(** The characters [generate_password] draws from. *)
Definition charset (self : t) (use_uppercase use_digits use_symbols exclude_similar : bool)
    : string :=
  let chars := lowercase self in
  let chars := if use_uppercase then chars +:+ uppercase self else chars in
  let chars := if use_digits then chars +:+ digits self else chars in
  let chars := if use_symbols then chars +:+ symbols self else chars in
  if exclude_similar then
    str_remove "5" (str_remove "S" (str_remove "0" (str_remove "O"
      (str_remove "I" (str_remove "1" (str_remove "l" chars))))))
  else chars.

(** One of the three steps that follow the drawing: when the class is
    selected and [password] has no character of it, one is drawn and put in
    front of [password[k:]]. *)
Definition patch (selected : bool) (class : string) (k : nat) (password : string)
    : W string :=
  if selected && negb (str_any (fun c => str_mem c class) password)
  then c <- choice class ;; ret (String c (str_drop k password))
  else ret password.
End Drawing.

(** What [format_phone_number] returns for the digits [digits], [phone]
    being returned when they are fewer than ten. *)
Definition phone_layout (digits phone : string) : string :=
  let n := String.length digits in
  if (n =? 10)%nat then
    "(" +:+ str_slice 0 3 digits +:+ ") " +:+ str_slice 3 6 digits
        +:+ "-" +:+ str_drop 6 digits
  else if (n =? 11)%nat && bool_decide (String.get 0 digits = Some "1"%char) then
    "+1 (" +:+ str_slice 1 4 digits +:+ ") " +:+ str_slice 4 7 digits
           +:+ "-" +:+ str_drop 7 digits
  else if (10 <? n)%nat then
    let cc_len := (n - 10)%nat in
    let cc := str_slice 0 cc_len digits in
    let rest := str_drop cc_len digits in
    "+" +:+ cc +:+ " (" +:+ str_slice 0 3 rest +:+ ") " +:+ str_slice 3 6 rest
        +:+ "-" +:+ str_drop 6 rest
  else phone.

(** ** Sample data *)

Module Example.
#[local] Existing Instance Toy.platform.

Definition w0 : world := World 0 0 0 [] ∅.

Definition salt0 : bytes := replicate 16 "s"%byte.

Definition scan : FileEntry.t :=
    FileEntry.Make "Scan" ["001"%byte; "002"%byte] "scan.png" "png" 2 "Files" "" true
                   "2024-12-31T09:00:00" "2024-12-31T09:00:00".

Definition login : PasswordEntry.t :=
    PasswordEntry.Make "Example" "u" "p@ss" "" "first" "Work" true [scan]
                       "2024-12-31T10:00:00" "2024-12-31T10:00:00".

Definition mail : PasswordEntry.t :=
    PasswordEntry.Make "Mail" "me" "hunter2" "https://mail.example" "" "Private" false []
                       "2024-12-31T11:00:00" "2024-12-31T11:00:00".

Definition memo : SecureNote.t :=
    SecureNote.Make "Memo" "remember" "General" true []
                    "2024-12-31T12:00:00" "2024-12-31T12:00:00".

Definition visa : CardEntry.t :=
    CardEntry.Make "Visa" "Visa" "4111111111111111" "A. User" "12" "2030" "123" "" "Cards"
                   true [] "2024-12-31T13:00:00" "2024-12-31T13:00:00".

Definition me : IdentityEntry.t :=
    IdentityEntry.Make "Me" "A." "User" "" "" "" "" "" "" "" "" "078-05-1120" "" "" ""
                       "Identity" true [] "2024-12-31T14:00:00" "2024-12-31T14:00:00".

Definition um0 : UserManager.t :=
    UserManager.Make None (Some salt0) "luckeepass_master.dat" "luckeepass_vault_salt.dat".

Definition em0 : EncryptionManager.t :=
    EncryptionManager.Make (utf8_encode "correct-horse") salt0
                           (derive salt0 (utf8_encode "correct-horse")).

(** A fresh session: [PasswordManager("correct-horse", um0)]. *)
Definition m0 : PasswordManager.t :=
    PasswordManager.Make "correct-horse" um0 "luckeepass_data.lp" [] [] [] [] [] ∅ em0.

(** A session holding one record of each kind. *)
Definition m5 : PasswordManager.t :=
    PasswordManager.Make "correct-horse" um0 "luckeepass_data.lp" [login] [memo] [visa] [me]
                         [scan] {["Work"; "General"; "Cards"; "Identity"; "Files"]} em0.

(** A vault file that is no vault: a ZIP archive's first bytes. *)
Definition corrupt : bytes := list_byte_of_string "PK-not-a-vault".

(** The application-data directory holding that file as the vault file. *)
Definition w_corrupt : world := World 0 0 0 [] {["luckeepass_data.lp" := corrupt]}.

(** The session after [add_password(login); add_password(mail)]. *)
Definition s_two : PasswordManager.t * world :=
  snd ((PasswordManager.add_password login ;;; PasswordManager.add_password mail) (m0, w0)).

(** The session after [add_file(scan); load_data()] on the corrupt file. *)
Definition s_failed_load : PasswordManager.t * world :=
  snd ((PasswordManager.add_file scan ;;; PasswordManager.load_data) (m0, w_corrupt)).


(** A fresh installation: no stored hash, no stored salt. *)
Definition um_fresh : UserManager.t :=
    UserManager.Make None None "luckeepass_master.dat" "luckeepass_vault_salt.dat".

(** A session opened there with the same master password: its salt is the
    one it drew, not [salt0]. *)
Definition m_new : PasswordManager.t :=
    PasswordManager.Make "correct-horse" um_fresh "luckeepass_data.lp" [] [] [] [] [] ∅
      (EncryptionManager.Make (utf8_encode "correct-horse") (replicate 16 "*"%byte)
         (derive (replicate 16 "*"%byte) (utf8_encode "correct-horse"))).

(** A directory holding a backup that [m5] exported. *)
Definition w_backup : world :=
    World 0 0 0 [] {["backup.lp" := exported_bytes (H := Toy.platform) m5 w0]}.

(** [set_master_password("correct-horse")] on the fresh installation. *)
Definition s_setup : outcome UserManager.t * world :=
    UserManager.set_master_password (H0 := Toy.hashing) NoFault NoFault um_fresh
      "correct-horse" w0.

(** An account: the hash, the salt and a vault file. *)
Definition w_account : world :=
    World 0 0 0 []
      (<["luckeepass_master.dat" := list_byte_of_string "correct-horse"]>
       (<["luckeepass_vault_salt.dat" := salt0]>
        (<["luckeepass_data.lp" := corrupt]> ∅))).

(** The vault file is open in another program. *)
Definition vault_locked (path : string) : bool :=
    bool_decide (path = "luckeepass_data.lp").

(** [generate_password(8, False, True, False, False)] with the draws of
    the sample platform. *)
Definition s_generated : outcome string * world :=
    PasswordGenerator.generate_password PasswordGenerator.init 8 false true false false w0.

(** The application-data directory after [m5] saved its vault. *)
Definition w_saved : world :=
    World 0 0 0 [] {["luckeepass_data.lp" := exported_bytes (H := Toy.platform) m5 w0]}.

(** A session opened on it with another master password. *)
Definition m_other : PasswordManager.t :=
    PasswordManager.Make "tr0ub4dor" um0 "luckeepass_data.lp" [] [] [] [] [] ∅
      (EncryptionManager.Make (utf8_encode "tr0ub4dor") salt0
         (derive salt0 (utf8_encode "tr0ub4dor"))).


(** The master password of [m5] followed by a NUL character. *)
Definition padded_password : string :=
    "correct-horse" +:+ String (ascii_of_nat 0) "".

(** A fresh session opened there with that other master password. *)
Definition m_nul : PasswordManager.t (H := Padded.platform) :=
    PasswordManager.Make (H := Padded.platform)
      padded_password um0 "luckeepass_data.lp" [] [] [] [] [] ∅
      (EncryptionManager.Make (H := Padded.platform)
         (list_byte_of_string padded_password) salt0
         (Padded.kdf salt0 (list_byte_of_string padded_password))).


(** A backup whose embedded salt lacks the mark of base64 text. *)
Definition unsalted : bytes :=
  (lp_header ++ lp_separator
   ++ utf8_encode (Platform := Padded.platform)
        (json_dumps (Platform := Padded.platform)
           (JDict [("app_name", JStr "LuckeePass"); ("encryption_salt", JStr "c2FsdA")])))%list.
End Example.

(** * Properties *)

(** ** Bytes *)

Lemma startswith_spec (prefix data : bytes) :
  startswith data prefix = true <-> exists rest, data = (prefix ++ rest)%list.
Proof.
  revert data. induction prefix as [| p ps IH]; intros data; simpl.
  - split; [intros _; exists data; reflexivity | reflexivity].
  - destruct data as [| d ds].
    + split; [discriminate | intros [rest Hrest]; discriminate].
    + destruct (decide (d = p)) as [-> | Hne].
      * rewrite IH. split; intros [rest Hrest]; exists rest.
        -- now rewrite Hrest.
        -- now inversion Hrest.
      * split; [discriminate | intros [rest Hrest]; inversion Hrest; contradiction].
Qed.

Lemma lp_header_length : length lp_header = 22%nat.
Proof. reflexivity. Qed.

(** The separator is found right after the header, whatever follows. *)
Lemma find_separator (payload : bytes) :
  find (lp_header ++ lp_separator ++ payload)%list lp_separator = 22.
Proof. reflexivity. Qed.

Lemma payload_after_separator (payload : bytes) :
  slice_from (22 + len lp_separator) (lp_header ++ lp_separator ++ payload)%list = payload.
Proof. reflexivity. Qed.

(** ** Format rejection *)

Section FormatRejection.
Context `{Platform}.
Import PasswordManager.

(** C3.  A byte sequence that does not start with the 22-byte header
      [LUCKEEPASS_BACKUP_V1.0] is refused by [is_valid_lp_file] (the file
      holding it is reported invalid) and makes [import_data] raise
      [ValueError]; both leave the whole state as it was, in particular the
      count of calls to [Fernet.decrypt] and the vault. *)
Theorem format_rejection (lp_data : bytes) :
    ~ (exists rest, lp_data = (lp_header ++ rest)%list) ->
    length lp_header = 22%nat /\
    (forall path w, disk w !! path = Some lp_data ->
                    is_valid_lp_file path w = (Ok false, w)) /\
    (forall s, import_data lp_data s =
               (Raise (ValueError "Invalid .lp file format. This file was not created by LuckeePass."), s)).
Proof.
    intros Hno.
    assert (Hsw : startswith lp_data lp_header = false).
    { destruct (startswith lp_data lp_header) eqn:E; [| reflexivity].
      apply startswith_spec in E. contradiction. }
    split; [reflexivity |]. split.
    - intros path w Hfile.
      unfold is_valid_lp_file, try_except, bind, read_file, ret.
      rewrite Hfile, Hsw. reflexivity.
    - intros s. unfold import_data. rewrite Hsw. reflexivity.
Qed.
End FormatRejection.

(** ** Master password verification *)

Section Verify.
Context `{Platform}.
Import UserManager.

(** Reading an optional credential file gives its content, or [None]. *)
Lemma load_optional_spec (path what : string) (w : world) :
    load_optional path what w = (Ok (disk w !! path), w).
Proof.
    unfold load_optional, bind, path_exists, try_except, read_file, ret.
    destruct (disk w !! path) eqn:E.
    - rewrite bool_decide_eq_true_2 by eauto. rewrite E. reflexivity.
    - rewrite bool_decide_eq_false_2 by (intros [x Hx]; discriminate). reflexivity.
Qed.

(** A user manager built on a directory without the hash file has no
      stored hash. *)
Lemma init_without_hash_file (w : world) :
    disk w !! "luckeepass_master.dat" = None ->
    exists um w', init w = (Ok um, w') /\ hashed_master_password um = None.
Proof.
    intros Hnone.
    unfold init, _load_master_password_hash, _load_vault_salt, bind.
    rewrite !load_optional_spec, Hnone. do 2 eexists; split; reflexivity.
Qed.

(** C9.  [verify_master_password] returns a boolean and never raises:
      [False] when no hash is stored (or the stored hash is empty), the
      verdict of [bcrypt.checkpw] on the supplied password and the stored
      hash otherwise, and [False] with a printed warning when [bcrypt]
      rejects the stored hash. *)
Theorem verify_master_password_spec (salt : option bytes) (f1 f2 : string)
      (master_password : string) (w : world) :
    verify_master_password (Make None salt f1 f2) master_password w = (Ok false, w) /\
    forall hashed : bytes,
      verify_master_password (Make (Some hashed) salt f1 f2) master_password w =
      match hashed, bcrypt_checkpw (utf8_encode master_password) hashed with
      | [], _ => (Ok false, w)
      | _ :: _, Some verdict => (Ok verdict, w)
      | _ :: _, None =>
          (Ok false,
           World (ticks w) (draws w) (decrypts w)
                 (stdout w ++ [Printed ("Warning: Stored master password hash is invalid: "
                                        +:+ "Invalid salt" +:+ ". Please reset your password.")])
                 (disk w))
      end.
Proof.
    split; [reflexivity |].
    intros [| b hashed]; [reflexivity |].
    unfold verify_master_password, try_except. cbn [hashed_master_password].
    destruct (bcrypt_checkpw _ _); reflexivity.
Qed.
End Verify.

(** ** Favourites *)

Section Favorites.
Context `{Platform}.
Import PasswordManager.

Lemma collect_filter {A} (is_favorite : A -> bool) (label : string) (wrap : A -> record)
      (l : list A) (favs : list (string * record)) :
    collect is_favorite label wrap l favs =
    (favs ++ map (fun e => (label, wrap e)) (List.filter is_favorite l))%list.
Proof.
    revert favs. induction l as [| e l IH]; intros favs; simpl.
    - now rewrite app_nil_r.
    - rewrite IH. destruct (is_favorite e); simpl; [| reflexivity].
      now rewrite <- app_assoc.
Qed.

(** C7.  [favorites] is exactly the favourited records, each labelled
      with its collection, passwords first, then notes, cards, identities
      and files, every collection in its own order; so one favourited
      record per collection gives the five rows in that order. *)
Theorem favorites_ordering (m : t) :
    favorites m =
      (map (fun e => ("Password", RPassword e)) (List.filter PasswordEntry.is_favorite (passwords m))
       ++ map (fun e => ("Secure Note", RNote e)) (List.filter SecureNote.is_favorite (notes m))
       ++ map (fun e => ("Card", RCard e)) (List.filter CardEntry.is_favorite (cards m))
       ++ map (fun e => ("Identity", RIdentity e)) (List.filter IdentityEntry.is_favorite (identities m))
       ++ map (fun e => ("File", RFile e)) (List.filter FileEntry.is_favorite (files m)))%list
    /\ forall p n c i f,
         passwords m = [p] -> notes m = [n] -> cards m = [c] ->
         identities m = [i] -> files m = [f] ->
         PasswordEntry.is_favorite p = true -> SecureNote.is_favorite n = true ->
         CardEntry.is_favorite c = true -> IdentityEntry.is_favorite i = true ->
         FileEntry.is_favorite f = true ->
         favorites m = [ ("Password", RPassword p); ("Secure Note", RNote n);
                         ("Card", RCard c); ("Identity", RIdentity i); ("File", RFile f) ].
Proof.
    assert (Hall : favorites m =
      (map (fun e => ("Password", RPassword e)) (List.filter PasswordEntry.is_favorite (passwords m))
       ++ map (fun e => ("Secure Note", RNote e)) (List.filter SecureNote.is_favorite (notes m))
       ++ map (fun e => ("Card", RCard e)) (List.filter CardEntry.is_favorite (cards m))
       ++ map (fun e => ("Identity", RIdentity e)) (List.filter IdentityEntry.is_favorite (identities m))
       ++ map (fun e => ("File", RFile e)) (List.filter FileEntry.is_favorite (files m)))%list).
    { unfold favorites. rewrite !collect_filter. simpl. now rewrite <- !app_assoc. }
    split; [exact Hall |].
    intros p n c i f Hp Hn Hc Hi Hf Fp Fn Fc Fi Ff.
    rewrite Hall, Hp, Hn, Hc, Hi, Hf. simpl.
    now rewrite Fp, Fn, Fc, Fi, Ff.
Qed.
End Favorites.

(** ** Password generation *)

Section Generator.
Context `{Platform}.
Import PasswordGenerator.

Lemma choice_inv (seq : string) (w : world) (r : outcome ascii) (w' : world) :
    choice seq w = (r, w') ->
    (exists c, r = Ok c) \/ (r = Raise IndexError /\ w' = w).
Proof.
    unfold choice. destruct (String.get _ seq); intros [= <- <-]; eauto.
Qed.

(** The characters first drawn are as many as asked for. *)
Lemma join_choices_length (chars : string) (n : nat) (w : world) (pw : string) (w' : world) :
    join_choices chars n w = (Ok pw, w') -> String.length pw = n.
Proof.
    revert w pw w'. induction n as [| n IH]; intros w pw w'; simpl.
    - intros [= <- <-]. reflexivity.
    - unfold bind. destruct (choice chars w) as [[c | e |] w1]; try discriminate.
      destruct (join_choices chars n w1) as [[rest | e |] w2] eqn:E; try discriminate.
      intros [= <- <-]. simpl. f_equal. eapply IH, E.
Qed.

Lemma str_drop_length (n : nat) (s : string) :
    String.length (str_drop n s) = (String.length s - n)%nat.
Proof.
    revert s. induction n as [| n IH]; intros [| c s]; simpl; auto.
Qed.

(** Lower case and digits only: when the characters first drawn hold no
      digit, the digit patched in replaces the first two of them, and the
      password returned is one character short. *)
Lemma digit_patch_shortens (self : t) (n : nat) (w w1 : world) (pw : string) :
    join_choices (lowercase self +:+ digits self) n w = (Ok pw, w1) ->
    str_any (fun c => str_mem c (digits self)) pw = false ->
    Z.of_nat n <= str_len (lowercase self +:+ digits self) ->
    (2 <= n)%nat ->
    forall r w2,
      generate_password self (Z.of_nat n) false true false false w = (Ok r, w2) ->
      String.length r = (n - 1)%nat.
Proof.
    intros Hjoin Hnone Hfit Hn r w2.
    unfold generate_password. cbn [andb negb].
    destruct (Z.ltb_spec (str_len (lowercase self +:+ digits self)) (Z.of_nat n)); [lia |].
    rewrite Nat2Z.id. unfold bind at 1. rewrite Hjoin.
    unfold bind at 1. cbn [ret]. unfold bind at 1. rewrite Hnone. cbn [negb].
    unfold bind at 1.
    destruct (choice (digits self) w1) as [[c | e |] w3]; try discriminate.
    cbn [ret]. unfold bind at 1. cbn [ret]. intros [= <- <-].
    pose proof (str_drop_length 2 pw) as Hd.
    rewrite (join_choices_length _ _ _ _ _ Hjoin) in Hd.
    simpl in Hd |- *. rewrite Hd. lia.
Qed.
End Generator.

(** C10.  [generate_password(8, use_uppercase=False, use_digits=True,
    use_symbols=False, exclude_similar=False)], when [secrets.choice] draws
    eight times the letter [a] and then the digit [0], returns a string of
    seven characters where eight were requested. *)
Theorem generate_password_drops_characters :
  exists w',
    PasswordGenerator.generate_password (H := Toy.platform) PasswordGenerator.init
      8 false true false false Example.w0 = (Ok "0aaaaaa", w')
    /\ str_len "0aaaaaa" = 7.
Proof. eexists. split; reflexivity. Qed.

(** ** Mutations *)

Section Mutations.
Context `{Platform}.
Import PasswordManager.

Ltac run_mutation :=
  intros;
  unfold updated, deleted, stamped, update_password, update_note, update_card,
    update_identity, update_file, delete_password, delete_note, delete_card,
    delete_identity, delete_file, assign, del, bind, self, update, lift, raise, ret;
  cbn [fst snd now_isoformat];
  try match goal with |- context [py_index ?n ?i] => destruct (py_index n i) end;
  reflexivity.

Lemma add_password_spec (e : PasswordEntry.t) (m : t) (w : world) :
  add_password e (m, w) =
  let e' := PasswordEntry.set_modified (clock (ticks w)) e in
  stamped set_passwords PasswordEntry.category (passwords m ++ [e']) e' m w.
Proof. reflexivity. Qed.

Lemma add_note_spec (e : SecureNote.t) (m : t) (w : world) :
  add_note e (m, w) =
  let e' := SecureNote.set_modified (clock (ticks w)) e in
  stamped set_notes SecureNote.category (notes m ++ [e']) e' m w.
Proof. reflexivity. Qed.

Lemma add_card_spec (e : CardEntry.t) (m : t) (w : world) :
  add_card e (m, w) =
  let e' := CardEntry.set_modified (clock (ticks w)) e in
  stamped set_cards CardEntry.category (cards m ++ [e']) e' m w.
Proof. reflexivity. Qed.

Lemma add_identity_spec (e : IdentityEntry.t) (m : t) (w : world) :
  add_identity e (m, w) =
  let e' := IdentityEntry.set_modified (clock (ticks w)) e in
  stamped set_identities IdentityEntry.category (identities m ++ [e']) e' m w.
Proof. reflexivity. Qed.

Lemma add_file_spec (e : FileEntry.t) (m : t) (w : world) :
  add_file e (m, w) =
  let e' := FileEntry.set_modified (clock (ticks w)) e in
  stamped set_files FileEntry.category (files m ++ [e']) e' m w.
Proof. reflexivity. Qed.

Lemma update_password_spec (index : Z) (e : PasswordEntry.t) (m : t) (w : world) :
  update_password index e (m, w) =
  updated set_passwords PasswordEntry.category (passwords m) index
          (PasswordEntry.set_modified (clock (ticks w)) e) m w.
Proof. run_mutation. Qed.

Lemma update_note_spec (index : Z) (e : SecureNote.t) (m : t) (w : world) :
  update_note index e (m, w) =
  updated set_notes SecureNote.category (notes m) index
          (SecureNote.set_modified (clock (ticks w)) e) m w.
Proof. run_mutation. Qed.

Lemma update_card_spec (index : Z) (e : CardEntry.t) (m : t) (w : world) :
  update_card index e (m, w) =
  updated set_cards CardEntry.category (cards m) index
          (CardEntry.set_modified (clock (ticks w)) e) m w.
Proof. run_mutation. Qed.

Lemma update_identity_spec (index : Z) (e : IdentityEntry.t) (m : t) (w : world) :
  update_identity index e (m, w) =
  updated set_identities IdentityEntry.category (identities m) index
          (IdentityEntry.set_modified (clock (ticks w)) e) m w.
Proof. run_mutation. Qed.

Lemma update_file_spec (index : Z) (e : FileEntry.t) (m : t) (w : world) :
  update_file index e (m, w) =
  updated set_files FileEntry.category (files m) index
          (FileEntry.set_modified (clock (ticks w)) e) m w.
Proof. run_mutation. Qed.

Lemma delete_password_spec (index : Z) (m : t) (w : world) :
  delete_password index (m, w) = deleted set_passwords (passwords m) index m w.
Proof. run_mutation. Qed.

Lemma delete_note_spec (index : Z) (m : t) (w : world) :
  delete_note index (m, w) = deleted set_notes (notes m) index m w.
Proof. run_mutation. Qed.

Lemma delete_card_spec (index : Z) (m : t) (w : world) :
  delete_card index (m, w) = deleted set_cards (cards m) index m w.
Proof. run_mutation. Qed.

Lemma delete_identity_spec (index : Z) (m : t) (w : world) :
  delete_identity index (m, w) = deleted set_identities (identities m) index m w.
Proof. run_mutation. Qed.

Lemma delete_file_spec (index : Z) (m : t) (w : world) :
  delete_file index (m, w) = deleted set_files (files m) index m w.
Proof. run_mutation. Qed.

(** Whatever a mutation does, the files on disk stay as they were. *)
Lemma stamped_disk {A} (set_list : list A -> t -> t) category l' e' m w :
  disk (snd (snd (stamped set_list category l' e' m w))) = disk w.
Proof. reflexivity. Qed.

Lemma updated_disk {A} (set_list : list A -> t -> t) category l index e' m w :
  disk (snd (snd (updated set_list category l index e' m w))) = disk w.
Proof. unfold updated. destruct (py_index _ _); reflexivity. Qed.

Lemma deleted_disk {A} (set_list : list A -> t -> t) (l : list A) index m w :
  disk (snd (snd (deleted set_list l index m w))) = disk w.
Proof. unfold deleted. destruct (py_index _ _); reflexivity. Qed.
End Mutations.

Section MutationStamping.
Context `{Platform}.
Import PasswordManager.

(** C8 (as amended).  [add_X] and [update_X] (on a valid index) set the
    record's [modified] to the current time, put the record in the
    collection (at the end, or at the index), and add its category to the
    category set; [update_X] on an invalid index raises [IndexError] and
    leaves the vault alone.  [delete_X] removes the record at the index and
    does nothing else: it neither reads the clock nor touches the category
    set.  None of the fifteen operations changes the files on disk, and
    stamping keeps [created] and [category]. *)
Theorem mutation_stamping (m : t) (w : world) :
  ((forall e, add_password e (m, w) =
      let e' := PasswordEntry.set_modified (clock (ticks w)) e in
      stamped set_passwords PasswordEntry.category (passwords m ++ [e']) e' m w)
   /\ (forall index e, update_password index e (m, w) =
         updated set_passwords PasswordEntry.category (passwords m) index
                 (PasswordEntry.set_modified (clock (ticks w)) e) m w)
   /\ (forall index, delete_password index (m, w) =
         deleted set_passwords (passwords m) index m w))
  /\ ((forall e, add_note e (m, w) =
      let e' := SecureNote.set_modified (clock (ticks w)) e in
      stamped set_notes SecureNote.category (notes m ++ [e']) e' m w)
   /\ (forall index e, update_note index e (m, w) =
         updated set_notes SecureNote.category (notes m) index
                 (SecureNote.set_modified (clock (ticks w)) e) m w)
   /\ (forall index, delete_note index (m, w) = deleted set_notes (notes m) index m w))
  /\ ((forall e, add_card e (m, w) =
      let e' := CardEntry.set_modified (clock (ticks w)) e in
      stamped set_cards CardEntry.category (cards m ++ [e']) e' m w)
   /\ (forall index e, update_card index e (m, w) =
         updated set_cards CardEntry.category (cards m) index
                 (CardEntry.set_modified (clock (ticks w)) e) m w)
   /\ (forall index, delete_card index (m, w) = deleted set_cards (cards m) index m w))
  /\ ((forall e, add_identity e (m, w) =
      let e' := IdentityEntry.set_modified (clock (ticks w)) e in
      stamped set_identities IdentityEntry.category (identities m ++ [e']) e' m w)
   /\ (forall index e, update_identity index e (m, w) =
         updated set_identities IdentityEntry.category (identities m) index
                 (IdentityEntry.set_modified (clock (ticks w)) e) m w)
   /\ (forall index, delete_identity index (m, w) =
         deleted set_identities (identities m) index m w))
  /\ ((forall e, add_file e (m, w) =
      let e' := FileEntry.set_modified (clock (ticks w)) e in
      stamped set_files FileEntry.category (files m ++ [e']) e' m w)
   /\ (forall index e, update_file index e (m, w) =
         updated set_files FileEntry.category (files m) index
                 (FileEntry.set_modified (clock (ticks w)) e) m w)
   /\ (forall index, delete_file index (m, w) = deleted set_files (files m) index m w))
  /\ (forall A (set_list : list A -> t -> t) category l l' index e',
        disk (snd (snd (stamped set_list category l' e' m w))) = disk w
        /\ disk (snd (snd (updated set_list category l index e' m w))) = disk w
        /\ disk (snd (snd (deleted set_list l index m w))) = disk w)
  /\ (forall now,
        (forall e, PasswordEntry.modified (PasswordEntry.set_modified now e) = now
                   /\ PasswordEntry.created (PasswordEntry.set_modified now e) = PasswordEntry.created e
                   /\ PasswordEntry.category (PasswordEntry.set_modified now e) = PasswordEntry.category e)
        /\ (forall e, SecureNote.modified (SecureNote.set_modified now e) = now
                   /\ SecureNote.created (SecureNote.set_modified now e) = SecureNote.created e
                   /\ SecureNote.category (SecureNote.set_modified now e) = SecureNote.category e)
        /\ (forall e, CardEntry.modified (CardEntry.set_modified now e) = now
                   /\ CardEntry.created (CardEntry.set_modified now e) = CardEntry.created e
                   /\ CardEntry.category (CardEntry.set_modified now e) = CardEntry.category e)
        /\ (forall e, IdentityEntry.modified (IdentityEntry.set_modified now e) = now
                   /\ IdentityEntry.created (IdentityEntry.set_modified now e) = IdentityEntry.created e
                   /\ IdentityEntry.category (IdentityEntry.set_modified now e) = IdentityEntry.category e)
        /\ (forall e, FileEntry.modified (FileEntry.set_modified now e) = now
                   /\ FileEntry.created (FileEntry.set_modified now e) = FileEntry.created e
                   /\ FileEntry.category (FileEntry.set_modified now e) = FileEntry.category e)).
Proof.
  repeat split; intros.
  all: first [ apply update_password_spec | apply update_note_spec | apply update_card_spec
             | apply update_identity_spec | apply update_file_spec
             | apply delete_password_spec | apply delete_note_spec | apply delete_card_spec
             | apply delete_identity_spec | apply delete_file_spec
             | apply updated_disk | apply deleted_disk | reflexivity ].
Qed.
End MutationStamping.

(** C8, as stated, fails for the delete operations.  [delete_password(0)] on
    the session holding [login] and [mail] returns, leaves the world as it
    was (the clock is not read: no record can have received the current
    time), and leaves [mail] with the time of its own insertion; and
    [delete_file(0)] on the session a failed load left (category set empty,
    [scan] still in [files]) leaves the category of [scan] out of the
    category set. *)
Lemma delete_stamps_nothing :
  (exists m',
     PasswordManager.delete_password (H := Toy.platform) 0 Example.s_two
       = (Ok tt, (m', snd Example.s_two))
     /\ PasswordManager.passwords m'
          = [PasswordEntry.set_modified (clock (Platform := Toy.platform) 1) Example.mail]
     /\ clock (Platform := Toy.platform) 1 <> clock (Platform := Toy.platform) (ticks (snd Example.s_two)))
  /\ (exists m',
        PasswordManager.files (fst Example.s_failed_load)
          = [FileEntry.set_modified (clock (Platform := Toy.platform) 0) Example.scan]
        /\ PasswordManager.delete_file (H := Toy.platform) 0 Example.s_failed_load
             = (Ok tt, (m', snd Example.s_failed_load))
        /\ PasswordManager.files m' = []
        /\ FileEntry.category Example.scan ∉ PasswordManager.categories m').
Proof.
  split.
  - eexists. split; [reflexivity |]. split; [reflexivity | discriminate].
  - eexists. split; [reflexivity |]. split; [reflexivity |]. split; [reflexivity |].
    match goal with
    | |- _ ∉ ?c => replace c with (∅ : gset string) by reflexivity
    end.
    apply not_elem_of_empty.
Qed.

(** ** Running monadic code *)

Lemma bind_ok {S A B} (c : ST S A) (k : A -> ST S B) (s s' : S) (a : A) :
  c s = (Ok a, s') -> bind c k s = k a s'.
Proof. unfold bind. now intros ->. Qed.

Lemma bind_raise {S A B} (c : ST S A) (k : A -> ST S B) (s s' : S) (e : exn) :
  c s = (Raise e, s') -> bind c k s = (Raise e, s').
Proof. unfold bind. now intros ->. Qed.

Lemma try_ok {S A} (c : ST S A) (h : exn -> ST S A) (s s' : S) (a : A) :
  c s = (Ok a, s') -> try_except c h s = (Ok a, s').
Proof. unfold try_except. now intros ->. Qed.

Lemma try_raise {S A} (c : ST S A) (h : exn -> ST S A) (s s' : S) (e : exn) :
  c s = (Raise e, s') -> try_except c h s = h e s'.
Proof. unfold try_except. now intros ->. Qed.

(** ** The exported envelope *)

Section ExportData.
Context `{Platform}.
Import PasswordManager.

Lemma draw_draw (a b : nat) (w : world) : draw a (draw b w) = draw (a + b) w.
Proof. unfold draw. cbn. f_equal. lia. Qed.

Lemma encrypt_password_spec (e : PasswordEntry.t) (m : t) (w : world) :
  encrypt_password (PasswordEntry.to_dict e) (m, w) =
  (Ok (sealed_password (EncryptionManager.key (encryption_manager m)) (draws w) e),
   (m, draw 2 w)).
Proof. reflexivity. Qed.

Lemma encrypt_note_spec (e : SecureNote.t) (m : t) (w : world) :
  encrypt_note (SecureNote.to_dict e) (m, w) =
  (Ok (sealed_note (EncryptionManager.key (encryption_manager m)) (draws w) e),
   (m, draw 1 w)).
Proof. reflexivity. Qed.

Lemma encrypt_card_spec (e : CardEntry.t) (m : t) (w : world) :
  encrypt_card (CardEntry.to_dict e) (m, w) =
  (Ok (sealed_card (EncryptionManager.key (encryption_manager m)) (draws w) e),
   (m, draw 3 w)).
Proof. reflexivity. Qed.

Lemma encrypt_identity_spec (e : IdentityEntry.t) (m : t) (w : world) :
  encrypt_identity (IdentityEntry.to_dict e) (m, w) =
  (Ok (sealed_identity (EncryptionManager.key (encryption_manager m)) (draws w) e),
   (m, draw 4 w)).
Proof. reflexivity. Qed.

Lemma encrypt_file_spec (e : FileEntry.t) (m : t) (w : world) :
  encrypt_file (FileEntry.to_dict e) (m, w) =
  (Ok (sealed_file (EncryptionManager.key (encryption_manager m)) (draws w) e),
   (m, draw 2 w)).
Proof. reflexivity. Qed.

(** A loop of [export_data] seals its collection and changes nothing but the
    count of draws. *)
Lemma map_st_sealed {A} (enc : dict -> M json) (to_dict : A -> dict)
    (seal : fernet_key -> nat -> A -> json) (per : nat) :
  (forall e m w, enc (to_dict e) (m, w) =
     (Ok (seal (EncryptionManager.key (encryption_manager m)) (draws w) e), (m, draw per w))) ->
  forall l m w,
    map_st enc (map to_dict l) (m, w) =
    (Ok (sealed_list (seal (EncryptionManager.key (encryption_manager m))) per (draws w) l),
     (m, draw (per * length l) w)).
Proof.
  intros Henc l. induction l as [| e l IH]; intros m w.
  - cbn. unfold ret, draw. rewrite Nat.mul_0_r. now destruct w.
  - cbn [map map_st]. erewrite bind_ok by apply Henc.
    erewrite bind_ok by apply IH. cbn [ret sealed_list length].
    rewrite draw_draw. do 3 f_equal. lia.
Qed.

Lemma export_data_spec (m : t) (w : world) :
  export_data (m, w) =
  (Ok (lp_header ++ lp_separator
       ++ utf8_encode (json_dumps (exported m (clock (ticks w)) (draws w))))%list,
   (m, draw (tokens m) (tick w))).
Proof.
  unfold export_data.
  erewrite bind_ok by reflexivity.
  erewrite bind_ok by reflexivity.
  erewrite bind_ok by (apply (map_st_sealed _ _ _ _ encrypt_password_spec)).
  erewrite bind_ok by (apply (map_st_sealed _ _ _ _ encrypt_note_spec)).
  erewrite bind_ok by (apply (map_st_sealed _ _ _ _ encrypt_card_spec)).
  erewrite bind_ok by (apply (map_st_sealed _ _ _ _ encrypt_identity_spec)).
  erewrite bind_ok by (apply (map_st_sealed _ _ _ _ encrypt_file_spec)).
  unfold ret. apply pair_equal_spec. split; [reflexivity |].
  apply pair_equal_spec. split; [reflexivity |].
  unfold draw, tokens, tick. cbn. f_equal. lia.
Qed.
End ExportData.

(** ** Saving *)

Section Save.
Context `{Platform}.
Import PasswordManager.

Lemma save_data_spec (fault : io_fault) (m : t) (w : world) :
  save_data fault (m, w) =
  let w' := draw (tokens m) (tick w) in
  match fault with
  | NoFault => (Ok tt, (m, with_file (data_file m) (exported_bytes m w) w'))
  | OpenFails =>
      (Raise (Exception "Failed to save data: Permission denied"), (m, w'))
  | WriteFailsAfter n =>
      (Raise (Exception "Failed to save data: No space left on device"),
       (m, with_file (data_file m) (take n (exported_bytes m w)) w'))
  end.
Proof.
  unfold save_data.
  destruct fault.
  - erewrite try_ok by (erewrite bind_ok by apply export_data_spec; reflexivity).
    reflexivity.
  - erewrite try_raise by (erewrite bind_ok by apply export_data_spec; reflexivity).
    reflexivity.
  - erewrite try_raise by (erewrite bind_ok by apply export_data_spec; reflexivity).
    reflexivity.
Qed.

(** C5 (as amended).  [save_data] encodes the vault and writes the bytes
    straight over the vault file, which opening for writing truncates: there
    is no temporary file and no rename.  When nothing fails the file holds
    exactly the exported bytes.  When the file cannot be opened it is left
    as it was, and when the write fails after [n] bytes it holds the first
    [n] bytes of the new export and its previous content is gone; both
    failures raise [Exception("Failed to save data: ...")]. *)
Theorem save_data_overwrites_in_place (fault : io_fault) (m : t) (w : world) :
  let r := save_data fault (m, w) in
  let file := disk (snd (snd r)) !! data_file m in
  fst (snd r) = m /\
  match fault with
  | NoFault => fst r = Ok tt /\ file = Some (exported_bytes m w)
  | OpenFails =>
      fst r = Raise (Exception "Failed to save data: Permission denied")
      /\ file = disk w !! data_file m
  | WriteFailsAfter n =>
      fst r = Raise (Exception "Failed to save data: No space left on device")
      /\ file = Some (take n (exported_bytes m w))
  end.
Proof.
  cbv zeta. rewrite save_data_spec. cbv zeta.
  destruct fault; cbn [fst snd with_file disk draw tick]; (split; [reflexivity |]);
    (split; [reflexivity |]); try apply lookup_insert_eq; reflexivity.
Qed.
End Save.

(** C5, as stated, fails: the vault file of the session [m5] holds an older
    vault; a [save_data] whose write fails after ten bytes raises and leaves
    the ten bytes [LUCKEEPASS] in the file. *)
Lemma save_data_corrupts_on_partial_write :
  let old := (lp_header ++ lp_separator ++ list_byte_of_string "{}")%list in
  let w := World 0 0 0 [] {["luckeepass_data.lp" := old]} in
  let r := PasswordManager.save_data (H := Toy.platform) (WriteFailsAfter 10) (Example.m5, w) in
  disk w !! "luckeepass_data.lp" = Some old
  /\ fst r = Raise (Exception "Failed to save data: No space left on device")
  /\ disk (snd (snd r)) !! "luckeepass_data.lp" = Some (list_byte_of_string "LUCKEEPASS")
  /\ Some (list_byte_of_string "LUCKEEPASS") <> Some old.
Proof.
  cbv zeta. rewrite save_data_spec. cbv zeta.
  split; [reflexivity |]. split; [reflexivity |]. split; [| discriminate].
  cbn [fst snd with_file disk]. rewrite lookup_insert_eq. reflexivity.
Qed.

(** ** Reading an envelope *)

Section ImportData.
Context `{Platform}.
Import PasswordManager.

(** Header, separator, a non-empty payload that decodes and parses: the
    checks of [import_data] pass and the document is imported. *)
Lemma import_data_framed (payload : bytes) (text : string) (data : json)
    (s : t * world) :
  payload <> [] ->
  utf8_decode payload = Some text ->
  json_loads text = inr data ->
  import_data (lp_header ++ lp_separator ++ payload)%list s = import_document data s.
Proof.
  intros Hne Hdec Hload. unfold import_data.
  change (startswith (lp_header ++ lp_separator ++ payload)%list lp_header) with true.
  cbn [negb]. rewrite find_separator. cbn [Z.eqb].
  replace (22 + len lp_separator >=? len (lp_header ++ lp_separator ++ payload)%list)
    with false.
  - rewrite payload_after_separator, Hdec, Hload. reflexivity.
  - symmetry. rewrite Z.geb_leb. apply Z.leb_gt. unfold len. rewrite !length_app.
    destruct payload; [contradiction |]. cbn. lia.
Qed.

Lemma adopt_salt_spec (d : dict) (text : string) (salt : bytes) (m : t) (w : world) :
  dict_get "encryption_salt" d = Some (JStr text) ->
  b64decode text = Some salt ->
  adopt_salt d (m, w) = (Ok tt, (rekeyed m salt, w)).
Proof.
  intros Hget Hdec. unfold adopt_salt, contains, item, py_b64decode.
  rewrite Hget. cbn [bind ret]. unfold bind at 1. cbn [ret]. rewrite Hdec. reflexivity.
Qed.

Lemma import_document_rekeys (d : dict) (text : string) (salt : bytes) (m : t) (w : world) :
  foreign d = false ->
  dict_get "encryption_salt" d = Some (JStr text) ->
  b64decode text = Some salt ->
  import_document (JDict d) (m, w) = load_collections d (rekeyed m salt, w).
Proof.
  intros Hf Hget Hdec. unfold import_document. rewrite Hf.
  erewrite bind_ok by (eapply adopt_salt_spec; eassumption). reflexivity.
Qed.

(** [EncryptionManager(password, salt)] keeps the salt it is given and holds
    the key derived from it. *)
Lemma encryption_manager_init (password : string) (salt : bytes) (w : world) :
  EncryptionManager.init password (Some salt) w =
  (Ok (EncryptionManager.Make (utf8_encode password) salt
         (derive salt (utf8_encode password))), w).
Proof. reflexivity. Qed.

(** A session as [PasswordManager(password, user_manager)] builds it holds
    the key derived from its master password and its salt, and an import
    keeps it so. *)
Lemma session_key_consistent (password : string) (um : UserManager.t) (w : world) :
  exists m w',
    PasswordManager.init password um w = (Ok m, w')
    /\ master_password m = password
    /\ EncryptionManager.key (encryption_manager m)
       = derive (EncryptionManager.salt (encryption_manager m))
                (utf8_encode (master_password m)).
Proof.
  unfold PasswordManager.init, EncryptionManager.init, UserManager.get_vault_salt.
  destruct (UserManager.vault_salt um); do 2 eexists; repeat split.
Qed.

Lemma rekeyed_key_consistent (m : t) (salt : bytes) :
  EncryptionManager.key (encryption_manager (rekeyed m salt))
  = derive (EncryptionManager.salt (encryption_manager (rekeyed m salt)))
           (utf8_encode (master_password (rekeyed m salt))).
Proof. reflexivity. Qed.

(** ** Loading the vault file *)

Lemma load_data_spec (m : t) (w : world) :
  load_data (m, w) =
  match disk w !! data_file m with
  | None =>
      (Ok tt, (m, World (ticks w) (draws w) (decrypts w)
                        (stdout w ++ [Printed "No existing data file found, starting fresh"])
                        (disk w)))
  | Some [] => (Ok tt, (m, w))
  | Some lp_data =>
      match import_data lp_data (m, w) with
      | (Ok _, s') => (Ok tt, s')
      | (Raise _, (m1, w1)) => (Ok tt, (start_fresh m1, after_failed_import w1))
      | (Untyped, s') => (Untyped, s')
      end
  end.
Proof.
  unfold load_data, bind at 1, self. unfold bind at 1, lift, path_exists. cbn [fst snd].
  destruct (disk w !! data_file m) as [lp_data |] eqn:Hfile.
  - rewrite bool_decide_eq_true_2 by eauto.
    unfold try_except at 1, bind at 1, lift, read_file. cbn [fst snd]. rewrite Hfile.
    destruct lp_data as [| b lp_data]; [reflexivity |].
    change (len (b :: lp_data) =? 0) with false. cbv iota.
    unfold try_except.
    destruct (import_data (b :: lp_data) (m, w)) as [[[] | e |] [m1 w1]]; reflexivity.
  - rewrite bool_decide_eq_false_2 by (intros [x Hx]; discriminate). reflexivity.
Qed.
End ImportData.

Section LoadFailure.
Context `{Platform}.
Import PasswordManager.

(** C6 (as amended).  When importing the vault file raises (a format error
    or any other exception), [load_data] itself returns normally: the caller
    gets [None], the reason is dropped, and two fixed lines are printed.
    The passwords, notes, cards and identities are then empty and the
    category set is empty. *)
Theorem load_failure_fallback (m m1 : t) (w w1 : world) (b : byte) (lp_data : bytes) (e : exn) :
  disk w !! data_file m = Some (b :: lp_data) ->
  import_data (b :: lp_data) (m, w) = (Raise e, (m1, w1)) ->
  let r := load_data (m, w) in
  fst r = Ok tt
  /\ passwords (fst (snd r)) = [] /\ notes (fst (snd r)) = []
  /\ cards (fst (snd r)) = [] /\ identities (fst (snd r)) = []
  /\ categories (fst (snd r)) = ∅
  /\ stdout (snd (snd r))
     = (stdout w1 ++
        [Printed "This usually means the master password is different from when the data was created.";
         Printed "Starting with fresh data. You can delete the data file to avoid this message."])%list.
Proof.
  intros Hfile Himport. cbv zeta. rewrite load_data_spec, Hfile, Himport.
  repeat (split; [reflexivity |]).
  cbn [fst snd after_failed_import stdout]. now rewrite <- app_assoc.
Qed.
End LoadFailure.

(** The hypotheses of [load_failure_fallback] hold for the corrupt vault
    file. *)
Lemma load_failure_fallback_witness :
  let r := PasswordManager.load_data (H := Toy.platform) (Example.m0, Example.w_corrupt) in
  fst r = Ok tt
  /\ PasswordManager.passwords (fst (snd r)) = [] /\ PasswordManager.notes (fst (snd r)) = []
  /\ PasswordManager.cards (fst (snd r)) = [] /\ PasswordManager.identities (fst (snd r)) = []
  /\ PasswordManager.categories (fst (snd r)) = ∅
  /\ stdout (snd (snd r))
     = [Printed "This usually means the master password is different from when the data was created.";
        Printed "Starting with fresh data. You can delete the data file to avoid this message."].
Proof.
  apply (load_failure_fallback (H := Toy.platform) Example.m0 Example.m0
           Example.w_corrupt Example.w_corrupt "P"%byte
           (list_byte_of_string "K-not-a-vault")
           (ValueError "Invalid .lp file format. This file was not created by LuckeePass."));
    reflexivity.
Defined.

(** C6, as stated, fails.  The session holds [scan] in [files] and the vault
    file is corrupt: [import_data] raises the format error, yet [load_data]
    returns normally like a successful load, the two lines it prints do not
    name the reason, and [files] still holds the record: the vault is not
    empty. *)
Lemma load_data_swallows_format_error :
  let s := snd (PasswordManager.add_file (H := Toy.platform) Example.scan
                  (Example.m0, Example.w_corrupt)) in
  let r := PasswordManager.load_data (H := Toy.platform) s in
  PasswordManager.import_data (H := Toy.platform) Example.corrupt s
    = (Raise (ValueError "Invalid .lp file format. This file was not created by LuckeePass."), s)
  /\ fst r = Ok tt
  /\ stdout (snd (snd r))
     = [Printed "This usually means the master password is different from when the data was created.";
        Printed "Starting with fresh data. You can delete the data file to avoid this message."]
  /\ PasswordManager.files (fst (snd r))
     = [FileEntry.set_modified (clock (Platform := Toy.platform) 0) Example.scan]
  /\ PasswordManager.files (fst (snd r)) <> [].
Proof.
  cbv zeta. split; [reflexivity |]. split; [reflexivity |]. split; [reflexivity |].
  split; [reflexivity | discriminate].
Qed.

(** ** The executable platform obeys the laws of the libraries *)

Module ToyLaws.
Import Toy.

Lemma app_cons (c : ascii) (s t : string) : String c s +:+ t = String c (s +:+ t).
Proof. reflexivity. Qed.

Lemma app_nil (t : string) : EmptyString +:+ t = t.
Proof. reflexivity. Qed.

Lemma ones_app (n : nat) (a b : string) :
  (ones n +:+ a) +:+ b = ones n +:+ (a +:+ b).
Proof.
  induction n as [| n IH]; cbn [ones]; rewrite ?app_cons, ?app_nil; [reflexivity |].
  now rewrite IH.
Qed.

Lemma strip_ones_frame (n : nat) (rest : string) :
  strip_ones (ones n +:+ String "0" rest) = (n, String "0" rest).
Proof.
  induction n as [| n IH]; cbn [ones]; rewrite ?app_cons, ?app_nil; [reflexivity |].
  cbn [strip_ones]. destruct (decide ("1"%char = "1"%char)); [| contradiction].
  now rewrite IH.
Qed.

Lemma split_at_app (k rest : string) :
  split_at (String.length k) (k +:+ rest) = Some (k, rest).
Proof.
  induction k as [| c k IH]; cbn [String.length]; rewrite ?app_cons, ?app_nil.
  - now destruct rest.
  - cbn [split_at]. now rewrite IH.
Qed.

Lemma unframe_frame (k rest : string) : unframe (frame k +:+ rest) = Some (k, rest).
Proof.
  unfold unframe, frame. rewrite ones_app, app_cons.
  rewrite strip_ones_frame. destruct (decide ("0"%char = "0"%char)); [| contradiction].
  apply split_at_app.
Qed.

Lemma fernet_round_trip (k : string) (n : nat) (data : string) :
  decrypt k (encrypt k n data) = inr data.
Proof.
  unfold decrypt, encrypt. rewrite unframe_frame.
  destruct (decide (k = k)); [| contradiction].
  now rewrite unframe_frame.
Qed.

Lemma fernet_wrong_key (k k' : string) (n : nat) (data : string) :
  k <> k' -> decrypt k' (encrypt k n data) = inl InvalidToken.
Proof.
  intros Hne. unfold decrypt, encrypt. rewrite unframe_frame.
  destruct (decide (k = k')); [contradiction | reflexivity].
Qed.

Lemma of_digits_of (p : positive) : of_digits (digits_of p) = Some p.
Proof. induction p as [p IH | p IH |]; simpl; [now rewrite IH | now rewrite IH | reflexivity]. Qed.

Lemma of_to_tree : forall j : json, of_tree (to_tree j) = Some j.
Proof.
  fix IH 1. intros [| b | n | s | l | d]; simpl; try reflexivity.
  - assert (Hl : (fix go (ts : list (gen_tree atom)) : option (list json) :=
                    match ts with
                    | [] => Some []
                    | t :: ts' =>
                        match of_tree t, go ts' with
                        | Some j, Some js => Some (j :: js)
                        | _, _ => None
                        end
                    end) (map to_tree l) = Some l).
    { induction l as [| j l IHl]; simpl; [reflexivity |].
      rewrite (IH j), IHl. reflexivity. }
    rewrite Hl. reflexivity.
  - assert (Hd : (fix go (ts : list (gen_tree atom)) : option dict :=
                    match ts with
                    | [] => Some []
                    | GenNode 3 [GenLeaf (inr (inr k)); tv] :: ts' =>
                        match of_tree tv, go ts' with
                        | Some v, Some kvs => Some ((k, v) :: kvs)
                        | _, _ => None
                        end
                    | _ => None
                    end)
                 (map (fun kv => GenNode 3 [GenLeaf (inr (inr (fst kv))); to_tree (snd kv)]) d)
               = Some d).
    { induction d as [| [k v] d IHd]; simpl; [reflexivity |].
      rewrite (IH v), IHd. reflexivity. }
    rewrite Hd. reflexivity.
Qed.

Lemma json_round_trip (j : json) : loads (dumps j) = inr j.
Proof.
  unfold loads, dumps. rewrite of_digits_of, decode_encode, of_to_tree. reflexivity.
Qed.

Lemma dumps_nonempty (j : json) : list_byte_of_string (dumps j) <> [].
Proof.
  unfold dumps. destruct (encode (to_tree j)); simpl; discriminate.
Qed.
Lemma b64_round_trip (data : bytes) :
  b64decode (Platform := platform) (b64encode (Platform := platform) data) = Some data.
Proof.
  change (Some (list_byte_of_string (string_of_list_byte data)) = Some data).
  now rewrite list_byte_of_string_of_list_byte.
Qed.

Lemma utf8_round_trip (text : string) :
  utf8_decode (Platform := platform) (utf8_encode (Platform := platform) text) = Some text.
Proof.
  change (Some (string_of_list_byte (list_byte_of_string text)) = Some text).
  now rewrite string_of_list_byte_of_string.
Qed.

Lemma json_round_trip_wf (j : json) :
  json_wf j = true ->
  json_loads (Platform := platform) (json_dumps (Platform := platform) j) = inr j.
Proof. intros _. apply json_round_trip. Qed.

Lemma json_dumps_nonempty (j : json) :
  utf8_encode (Platform := platform) (json_dumps (Platform := platform) j) <> [].
Proof. apply dumps_nonempty. Qed.

Lemma fernet_wrong_key_exn (k k' : fernet_key (Platform := platform)) (n : nat)
    (data : string) :
  k <> k' -> exists x, fernet_decrypt k' (fernet_encrypt k n data) = inl x.
Proof. intros Hne. exists InvalidToken. now apply fernet_wrong_key. Qed.
End ToyLaws.

(** ** The key in use during an import *)

Section KeepsKey.
Context `{Platform}.
Import PasswordManager.

Lemma keeps_ret {A} (a : A) : keeps_key (ret a).
Proof. intros s. reflexivity. Qed.

Lemma keeps_raise {A} (e : exn) : keeps_key (raise (A := A) e).
Proof. intros s. reflexivity. Qed.

Lemma keeps_untyped {A} : keeps_key (untyped (A := A)).
Proof. intros s. reflexivity. Qed.

Lemma keeps_self : keeps_key self.
Proof. intros s. reflexivity. Qed.

Lemma keeps_lift {A} (c : W A) : keeps_key (lift c).
Proof. intros [m w]. unfold lift. cbn [fst snd]. now destruct (c w). Qed.

Lemma keeps_update (f : t -> t) :
  (forall m, encryption_manager (f m) = encryption_manager m) -> keeps_key (update f).
Proof. intros Hf s. apply Hf. Qed.

Lemma keeps_bind {A B} (c : M A) (k : A -> M B) :
  keeps_key c -> (forall a, keeps_key (k a)) -> keeps_key (bind c k).
Proof.
  intros Hc Hk s. unfold bind. specialize (Hc s).
  destruct (c s) as [[a | e |] s']; cbn [fst snd] in *; [| exact Hc | exact Hc].
  now rewrite Hk.
Qed.

Lemma keeps_try {A} (c : M A) (h : exn -> M A) :
  keeps_key c -> (forall e, keeps_key (h e)) -> keeps_key (try_except c h).
Proof.
  intros Hc Hh s. unfold try_except. specialize (Hc s).
  destruct (c s) as [[a | e |] s']; cbn [fst snd] in *; [exact Hc | | exact Hc].
  now rewrite Hh.
Qed.

Lemma keeps_for_each {A} (l : list A) (body : A -> M unit) :
  (forall x, keeps_key (body x)) -> keeps_key (for_each l body).
Proof.
  intros Hbody. induction l as [| x l IH]; cbn [for_each].
  - apply keeps_ret.
  - apply keeps_bind; [apply Hbody | intros _; exact IH].
Qed.

Lemma keeps_item (d : dict) (k : string) : keeps_key (item d k).
Proof. unfold item. destruct (dict_get k d); [apply keeps_ret | apply keeps_raise]. Qed.

Lemma keeps_as_str (v : json) : keeps_key (as_str v).
Proof. destruct v; first [apply keeps_ret | apply keeps_untyped]. Qed.

Lemma keeps_py_iter (v : json) : keeps_key (py_iter v).
Proof. destruct v; first [apply keeps_ret | apply keeps_raise]. Qed.

Lemma keeps_copy_entry (v : json) : keeps_key (copy_entry v).
Proof. destruct v; first [apply keeps_ret | apply keeps_raise]. Qed.

Lemma keeps_decrypt_field (k : string) (entry : dict) : keeps_key (decrypt_field k entry).
Proof.
  unfold decrypt_field.
  repeat first [ apply keeps_bind; [| intros ?] | apply keeps_item | apply keeps_self
               | apply keeps_lift | apply keeps_ret ].
Qed.

Lemma keeps_add_category (entry : dict) : keeps_key (add_category entry).
Proof.
  unfold add_category.
  repeat first [ apply keeps_bind; [| intros ?] | apply keeps_item | apply keeps_as_str
               | apply keeps_update; reflexivity ].
Qed.

Lemma keeps_skip (what : string) (entry_data : json) (e : exn) :
  keeps_key (skip_with_warning what entry_data e).
Proof. destruct entry_data; first [apply keeps_lift | apply keeps_raise]. Qed.

Ltac keeps :=
  repeat first
    [ apply keeps_copy_entry | apply keeps_decrypt_field | apply keeps_add_category
    | apply keeps_skip | apply keeps_lift | apply keeps_py_iter
    | apply keeps_update; reflexivity
    | apply keeps_try; [| intros ?] | apply keeps_bind; [| intros ?] ].

(** The loops of [import_data] never replace the encryption manager: every
    field is decrypted with the key in place when they start. *)
Lemma load_collections_keeps_key (d : dict) : keeps_key (load_collections d).
Proof.
  unfold load_collections.
  repeat first
    [ apply keeps_update; reflexivity
    | apply keeps_py_iter
    | apply keeps_for_each; intros ?;
      unfold load_password, load_note, load_card, load_identity, load_file; keeps
    | apply keeps_bind; [| intros ?] ].
Qed.
End KeepsKey.

(** ** Records read back from their dicts *)

Section ReadBack.
Context `{Platform}.

Hypothesis b64_round_trip : forall data : bytes, b64decode (b64encode data) = Some data.

Lemma advance_advance (t d t' d' : nat) (w : world) :
  advance t d (advance t' d' w) = advance (t + t') (d + d') w.
Proof. unfold advance. cbn. f_equal; lia. Qed.

Lemma advance_0 (w : world) : advance 0 0 w = w.
Proof. now destruct w. Qed.

Lemma file_from_to_dict (f : FileEntry.t) (w : world) :
  FileEntry.from_dict (JDict (FileEntry.to_dict f)) w = (Ok f, advance 2 0 w).
Proof.
  destruct f. unfold FileEntry.from_dict, FileEntry.to_dict.
  cbn [FileEntry.title FileEntry.file_data FileEntry.file_name FileEntry.file_type
       FileEntry.file_size FileEntry.category FileEntry.notes FileEntry.is_favorite
       FileEntry.created FileEntry.modified].
  erewrite bind_ok by reflexivity.
  unfold py_b64decode. rewrite b64_round_trip.
  reflexivity.
Qed.

Lemma files_from_to_dict (fs : list FileEntry.t) (w : world) :
  map_st FileEntry.from_dict (map (fun f => JDict (FileEntry.to_dict f)) fs) w =
  (Ok fs, advance (2 * length fs) 0 w).
Proof.
  revert w. induction fs as [| f fs IH]; intros w.
  - cbn. unfold ret. now rewrite advance_0.
  - cbn [map map_st]. erewrite bind_ok by apply file_from_to_dict.
    erewrite bind_ok by apply IH. unfold ret. rewrite advance_advance.
    apply pair_equal_spec. split; [reflexivity |].
    cbn [length]. f_equal; lia.
Qed.

(** The [attached_files] loop on a dict that carries the attachments of a
    record under that key. *)
Lemma attached_from_to_dict (d : dict) (fs : list FileEntry.t) (w : world) :
  dict_get "attached_files" d = Some (JList (map (fun f => JDict (FileEntry.to_dict f)) fs)) ->
  FileEntry.attached_from_dict d w = (Ok fs, advance (2 * length fs) 0 w).
Proof.
  intros Hget. unfold FileEntry.attached_from_dict, contains, item. rewrite Hget.
  erewrite bind_ok by reflexivity. erewrite bind_ok by reflexivity.
  apply files_from_to_dict.
Qed.

Lemma password_from_to_dict (e : PasswordEntry.t) (w : world) :
  PasswordEntry.from_dict (JDict (PasswordEntry.to_dict e)) w =
  (Ok e, advance (2 + 2 * length (PasswordEntry.attached_files e)) 0 w).
Proof.
  destruct e as [? ? ? ? ? ? ? fs ? ?]. unfold PasswordEntry.from_dict.
  erewrite bind_ok by (apply (attached_from_to_dict _ fs); reflexivity).
  cbn. apply pair_equal_spec. split; [reflexivity |].
  unfold advance. cbn. f_equal; lia.
Qed.

Lemma note_from_to_dict (e : SecureNote.t) (w : world) :
  SecureNote.from_dict (JDict (SecureNote.to_dict e)) w =
  (Ok e, advance (2 + 2 * length (SecureNote.attached_files e)) 0 w).
Proof.
  destruct e as [? ? ? ? fs ? ?]. unfold SecureNote.from_dict.
  erewrite bind_ok by (apply (attached_from_to_dict _ fs); reflexivity).
  cbn. apply pair_equal_spec. split; [reflexivity |].
  unfold advance. cbn. f_equal; lia.
Qed.

Lemma card_from_to_dict (e : CardEntry.t) (w : world) :
  CardEntry.from_dict (JDict (CardEntry.to_dict e)) w =
  (Ok e, advance (2 + 2 * length (CardEntry.attached_files e)) 0 w).
Proof.
  destruct e as [? ? ? ? ? ? ? ? ? ? fs ? ?]. unfold CardEntry.from_dict.
  erewrite bind_ok by (apply (attached_from_to_dict _ fs); reflexivity).
  cbn. apply pair_equal_spec. split; [reflexivity |].
  unfold advance. cbn. f_equal; lia.
Qed.

Lemma identity_from_to_dict (e : IdentityEntry.t) (w : world) :
  IdentityEntry.from_dict (JDict (IdentityEntry.to_dict e)) w =
  (Ok e, advance (2 + 2 * length (IdentityEntry.attached_files e)) 0 w).
Proof.
  destruct e as [? ? ? ? ? ? ? ? ? ? ? ? ? ? ? ? ? fs ? ?]. unfold IdentityEntry.from_dict.
  erewrite bind_ok by (apply (attached_from_to_dict _ fs); reflexivity).
  cbn. apply pair_equal_spec. split; [reflexivity |].
  unfold advance. cbn. f_equal; lia.
Qed.
End ReadBack.

(** ** The exported document is a Python object *)

Section WellFormed.
Context `{Platform}.
Import PasswordManager.

Lemma attached_wf (fs : list FileEntry.t) :
  forallb json_wf (map (fun f => JDict (FileEntry.to_dict f)) fs) = true.
Proof.
  induction fs as [| f fs IH]; [reflexivity |].
  cbn [map forallb]. rewrite IH. destruct f. reflexivity.
Qed.

Ltac wf_with_attachments fs :=
  pose proof (attached_wf fs) as Hatt; revert Hatt;
  generalize (map (fun f => JDict (FileEntry.to_dict f)) fs); intros att Hatt;
  simpl; rewrite Hatt; reflexivity.

Lemma sealed_password_wf (k : fernet_key) (n : nat) (e : PasswordEntry.t) :
  json_wf (sealed_password k n e) = true.
Proof.
  destruct e as [? ? ? ? ? ? ? fs ? ?]. unfold sealed_password, PasswordEntry.to_dict.
  cbn [PasswordEntry.title PasswordEntry.username PasswordEntry.password PasswordEntry.url
       PasswordEntry.notes PasswordEntry.category PasswordEntry.is_favorite
       PasswordEntry.attached_files PasswordEntry.created PasswordEntry.modified].
  wf_with_attachments fs.
Qed.

Lemma sealed_note_wf (k : fernet_key) (n : nat) (e : SecureNote.t) :
  json_wf (sealed_note k n e) = true.
Proof.
  destruct e as [? ? ? ? fs ? ?]. unfold sealed_note, SecureNote.to_dict.
  cbn [SecureNote.title SecureNote.content SecureNote.category SecureNote.is_favorite
       SecureNote.attached_files SecureNote.created SecureNote.modified].
  wf_with_attachments fs.
Qed.

Lemma sealed_card_wf (k : fernet_key) (n : nat) (e : CardEntry.t) :
  json_wf (sealed_card k n e) = true.
Proof.
  destruct e as [? ? ? ? ? ? ? ? ? ? fs ? ?]. unfold sealed_card, CardEntry.to_dict.
  cbn [CardEntry.title CardEntry.card_type CardEntry.card_number CardEntry.cardholder_name
       CardEntry.expiry_month CardEntry.expiry_year CardEntry.cvv CardEntry.notes
       CardEntry.category CardEntry.is_favorite CardEntry.attached_files
       CardEntry.created CardEntry.modified].
  wf_with_attachments fs.
Qed.

Lemma sealed_identity_wf (k : fernet_key) (n : nat) (e : IdentityEntry.t) :
  json_wf (sealed_identity k n e) = true.
Proof.
  destruct e as [? ? ? ? ? ? ? ? ? ? ? ? ? ? ? ? ? fs ? ?].
  unfold sealed_identity, IdentityEntry.to_dict.
  cbn [IdentityEntry.title IdentityEntry.first_name IdentityEntry.last_name
       IdentityEntry.email IdentityEntry.phone IdentityEntry.address IdentityEntry.city
       IdentityEntry.state IdentityEntry.zip_code IdentityEntry.country
       IdentityEntry.date_of_birth IdentityEntry.social_security_number
       IdentityEntry.driver_license IdentityEntry.passport_number IdentityEntry.notes
       IdentityEntry.category IdentityEntry.is_favorite IdentityEntry.attached_files
       IdentityEntry.created IdentityEntry.modified].
  wf_with_attachments fs.
Qed.

Lemma sealed_file_wf (k : fernet_key) (n : nat) (e : FileEntry.t) :
  json_wf (sealed_file k n e) = true.
Proof. destruct e. reflexivity. Qed.

Lemma sealed_list_wf {A} (seal : nat -> A -> json) (per n : nat) (l : list A) :
  (forall n e, json_wf (seal n e) = true) ->
  forallb json_wf (sealed_list seal per n l) = true.
Proof.
  intros Hseal. revert n. induction l as [| e l IH]; intros n; [reflexivity |].
  cbn [sealed_list forallb]. now rewrite Hseal, IH.
Qed.

Lemma exported_wf (m : t) (created : string) (n : nat) :
  json_wf (exported m created n) = true.
Proof.
  unfold exported, envelope. cbv zeta.
  pose proof (fun k n => sealed_list_wf (sealed_password k) 2 n (passwords m)
                           (sealed_password_wf k)) as H1.
  pose proof (fun k n => sealed_list_wf (sealed_note k) 1 n (notes m)
                           (sealed_note_wf k)) as H2.
  pose proof (fun k n => sealed_list_wf (sealed_card k) 3 n (cards m)
                           (sealed_card_wf k)) as H3.
  pose proof (fun k n => sealed_list_wf (sealed_identity k) 4 n (identities m)
                           (sealed_identity_wf k)) as H4.
  pose proof (fun k n => sealed_list_wf (sealed_file k) 2 n (files m)
                           (sealed_file_wf k)) as H5.
  cbn [json_wf]. rewrite H1, H2, H3, H4, H5. reflexivity.
Qed.
End WellFormed.

(** ** Loading what was sealed *)

Section LoadSealed.
Context `{Platform}.
Import PasswordManager.

Hypothesis fernet_round_trip :
  forall (k : fernet_key) (n : nat) (data : string),
    fernet_decrypt k (fernet_encrypt k n data) = inr data.
Hypothesis b64_round_trip : forall data : bytes, b64decode (b64encode data) = Some data.

Lemma lift_ok {A} (c : W A) (a : A) (m : t) (w w' : world) :
  c w = (Ok a, w') -> lift c (m, w) = (Ok a, (m, w')).
Proof. unfold lift. cbn [fst snd]. now intros ->. Qed.

(** Decrypting a token made under the session key gives the plaintext
    back. *)
Lemma decrypt_field_token (k : string) (d : dict) (n : nat) (plain : string)
    (m : t) (w : world) :
  dict_get k d
    = Some (JStr (fernet_encrypt (EncryptionManager.key (encryption_manager m)) n plain)) ->
  decrypt_field k d (m, w) = (Ok (dict_set k (JStr plain) d), (m, advance 0 1 w)).
Proof.
  intros Hget. unfold decrypt_field, item. rewrite Hget.
  unfold bind, ret, self, lift, EncryptionManager.decrypt. cbn [fst snd].
  rewrite fernet_round_trip. reflexivity.
Qed.

Lemma load_password_sealed (n : nat) (e : PasswordEntry.t) (m : t) (w : world) :
  load_password (sealed_password (EncryptionManager.key (encryption_manager m)) n e) (m, w) =
  (Ok tt, (loaded set_passwords (passwords m ++ [e]) (PasswordEntry.category e) m,
           advance (2 + 2 * length (PasswordEntry.attached_files e)) 2 w)).
Proof.
  unfold load_password, sealed_password.
  erewrite try_ok; [reflexivity |].
  erewrite bind_ok by reflexivity.
  erewrite bind_ok by (eapply decrypt_field_token; reflexivity).
  erewrite bind_ok by (eapply decrypt_field_token; reflexivity).
  erewrite bind_ok by (apply lift_ok; apply (password_from_to_dict b64_round_trip e)).
  reflexivity.
Qed.

Lemma load_note_sealed (n : nat) (e : SecureNote.t) (m : t) (w : world) :
  load_note (sealed_note (EncryptionManager.key (encryption_manager m)) n e) (m, w) =
  (Ok tt, (loaded set_notes (notes m ++ [e]) (SecureNote.category e) m,
           advance (2 + 2 * length (SecureNote.attached_files e)) 1 w)).
Proof.
  unfold load_note, sealed_note.
  erewrite try_ok; [reflexivity |].
  erewrite bind_ok by reflexivity.
  erewrite bind_ok by (eapply decrypt_field_token; reflexivity).
  erewrite bind_ok by (apply lift_ok; apply (note_from_to_dict b64_round_trip e)).
  reflexivity.
Qed.

Lemma load_card_sealed (n : nat) (e : CardEntry.t) (m : t) (w : world) :
  load_card (sealed_card (EncryptionManager.key (encryption_manager m)) n e) (m, w) =
  (Ok tt, (loaded set_cards (cards m ++ [e]) (CardEntry.category e) m,
           advance (2 + 2 * length (CardEntry.attached_files e)) 3 w)).
Proof.
  unfold load_card, sealed_card.
  erewrite try_ok; [reflexivity |].
  erewrite bind_ok by reflexivity.
  erewrite bind_ok by (eapply decrypt_field_token; reflexivity).
  erewrite bind_ok by (eapply decrypt_field_token; reflexivity).
  erewrite bind_ok by (eapply decrypt_field_token; reflexivity).
  erewrite bind_ok by (apply lift_ok; apply (card_from_to_dict b64_round_trip e)).
  reflexivity.
Qed.

Lemma load_identity_sealed (n : nat) (e : IdentityEntry.t) (m : t) (w : world) :
  load_identity (sealed_identity (EncryptionManager.key (encryption_manager m)) n e) (m, w) =
  (Ok tt, (loaded set_identities (identities m ++ [e]) (IdentityEntry.category e) m,
           advance (2 + 2 * length (IdentityEntry.attached_files e)) 4 w)).
Proof.
  unfold load_identity, sealed_identity.
  erewrite try_ok; [reflexivity |].
  erewrite bind_ok by reflexivity.
  erewrite bind_ok by (eapply decrypt_field_token; reflexivity).
  erewrite bind_ok by (eapply decrypt_field_token; reflexivity).
  erewrite bind_ok by (eapply decrypt_field_token; reflexivity).
  erewrite bind_ok by (eapply decrypt_field_token; reflexivity).
  erewrite bind_ok by (apply lift_ok; apply (identity_from_to_dict b64_round_trip e)).
  reflexivity.
Qed.

Lemma load_file_sealed (n : nat) (e : FileEntry.t) (m : t) (w : world) :
  load_file (sealed_file (EncryptionManager.key (encryption_manager m)) n e) (m, w) =
  (Ok tt, (loaded set_files (files m ++ [e]) (FileEntry.category e) m, advance 2 2 w)).
Proof.
  unfold load_file, sealed_file.
  erewrite try_ok; [reflexivity |].
  erewrite bind_ok by reflexivity.
  erewrite bind_ok by (eapply decrypt_field_token; reflexivity).
  erewrite bind_ok by (eapply decrypt_field_token; reflexivity).
  erewrite bind_ok by (apply lift_ok; apply (file_from_to_dict b64_round_trip e)).
  reflexivity.
Qed.
End LoadSealed.

Section LoadLoops.
Context `{Platform}.
Import PasswordManager.

(** A loop of [import_data] over a collection sealed under the session key
    appends the records in order and adds their categories; nothing is
    printed. *)
Lemma for_each_sealed {A} (load : json -> M unit) (seal : fernet_key -> nat -> A -> json)
    (per : nat) (proj : t -> list A) (set_list : list A -> t -> t)
    (category : A -> string) (cost : A -> nat) :
  (forall n e m w,
     load (seal (EncryptionManager.key (encryption_manager m)) n e) (m, w) =
     (Ok tt, (loaded set_list (proj m ++ [e])%list (category e) m, advance (cost e) per w))) ->
  (forall C l m, proj (set_categories C (set_list l m)) = l) ->
  (forall C l m, categories (set_categories C (set_list l m)) = C) ->
  (forall C l m, encryption_manager (set_categories C (set_list l m)) = encryption_manager m) ->
  (forall C l C' l' m,
     set_categories C' (set_list l' (set_categories C (set_list l m)))
     = set_categories C' (set_list l' m)) ->
  forall k l n C l0 m w,
    EncryptionManager.key (encryption_manager m) = k ->
    exists tk dk,
      for_each (sealed_list (seal k) per n l) load (set_categories C (set_list l0 m), w) =
      (Ok tt, (set_categories (add_categories (map category l) C) (set_list (l0 ++ l)%list m),
               advance tk dk w)).
Proof.
  intros Hload Hproj Hcat Hem Hnorm k l.
  induction l as [| e l IH]; intros n C l0 m w Hk.
  - exists O, O. cbn. unfold ret. now rewrite advance_0, app_nil_r.
  - cbn [sealed_list for_each map add_categories].
    pose proof (Hload n e (set_categories C (set_list l0 m)) w) as Hstep.
    rewrite Hem, Hk in Hstep. unfold loaded in Hstep.
    rewrite Hproj, Hcat, Hnorm in Hstep.
    erewrite bind_ok by exact Hstep.
    destruct (IH (per + n)%nat ({[category e]} ∪ C) (l0 ++ [e])%list m
                 (advance (cost e) per w) Hk) as (tk & dk & E).
    rewrite E, advance_advance, <- app_assoc. eauto.
Qed.

(** The five loops on an exported document, run under the key it was sealed
    with: the collections are those of the exporting session. *)
Lemma load_collections_exported (m : t) (created : string) (n : nat) (d : dict)
    (m2 : t) (w2 : world) :
  (forall (k : fernet_key) (i : nat) (data : string),
     fernet_decrypt k (fernet_encrypt k i data) = inr data) ->
  (forall data : bytes, b64decode (b64encode data) = Some data) ->
  exported m created n = JDict d ->
  EncryptionManager.key (encryption_manager m2) = EncryptionManager.key (encryption_manager m) ->
  exists C t dn,
    load_collections d (m2, w2) =
    (Ok tt,
     (set_categories C
        (set_files (files m) (set_identities (identities m) (set_cards (cards m)
           (set_notes (notes m) (set_passwords (passwords m) m2))))),
      advance t dn w2)).
Proof.
  intros Hfernet Hb64 Hd Hkey. unfold exported, envelope in Hd. cbv zeta in Hd.
  injection Hd as <-. unfold load_collections.
  erewrite bind_ok by reflexivity. erewrite bind_ok by reflexivity.
  destruct (for_each_sealed load_password sealed_password 2 passwords set_passwords
              PasswordEntry.category
              (fun e => (2 + 2 * length (PasswordEntry.attached_files e))%nat)
              (load_password_sealed Hfernet Hb64)
              (fun _ _ _ => eq_refl) (fun _ _ _ => eq_refl) (fun _ _ _ => eq_refl)
              (fun _ _ _ _ _ => eq_refl)
              _ (passwords m) n (categories m2) [] m2 w2 Hkey) as (t1 & d1 & E1).
  erewrite bind_ok by exact E1. clear E1.
  erewrite bind_ok by reflexivity. erewrite bind_ok by reflexivity.
  match goal with |- context [add_categories ?cs ?C] => set (C1 := add_categories cs C) end.
  destruct (for_each_sealed load_note sealed_note 1 notes set_notes
              SecureNote.category
              (fun e => (2 + 2 * length (SecureNote.attached_files e))%nat)
              (load_note_sealed Hfernet Hb64)
              (fun _ _ _ => eq_refl) (fun _ _ _ => eq_refl) (fun _ _ _ => eq_refl)
              (fun _ _ _ _ _ => eq_refl)
              _ (notes m) (2 * length (passwords m) + n)%nat C1 []
              (set_passwords (passwords m) m2) (advance t1 d1 w2) Hkey) as (t2 & d2 & E2).
  erewrite bind_ok by exact E2. clear E2.
  erewrite bind_ok by reflexivity. erewrite bind_ok by reflexivity.
  match goal with |- context [add_categories ?cs C1] => set (C2 := add_categories cs C1) end.
  destruct (for_each_sealed load_card sealed_card 3 cards set_cards
              CardEntry.category
              (fun e => (2 + 2 * length (CardEntry.attached_files e))%nat)
              (load_card_sealed Hfernet Hb64)
              (fun _ _ _ => eq_refl) (fun _ _ _ => eq_refl) (fun _ _ _ => eq_refl)
              (fun _ _ _ _ _ => eq_refl)
              _ (cards m) (1 * length (notes m) + (2 * length (passwords m) + n))%nat C2 []
              (set_notes (notes m) (set_passwords (passwords m) m2))
              (advance t2 d2 (advance t1 d1 w2)) Hkey) as (t3 & d3 & E3).
  erewrite bind_ok by exact E3. clear E3.
  erewrite bind_ok by reflexivity. erewrite bind_ok by reflexivity.
  match goal with |- context [add_categories ?cs C2] => set (C3 := add_categories cs C2) end.
  destruct (for_each_sealed load_identity sealed_identity 4 identities set_identities
              IdentityEntry.category
              (fun e => (2 + 2 * length (IdentityEntry.attached_files e))%nat)
              (load_identity_sealed Hfernet Hb64)
              (fun _ _ _ => eq_refl) (fun _ _ _ => eq_refl) (fun _ _ _ => eq_refl)
              (fun _ _ _ _ _ => eq_refl)
              _ (identities m)
              (3 * length (cards m) + (1 * length (notes m) + (2 * length (passwords m) + n)))%nat
              C3 []
              (set_cards (cards m) (set_notes (notes m) (set_passwords (passwords m) m2)))
              (advance t3 d3 (advance t2 d2 (advance t1 d1 w2))) Hkey) as (t4 & d4 & E4).
  erewrite bind_ok by exact E4. clear E4.
  erewrite bind_ok by reflexivity. erewrite bind_ok by reflexivity.
  match goal with |- context [add_categories ?cs C3] => set (C4 := add_categories cs C3) end.
  destruct (for_each_sealed load_file sealed_file 2 files set_files
              FileEntry.category (fun _ => 2%nat)
              (load_file_sealed Hfernet Hb64)
              (fun _ _ _ => eq_refl) (fun _ _ _ => eq_refl) (fun _ _ _ => eq_refl)
              (fun _ _ _ _ _ => eq_refl)
              _ (files m)
              (4 * length (identities m) + (3 * length (cards m)
                 + (1 * length (notes m) + (2 * length (passwords m) + n))))%nat
              C4 []
              (set_identities (identities m) (set_cards (cards m)
                 (set_notes (notes m) (set_passwords (passwords m) m2))))
              (advance t4 d4 (advance t3 d3 (advance t2 d2 (advance t1 d1 w2)))) Hkey)
    as (t5 & d5 & E5).
  do 3 eexists. etransitivity; [exact E5 |]. rewrite !advance_advance. reflexivity.
Qed.
End LoadLoops.

(** ** Export, then import *)

Section RoundTrip.
Context `{Platform}.
Import PasswordManager.

Hypothesis fernet_round_trip :
  forall (k : fernet_key) (n : nat) (data : string),
    fernet_decrypt k (fernet_encrypt k n data) = inr data.
Hypothesis b64_round_trip : forall data : bytes, b64decode (b64encode data) = Some data.
Hypothesis utf8_round_trip : forall text : string, utf8_decode (utf8_encode text) = Some text.
Hypothesis json_round_trip :
  forall j : json, json_wf j = true -> json_loads (json_dumps j) = inr j.
Hypothesis json_dumps_nonempty : forall j : json, utf8_encode (json_dumps j) <> [].

(** Importing exported bytes comes down to importing the exported
    document. *)
Lemma import_exported_bytes (m : t) (w : world) (s : t * world) :
  import_data (exported_bytes m w) s =
  import_document (exported m (clock (ticks w)) (draws w)) s.
Proof.
  unfold exported_bytes.
  apply (import_data_framed _ (json_dumps (exported m (clock (ticks w)) (draws w)))).
  - apply json_dumps_nonempty.
  - apply utf8_round_trip.
  - apply json_round_trip, exported_wf.
Qed.

Lemma import_exported (m m2 : t) (w w2 : world) :
  EncryptionManager.key (encryption_manager m)
    = derive (EncryptionManager.salt (encryption_manager m))
             (utf8_encode (master_password m)) ->
  master_password m2 = master_password m ->
  exists C tk dk,
    import_data (exported_bytes m w) (m2, w2) =
    (Ok tt,
     (set_categories C
        (set_files (files m) (set_identities (identities m) (set_cards (cards m)
           (set_notes (notes m) (set_passwords (passwords m)
              (rekeyed m2 (EncryptionManager.salt (encryption_manager m)))))))),
      advance tk dk w2)).
Proof.
  intros Hkey Hpw. rewrite import_exported_bytes.
  unfold exported at 1, envelope. cbv zeta.
  erewrite import_document_rekeys;
    [| reflexivity | reflexivity | apply b64_round_trip].
  eapply load_collections_exported; [assumption | assumption | reflexivity |].
  unfold rekeyed. cbn. now rewrite Hpw, Hkey.
Qed.

(** C1.  A session whose key is the one derived from its master password
    and its salt exports its vault; any session opened with the same master
    password that imports those bytes holds the same five collections,
    record for record and field for field, and nothing is printed.  The
    envelope's own [created] time is no part of the vault. *)
Theorem export_import_round_trip (m m2 : t) (w w2 : world) :
  EncryptionManager.key (encryption_manager m)
    = derive (EncryptionManager.salt (encryption_manager m))
             (utf8_encode (master_password m)) ->
  master_password m2 = master_password m ->
  exists lp_data w1 m' w',
    export_data (m, w) = (Ok lp_data, (m, w1))
    /\ import_data lp_data (m2, w2) = (Ok tt, (m', w'))
    /\ passwords m' = passwords m
    /\ notes m' = notes m
    /\ cards m' = cards m
    /\ identities m' = identities m
    /\ files m' = files m
    /\ stdout w' = stdout w2.
Proof.
  intros Hkey Hpw.
  destruct (import_exported m m2 w w2 Hkey Hpw) as (C & tk & dk & Himport).
  exists (exported_bytes m w), (draw (tokens m) (tick w)). do 2 eexists.
  split; [apply export_data_spec |]. split; [exact Himport |].
  repeat split.
Qed.

(** C4.  [export_data] embeds the base64 text of the salt of the session's
    encryption manager, seals every field with that manager's key, and a
    manager's key is the one derived from its salt; [import_data] of an
    envelope carrying a salt first replaces the encryption manager by one
    built from the session's master password and the embedded salt, runs
    all five loops with it, and so does not depend on the encryption manager
    the session had. *)
Theorem envelope_salt_consistency (m : t) (w : world) :
  (let em := encryption_manager m in
   let k := EncryptionManager.key em in
   let n := draws w in
   let n1 := (2 * length (passwords m) + n)%nat in
   let n2 := (1 * length (notes m) + n1)%nat in
   let n3 := (3 * length (cards m) + n2)%nat in
   let n4 := (4 * length (identities m) + n3)%nat in
   fst (export_data (m, w)) =
   Ok (lp_header ++ lp_separator ++ utf8_encode (json_dumps
         (envelope (sealed_list (sealed_password k) 2 n (passwords m))
                   (sealed_list (sealed_note k) 1 n1 (notes m))
                   (sealed_list (sealed_card k) 3 n2 (cards m))
                   (sealed_list (sealed_identity k) 4 n3 (identities m))
                   (sealed_list (sealed_file k) 2 n4 (files m))
                   (clock (ticks w))
                   (b64encode (EncryptionManager.salt em)))))%list)
  /\ (forall password salt w0,
        EncryptionManager.init password (Some salt) w0 =
        (Ok (EncryptionManager.Make (utf8_encode password) salt
               (derive salt (utf8_encode password))), w0))
  /\ (forall payload text d salt_text salt,
        payload <> [] ->
        utf8_decode payload = Some text ->
        json_loads text = inr (JDict d) ->
        foreign d = false ->
        dict_get "encryption_salt" d = Some (JStr salt_text) ->
        b64decode salt_text = Some salt ->
        let lp_data := (lp_header ++ lp_separator ++ payload)%list in
        import_data lp_data (m, w) = load_collections d (rekeyed m salt, w)
        /\ encryption_manager (fst (snd (import_data lp_data (m, w))))
           = EncryptionManager.Make (utf8_encode (master_password m)) salt
               (derive salt (utf8_encode (master_password m)))
        /\ forall em', import_data lp_data (set_encryption_manager em' m, w)
                       = import_data lp_data (m, w)).
Proof.
  split; [| split].
  - cbv zeta. rewrite export_data_spec. reflexivity.
  - reflexivity.
  - intros payload text d salt_text salt Hne Hdec Hload Hf Hget Hb64. cbv zeta.
    assert (Himport : forall m0, import_data (lp_header ++ lp_separator ++ payload)%list (m0, w)
                                 = load_collections d (rekeyed m0 salt, w)).
    { intros m0. rewrite (import_data_framed _ _ _ _ Hne Hdec Hload).
      now apply (import_document_rekeys d salt_text). }
    split; [apply Himport |]. split.
    + rewrite Himport, load_collections_keeps_key. reflexivity.
    + intros em'. rewrite !Himport. reflexivity.
Qed.
End RoundTrip.

(** * Instances on the sample data *)

(** The bytes [PK-not-a-vault] do not start with the header. *)
Lemma format_rejection_witness :
  length lp_header = 22%nat /\
  (forall path w, disk w !! path = Some Example.corrupt ->
                  PasswordManager.is_valid_lp_file path w = (Ok false, w)) /\
  (forall s, PasswordManager.import_data (H := Toy.platform) Example.corrupt s =
             (Raise (ValueError "Invalid .lp file format. This file was not created by LuckeePass."), s)).
Proof.
  apply (format_rejection (H := Toy.platform) Example.corrupt).
  intros [rest Hrest]. discriminate Hrest.
Defined.

(** The session [m5] exports its five records; a fresh session opened with
    the same master password imports them. *)
Lemma export_import_round_trip_witness :
  exists lp_data w1 m' w',
    PasswordManager.export_data (H := Toy.platform) (Example.m5, Example.w0)
      = (Ok lp_data, (Example.m5, w1))
    /\ PasswordManager.import_data lp_data (Example.m0, Example.w0) = (Ok tt, (m', w'))
    /\ PasswordManager.passwords m' = [Example.login]
    /\ PasswordManager.notes m' = [Example.memo]
    /\ PasswordManager.cards m' = [Example.visa]
    /\ PasswordManager.identities m' = [Example.me]
    /\ PasswordManager.files m' = [Example.scan]
    /\ stdout w' = [].
Proof.
  apply (export_import_round_trip (H := Toy.platform)
           ToyLaws.fernet_round_trip ToyLaws.b64_round_trip ToyLaws.utf8_round_trip
           ToyLaws.json_round_trip_wf ToyLaws.json_dumps_nonempty
           Example.m5 Example.m0 Example.w0 Example.w0); reflexivity.
Defined.

(** * Decoding record by record *)

Section AtRest.
Context `{Platform}.
Import PasswordManager.

Lemma warned_nil (w : world) : warned [] w = w.
Proof. unfold warned. rewrite app_nil_r. now destruct w. Qed.

Lemma warned_warned (e1 e2 : list event) (w : world) :
  warned e2 (warned e1 w) = warned (e1 ++ e2) w.
Proof. unfold warned. cbn. now rewrite app_assoc. Qed.

Lemma advance_warned (tk dk : nat) (evs : list event) (w : world) :
  advance tk dk (warned evs w) = warned evs (advance tk dk w).
Proof. reflexivity. Qed.




Lemma opened_none {R A} (what : string) (title : R -> string) (open : R -> exn + A)
    (rs : list R) :
  (forall r, r ∈ rs -> exists x, open r = inl x) ->
  opened open rs = [] /\ length (warnings what title open rs) = length rs.
Proof.
  induction rs as [| r rs IH]; intros Hall; [split; reflexivity |].
  destruct (Hall r) as [x Hx]; [left |].
  destruct IH as [IH1 IH2]; [intros r' Hr'; apply Hall; now right |].
  cbn [opened warnings]. rewrite Hx. cbn [length]. now rewrite IH1, IH2.
Qed.
End AtRest.

Section LoadAtRest.
Context `{Platform}.
Import PasswordManager.

Hypothesis b64_round_trip : forall data : bytes, b64decode (b64encode data) = Some data.

Lemma decrypt_field_ok (k : string) (d : dict) (token data : string) (m : t) (w : world) :
  dict_get k d = Some (JStr token) ->
  fernet_decrypt (EncryptionManager.key (encryption_manager m)) token = inr data ->
  decrypt_field k d (m, w) = (Ok (dict_set k (JStr data) d), (m, advance 0 1 w)).
Proof.
  intros Hget Hdec. unfold decrypt_field, item. rewrite Hget.
  unfold bind, ret, self, lift, EncryptionManager.decrypt. cbn [fst snd].
  rewrite Hdec. reflexivity.
Qed.

Lemma decrypt_field_fails (k : string) (d : dict) (token : string) (x : exn)
    (m : t) (w : world) :
  dict_get k d = Some (JStr token) ->
  fernet_decrypt (EncryptionManager.key (encryption_manager m)) token = inl x ->
  decrypt_field k d (m, w) = (Raise x, (m, advance 0 1 w)).
Proof.
  intros Hget Hdec. unfold decrypt_field, item. rewrite Hget.
  unfold bind, ret, self, lift, EncryptionManager.decrypt. cbn [fst snd].
  rewrite Hdec. reflexivity.
Qed.

Ltac field_ok E := erewrite bind_ok by (eapply decrypt_field_ok; [reflexivity | exact E]).
Ltac field_fails E :=
  erewrite bind_raise by (eapply decrypt_field_fails; [reflexivity | exact E]).

Lemma load_password_at_rest (r : PasswordEntry.t) (m : t) (w : world) :
  exists tk dk,
    load_password (JDict (PasswordEntry.to_dict r)) (m, w) =
    pass set_passwords passwords PasswordEntry.category "password entry"
         (PasswordEntry.title r)
         (open_password (EncryptionManager.key (encryption_manager m)) r) tk dk m w.
Proof.
  unfold load_password, open_password, pass.
  destruct (fernet_decrypt _ (PasswordEntry.password r)) as [x | p] eqn:E1.
  { exists 0%nat, 1%nat.
    erewrite try_raise
      by (erewrite bind_ok by reflexivity; field_fails E1; reflexivity).
    reflexivity. }
  destruct (fernet_decrypt _ (PasswordEntry.notes r)) as [x | n] eqn:E2.
  { exists 0%nat, 2%nat.
    erewrite try_raise
      by (erewrite bind_ok by reflexivity; field_ok E1; field_fails E2; reflexivity).
    reflexivity. }
  exists (2 + 2 * length (PasswordEntry.attached_files r))%nat, 2%nat.
  erewrite try_ok; [reflexivity |].
  erewrite bind_ok by reflexivity. field_ok E1. field_ok E2.
  erewrite bind_ok
    by (apply lift_ok;
        apply (password_from_to_dict b64_round_trip
                 (PasswordEntry.Make (PasswordEntry.title r) (PasswordEntry.username r) p
                    (PasswordEntry.url r) n (PasswordEntry.category r)
                    (PasswordEntry.is_favorite r) (PasswordEntry.attached_files r)
                    (PasswordEntry.created r) (PasswordEntry.modified r)))).
  reflexivity.
Qed.

Lemma load_note_at_rest (r : SecureNote.t) (m : t) (w : world) :
  exists tk dk,
    load_note (JDict (SecureNote.to_dict r)) (m, w) =
    pass set_notes notes SecureNote.category "note" (SecureNote.title r)
         (open_note (EncryptionManager.key (encryption_manager m)) r) tk dk m w.
Proof.
  unfold load_note, open_note, pass.
  destruct (fernet_decrypt _ (SecureNote.content r)) as [x | c] eqn:E1.
  { exists 0%nat, 1%nat.
    erewrite try_raise
      by (erewrite bind_ok by reflexivity; field_fails E1; reflexivity).
    reflexivity. }
  exists (2 + 2 * length (SecureNote.attached_files r))%nat, 1%nat.
  erewrite try_ok; [reflexivity |].
  erewrite bind_ok by reflexivity. field_ok E1.
  erewrite bind_ok
    by (apply lift_ok;
        apply (note_from_to_dict b64_round_trip
                 (SecureNote.Make (SecureNote.title r) c (SecureNote.category r)
                    (SecureNote.is_favorite r) (SecureNote.attached_files r)
                    (SecureNote.created r) (SecureNote.modified r)))).
  reflexivity.
Qed.

Lemma load_card_at_rest (r : CardEntry.t) (m : t) (w : world) :
  exists tk dk,
    load_card (JDict (CardEntry.to_dict r)) (m, w) =
    pass set_cards cards CardEntry.category "card entry" (CardEntry.title r)
         (open_card (EncryptionManager.key (encryption_manager m)) r) tk dk m w.
Proof.
  unfold load_card, open_card, pass.
  destruct (fernet_decrypt _ (CardEntry.card_number r)) as [x | number] eqn:E1.
  { exists 0%nat, 1%nat.
    erewrite try_raise
      by (erewrite bind_ok by reflexivity; field_fails E1; reflexivity).
    reflexivity. }
  destruct (fernet_decrypt _ (CardEntry.cvv r)) as [x | code] eqn:E2.
  { exists 0%nat, 2%nat.
    erewrite try_raise
      by (erewrite bind_ok by reflexivity; field_ok E1; field_fails E2; reflexivity).
    reflexivity. }
  destruct (fernet_decrypt _ (CardEntry.notes r)) as [x | n] eqn:E3.
  { exists 0%nat, 3%nat.
    erewrite try_raise
      by (erewrite bind_ok by reflexivity; field_ok E1; field_ok E2; field_fails E3;
          reflexivity).
    reflexivity. }
  exists (2 + 2 * length (CardEntry.attached_files r))%nat, 3%nat.
  erewrite try_ok; [reflexivity |].
  erewrite bind_ok by reflexivity. field_ok E1. field_ok E2. field_ok E3.
  erewrite bind_ok
    by (apply lift_ok;
        apply (card_from_to_dict b64_round_trip
                 (CardEntry.Make (CardEntry.title r) (CardEntry.card_type r) number
                    (CardEntry.cardholder_name r) (CardEntry.expiry_month r)
                    (CardEntry.expiry_year r) code n (CardEntry.category r)
                    (CardEntry.is_favorite r) (CardEntry.attached_files r)
                    (CardEntry.created r) (CardEntry.modified r)))).
  reflexivity.
Qed.

Lemma load_identity_at_rest (r : IdentityEntry.t) (m : t) (w : world) :
  exists tk dk,
    load_identity (JDict (IdentityEntry.to_dict r)) (m, w) =
    pass set_identities identities IdentityEntry.category "identity entry"
         (IdentityEntry.title r)
         (open_identity (EncryptionManager.key (encryption_manager m)) r) tk dk m w.
Proof.
  unfold load_identity, open_identity, pass.
  destruct (fernet_decrypt _ (IdentityEntry.social_security_number r)) as [x | ssn] eqn:E1.
  { exists 0%nat, 1%nat.
    erewrite try_raise
      by (erewrite bind_ok by reflexivity; field_fails E1; reflexivity).
    reflexivity. }
  destruct (fernet_decrypt _ (IdentityEntry.driver_license r)) as [x | licence] eqn:E2.
  { exists 0%nat, 2%nat.
    erewrite try_raise
      by (erewrite bind_ok by reflexivity; field_ok E1; field_fails E2; reflexivity).
    reflexivity. }
  destruct (fernet_decrypt _ (IdentityEntry.passport_number r)) as [x | passport] eqn:E3.
  { exists 0%nat, 3%nat.
    erewrite try_raise
      by (erewrite bind_ok by reflexivity; field_ok E1; field_ok E2; field_fails E3;
          reflexivity).
    reflexivity. }
  destruct (fernet_decrypt _ (IdentityEntry.notes r)) as [x | n] eqn:E4.
  { exists 0%nat, 4%nat.
    erewrite try_raise
      by (erewrite bind_ok by reflexivity; field_ok E1; field_ok E2; field_ok E3;
          field_fails E4; reflexivity).
    reflexivity. }
  exists (2 + 2 * length (IdentityEntry.attached_files r))%nat, 4%nat.
  erewrite try_ok; [reflexivity |].
  erewrite bind_ok by reflexivity. field_ok E1. field_ok E2. field_ok E3. field_ok E4.
  erewrite bind_ok
    by (apply lift_ok;
        apply (identity_from_to_dict b64_round_trip
                 (IdentityEntry.Make (IdentityEntry.title r) (IdentityEntry.first_name r)
                    (IdentityEntry.last_name r) (IdentityEntry.email r)
                    (IdentityEntry.phone r) (IdentityEntry.address r)
                    (IdentityEntry.city r) (IdentityEntry.state r)
                    (IdentityEntry.zip_code r) (IdentityEntry.country r)
                    (IdentityEntry.date_of_birth r) ssn licence passport n
                    (IdentityEntry.category r) (IdentityEntry.is_favorite r)
                    (IdentityEntry.attached_files r) (IdentityEntry.created r)
                    (IdentityEntry.modified r)))).
  reflexivity.
Qed.
End LoadAtRest.

Section LoadFileAtRest.
Context `{Platform}.
Import PasswordManager.

(** [FileEntry.from_dict] on the dict of a file whose payload is the text
    [payload] and whose notes are [n]. *)
Lemma file_from_dict_payload (f : FileEntry.t) (token payload n : string) (w : world) :
  FileEntry.from_dict
    (JDict (dict_set "notes" (JStr n) (dict_set "file_data" (JStr payload)
              (dict_set "file_data" (JStr token) (FileEntry.to_dict f))))) w =
  match b64decode payload with
  | Some data =>
      (Ok (FileEntry.Make (FileEntry.title f) data (FileEntry.file_name f)
             (FileEntry.file_type f) (FileEntry.file_size f) (FileEntry.category f) n
             (FileEntry.is_favorite f) (FileEntry.created f) (FileEntry.modified f)),
       advance 2 0 w)
  | None => (Raise (b64decode_error payload), w)
  end.
Proof.
  destruct f. unfold FileEntry.from_dict.
  erewrite bind_ok by reflexivity. unfold py_b64decode.
  destruct (b64decode payload); reflexivity.
Qed.

Lemma lift_raise {A} (c : W A) (x : exn) (m : t) (w w' : world) :
  c w = (Raise x, w') -> lift c (m, w) = (Raise x, (m, w')).
Proof. unfold lift. cbn [fst snd]. now intros ->. Qed.

Ltac field_ok E := erewrite bind_ok by (eapply decrypt_field_ok; [reflexivity | exact E]).
Ltac field_fails E :=
  erewrite bind_raise by (eapply decrypt_field_fails; [reflexivity | exact E]).

Lemma load_file_at_rest (r : FileEntry.t * string) (m : t) (w : world) :
  exists tk dk,
    load_file (file_at_rest r) (m, w) =
    pass set_files files FileEntry.category "file" (FileEntry.title (fst r))
         (open_file (EncryptionManager.key (encryption_manager m)) r) tk dk m w.
Proof.
  destruct r as [f token]. unfold load_file, open_file, pass, file_at_rest. cbn [fst snd].
  destruct (fernet_decrypt _ token) as [x | payload] eqn:E1.
  { exists 0%nat, 1%nat.
    erewrite try_raise
      by (erewrite bind_ok by reflexivity; field_fails E1; reflexivity).
    reflexivity. }
  destruct (fernet_decrypt _ (FileEntry.notes f)) as [x | n] eqn:E2.
  { exists 0%nat, 2%nat.
    erewrite try_raise
      by (erewrite bind_ok by reflexivity; field_ok E1; field_fails E2; reflexivity).
    reflexivity. }
  pose proof (file_from_dict_payload f token payload n (advance 0 1 (advance 0 1 w))) as Hfd.
  destruct (b64decode payload) as [data |] eqn:E3.
  - exists 2%nat, 2%nat.
    erewrite try_ok; [reflexivity |].
    erewrite bind_ok by reflexivity. field_ok E1. field_ok E2.
    erewrite bind_ok by (apply lift_ok; exact Hfd).
    reflexivity.
  - exists 0%nat, 2%nat.
    erewrite try_raise
      by (erewrite bind_ok by reflexivity; field_ok E1; field_ok E2;
          erewrite bind_raise by (apply lift_raise; exact Hfd); reflexivity).
    reflexivity.
Qed.

(** A loop of [import_data] over a collection at rest: the records that
    open are appended in order, the others are warned about, in order. *)
Lemma for_each_at_rest {R A} (load : json -> M unit) (to_json : R -> json)
    (open : fernet_key -> R -> exn + A) (what : string) (title : R -> string)
    (proj : t -> list A) (set_list : list A -> t -> t) (category : A -> string) :
  (forall r m w, exists tk dk,
     load (to_json r) (m, w) =
     pass set_list proj category what (title r)
          (open (EncryptionManager.key (encryption_manager m)) r) tk dk m w) ->
  (forall C l m, proj (set_categories C (set_list l m)) = l) ->
  (forall C l m, categories (set_categories C (set_list l m)) = C) ->
  (forall C l m, encryption_manager (set_categories C (set_list l m)) = encryption_manager m) ->
  (forall C l C' l' m,
     set_categories C' (set_list l' (set_categories C (set_list l m)))
     = set_categories C' (set_list l' m)) ->
  forall k rs C l0 m w,
    EncryptionManager.key (encryption_manager m) = k ->
    exists tk dk,
      for_each (map to_json rs) load (set_categories C (set_list l0 m), w) =
      (Ok tt,
       (set_categories (add_categories (map category (opened (open k) rs)) C)
                       (set_list (l0 ++ opened (open k) rs)%list m),
        warned (warnings what title (open k) rs) (advance tk dk w))).
Proof.
  intros Hload Hproj Hcat Hem Hnorm k rs.
  induction rs as [| r rs IH]; intros C l0 m w Hk.
  - exists O, O. cbn. unfold ret. now rewrite advance_0, warned_nil, app_nil_r.
  - cbn [map for_each opened warnings].
    destruct (Hload r (set_categories C (set_list l0 m)) w) as (t1 & d1 & Hstep).
    rewrite Hem, Hk in Hstep. unfold pass, loaded in Hstep.
    destruct (open k r) as [x | e].
    + erewrite bind_ok by exact Hstep.
      destruct (IH C l0 m (warned [Warning what (JStr (title r)) x] (advance t1 d1 w)) Hk)
        as (t2 & d2 & E).
      rewrite E, advance_warned, warned_warned, advance_advance. cbn [app]. eauto.
    + rewrite Hproj, Hcat, Hnorm in Hstep.
      erewrite bind_ok by exact Hstep.
      destruct (IH ({[category e]} ∪ C) (l0 ++ [e])%list m (advance t1 d1 w) Hk)
        as (t2 & d2 & E).
      rewrite E, advance_advance, <- app_assoc. cbn [map add_categories app]. eauto.
Qed.
End LoadFileAtRest.

Section DecodeDocument.
Context `{Platform}.
Import PasswordManager.

Hypothesis b64_round_trip : forall data : bytes, b64decode (b64encode data) = Some data.

Lemma load_collections_document (E : at_rest) (d : dict) (m : t) (w : world) :
  document E = JDict d ->
  let k := EncryptionManager.key (encryption_manager m) in
  exists C tk dk,
    load_collections d (m, w) =
    (Ok tt,
     (set_categories C
        (set_files (opened (open_file k) (r_files E))
           (set_identities (opened (open_identity k) (r_identities E))
              (set_cards (opened (open_card k) (r_cards E))
                 (set_notes (opened (open_note k) (r_notes E))
                    (set_passwords (opened (open_password k) (r_passwords E)) m))))),
      warned (all_warnings k E) (advance tk dk w))).
Proof.
  intros Hd k. unfold document, envelope in Hd. injection Hd as <-.
  unfold load_collections.
  erewrite bind_ok by reflexivity. erewrite bind_ok by reflexivity.
  destruct (for_each_at_rest load_password (fun r => JDict (PasswordEntry.to_dict r))
              open_password "password entry" PasswordEntry.title
              passwords set_passwords PasswordEntry.category
              (load_password_at_rest b64_round_trip)
              (fun _ _ _ => eq_refl) (fun _ _ _ => eq_refl) (fun _ _ _ => eq_refl)
              (fun _ _ _ _ _ => eq_refl)
              k (r_passwords E) (categories m) [] m w eq_refl) as (t1 & d1 & E1).
  erewrite bind_ok by exact E1. clear E1.
  erewrite bind_ok by reflexivity. erewrite bind_ok by reflexivity.
  match goal with |- context [add_categories ?cs ?C] => set (C1 := add_categories cs C) end.
  set (l1 := opened (open_password k) (r_passwords E)).
  destruct (for_each_at_rest load_note (fun r => JDict (SecureNote.to_dict r))
              open_note "note" SecureNote.title
              notes set_notes SecureNote.category
              (load_note_at_rest b64_round_trip)
              (fun _ _ _ => eq_refl) (fun _ _ _ => eq_refl) (fun _ _ _ => eq_refl)
              (fun _ _ _ _ _ => eq_refl)
              k (r_notes E) C1 [] (set_passwords l1 m)
              (warned (warnings "password entry" PasswordEntry.title (open_password k)
                         (r_passwords E)) (advance t1 d1 w)) eq_refl) as (t2 & d2 & E2).
  erewrite bind_ok by exact E2. clear E2.
  erewrite bind_ok by reflexivity. erewrite bind_ok by reflexivity.
  match goal with |- context [add_categories ?cs C1] => set (C2 := add_categories cs C1) end.
  set (l2 := opened (open_note k) (r_notes E)).
  destruct (for_each_at_rest load_card (fun r => JDict (CardEntry.to_dict r))
              open_card "card entry" CardEntry.title
              cards set_cards CardEntry.category
              (load_card_at_rest b64_round_trip)
              (fun _ _ _ => eq_refl) (fun _ _ _ => eq_refl) (fun _ _ _ => eq_refl)
              (fun _ _ _ _ _ => eq_refl)
              k (r_cards E) C2 [] (set_notes l2 (set_passwords l1 m))
              (warned (warnings "note" SecureNote.title (open_note k) (r_notes E))
                 (advance t2 d2
                    (warned (warnings "password entry" PasswordEntry.title (open_password k)
                               (r_passwords E)) (advance t1 d1 w)))) eq_refl)
    as (t3 & d3 & E3).
  erewrite bind_ok by exact E3. clear E3.
  erewrite bind_ok by reflexivity. erewrite bind_ok by reflexivity.
  match goal with |- context [add_categories ?cs C2] => set (C3 := add_categories cs C2) end.
  set (l3 := opened (open_card k) (r_cards E)).
  destruct (for_each_at_rest load_identity (fun r => JDict (IdentityEntry.to_dict r))
              open_identity "identity entry" IdentityEntry.title
              identities set_identities IdentityEntry.category
              (load_identity_at_rest b64_round_trip)
              (fun _ _ _ => eq_refl) (fun _ _ _ => eq_refl) (fun _ _ _ => eq_refl)
              (fun _ _ _ _ _ => eq_refl)
              k (r_identities E) C3 [] (set_cards l3 (set_notes l2 (set_passwords l1 m)))
              (warned (warnings "card entry" CardEntry.title (open_card k) (r_cards E))
                 (advance t3 d3
                    (warned (warnings "note" SecureNote.title (open_note k) (r_notes E))
                       (advance t2 d2
                          (warned (warnings "password entry" PasswordEntry.title
                                     (open_password k) (r_passwords E))
                             (advance t1 d1 w)))))) eq_refl)
    as (t4 & d4 & E4).
  erewrite bind_ok by exact E4. clear E4.
  erewrite bind_ok by reflexivity. erewrite bind_ok by reflexivity.
  match goal with |- context [add_categories ?cs C3] => set (C4 := add_categories cs C3) end.
  set (l4 := opened (open_identity k) (r_identities E)).
  destruct (for_each_at_rest load_file file_at_rest
              open_file "file" (fun r => FileEntry.title (fst r))
              files set_files FileEntry.category
              load_file_at_rest
              (fun _ _ _ => eq_refl) (fun _ _ _ => eq_refl) (fun _ _ _ => eq_refl)
              (fun _ _ _ _ _ => eq_refl)
              k (r_files E) C4 []
              (set_identities l4 (set_cards l3 (set_notes l2 (set_passwords l1 m))))
              (warned (warnings "identity entry" IdentityEntry.title (open_identity k)
                         (r_identities E))
                 (advance t4 d4
                    (warned (warnings "card entry" CardEntry.title (open_card k) (r_cards E))
                       (advance t3 d3
                          (warned (warnings "note" SecureNote.title (open_note k) (r_notes E))
                             (advance t2 d2
                                (warned (warnings "password entry" PasswordEntry.title
                                           (open_password k) (r_passwords E))
                                   (advance t1 d1 w)))))))) eq_refl)
    as (t5 & d5 & E5).
  do 3 eexists. etransitivity; [exact E5 |].
  rewrite !advance_warned, !warned_warned, !advance_advance.
  unfold all_warnings. rewrite <- ?app_assoc. reflexivity.
Qed.
End DecodeDocument.

(** ** What [export_data] writes is an envelope at rest *)

Section SealedAtRest.
Context `{Platform}.
Import PasswordManager.

Lemma sealed_list_at_rest {A R} (sealed : nat -> A -> json) (seal : nat -> A -> R)
    (to_json : R -> json) (per n : nat) (l : list A) :
  (forall n e, sealed n e = to_json (seal n e)) ->
  sealed_list sealed per n l = map to_json (seal_list seal per n l).
Proof.
  intros Heq. revert n. induction l as [| e l IH]; intros n; [reflexivity |].
  cbn [sealed_list seal_list map]. now rewrite Heq, IH.
Qed.

Lemma seal_list_elem {A R} (seal : nat -> A -> R) (per n : nat) (l : list A) (r : R) :
  r ∈ seal_list seal per n l -> exists i e, r = seal i e.
Proof.
  revert n. induction l as [| e l IH]; intros n Hin; cbn [seal_list] in Hin.
  - now apply elem_of_nil in Hin.
  - apply elem_of_cons in Hin as [-> | Hin]; [eauto | eapply IH, Hin].
Qed.

Lemma seal_list_length {A R} (seal : nat -> A -> R) (per n : nat) (l : list A) :
  length (seal_list seal per n l) = length l.
Proof. revert n. induction l as [| e l IH]; intros n; cbn; [reflexivity | now rewrite IH]. Qed.

Lemma exported_at_rest (m : t) (created : string) (n : nat) :
  exported m created n = document (sealed_envelope m created n).
Proof.
  unfold exported, document, sealed_envelope. cbv zeta.
  cbn [r_passwords r_notes r_cards r_identities r_files r_created r_salt].
  f_equal.
  - apply sealed_list_at_rest. intros i e. now destruct e.
  - apply sealed_list_at_rest. intros i e. now destruct e.
  - apply sealed_list_at_rest. intros i e. now destruct e.
  - apply sealed_list_at_rest. intros i e. now destruct e.
  - apply sealed_list_at_rest. intros i e. now destruct e.
Qed.

Lemma sealed_envelope_records (m : t) (created : string) (n : nat) :
  records (sealed_envelope m created n) =
  (length (passwords m) + length (notes m) + length (cards m)
   + length (identities m) + length (files m))%nat.
Proof. unfold records, sealed_envelope. cbn. now rewrite !seal_list_length. Qed.

(** Under a key that rejects the tokens of the vault no sealed record
    opens: the first token fails. *)
Lemma sealed_envelope_rejected (m : t) (created : string) (n : nat) (k' : fernet_key) :
  (forall (i : nat) (data : string), exists x,
     fernet_decrypt k' (fernet_encrypt (EncryptionManager.key (encryption_manager m)) i data)
     = inl x) ->
  let E := sealed_envelope m created n in
  opened (open_password k') (r_passwords E) = []
  /\ opened (open_note k') (r_notes E) = []
  /\ opened (open_card k') (r_cards E) = []
  /\ opened (open_identity k') (r_identities E) = []
  /\ opened (open_file k') (r_files E) = []
  /\ length (all_warnings k' E) = records E.
Proof.
  intros Hrej E.
  destruct (opened_none "password entry" PasswordEntry.title (open_password k')
              (r_passwords E)) as [P1 P2].
  { intros r Hr. apply seal_list_elem in Hr as (i & e & ->).
    unfold open_password, seal_password. cbn.
    destruct (Hrej i (PasswordEntry.password e)) as [x ->]. eauto. }
  destruct (opened_none "note" SecureNote.title (open_note k') (r_notes E)) as [N1 N2].
  { intros r Hr. apply seal_list_elem in Hr as (i & e & ->).
    unfold open_note, seal_note. cbn.
    destruct (Hrej i (SecureNote.content e)) as [x ->]. eauto. }
  destruct (opened_none "card entry" CardEntry.title (open_card k') (r_cards E)) as [C1 C2].
  { intros r Hr. apply seal_list_elem in Hr as (i & e & ->).
    unfold open_card, seal_card. cbn.
    destruct (Hrej i (CardEntry.card_number e)) as [x ->]. eauto. }
  destruct (opened_none "identity entry" IdentityEntry.title (open_identity k')
              (r_identities E)) as [I1 I2].
  { intros r Hr. apply seal_list_elem in Hr as (i & e & ->).
    unfold open_identity, seal_identity. cbn.
    destruct (Hrej i (IdentityEntry.social_security_number e)) as [x ->]. eauto. }
  destruct (opened_none "file" (fun r => FileEntry.title (fst r)) (open_file k')
              (r_files E)) as [F1 F2].
  { intros r Hr. apply seal_list_elem in Hr as (i & e & ->).
    unfold open_file, seal_file. cbn.
    destruct (Hrej i (b64encode (FileEntry.file_data e))) as [x ->].
    eauto. }
  repeat split; try assumption.
  unfold all_warnings, records. rewrite !length_app, P2, N2, C2, I2, F2. lia.
Qed.

Lemma warnings_are_warnings {R A} (what : string) (title : R -> string)
    (open : R -> exn + A) (rs : list R) :
  Forall is_warning (warnings what title open rs).
Proof.
  induction rs as [| r rs IH]; cbn [warnings]; [constructor |].
  destruct (open r); [constructor; [exact I | exact IH] | exact IH].
Qed.

Lemma all_warnings_are_warnings (k : fernet_key) (E : at_rest) :
  Forall is_warning (all_warnings k E).
Proof.
  unfold all_warnings. repeat (apply Forall_app; split); apply warnings_are_warnings.
Qed.
End SealedAtRest.

(** ** Sealed records under their own key *)

Section SealedSameKey.
Context `{Platform}.
Import PasswordManager.

Hypothesis fernet_round_trip :
  forall (k : fernet_key) (n : nat) (data : string),
    fernet_decrypt k (fernet_encrypt k n data) = inr data.
Hypothesis b64_round_trip : forall data : bytes, b64decode (b64encode data) = Some data.







End SealedSameKey.

(** ** Failure isolation *)

Section Isolation.
Context `{Platform}.
Import PasswordManager.

Hypothesis fernet_round_trip :
  forall (k : fernet_key) (n : nat) (data : string),
    fernet_decrypt k (fernet_encrypt k n data) = inr data.
Hypothesis b64_round_trip : forall data : bytes, b64decode (b64encode data) = Some data.
Hypothesis utf8_round_trip : forall text : string, utf8_decode (utf8_encode text) = Some text.
Hypothesis json_round_trip :
  forall j : json, json_wf j = true -> json_loads (json_dumps j) = inr j.
Hypothesis json_dumps_nonempty : forall j : json, utf8_encode (json_dumps j) <> [].

Lemma import_document_at_rest (E : at_rest) (salt : bytes) (m : t) (w : world) :
  b64decode (r_salt E) = Some salt ->
  let k := derive salt (utf8_encode (master_password m)) in
  exists C tk dk,
    import_document (document E) (m, w) =
    (Ok tt, (decoded C k E (rekeyed m salt), warned (all_warnings k E) (advance tk dk w))).
Proof.
  intros Hsalt k. unfold document, envelope.
  erewrite import_document_rekeys; [| reflexivity | reflexivity | exact Hsalt].
  apply (load_collections_document b64_round_trip E _ (rekeyed m salt) w eq_refl).
Qed.

(** The import of what a session exported, into any session: the records
    the exported envelope opens to under the key derived from the importing
    session's master password and the exported salt. *)
Lemma import_exported_at_rest (m0 m : t) (w0 w : world) :
  let k := derive (EncryptionManager.salt (encryption_manager m0))
                  (utf8_encode (master_password m)) in
  let E0 := sealed_envelope m0 (clock (ticks w0)) (draws w0) in
  exists C tk dk,
    import_data (exported_bytes m0 w0) (m, w) =
    (Ok tt, (decoded C k E0 (rekeyed m (EncryptionManager.salt (encryption_manager m0))),
             warned (all_warnings k E0) (advance tk dk w))).
Proof.
  intros k E0.
  destruct (import_document_at_rest E0 (EncryptionManager.salt (encryption_manager m0)) m w)
    as (C & tk & dk & Himport); [apply b64_round_trip |].
  exists C, tk, dk.
  rewrite (import_exported_bytes utf8_round_trip json_round_trip json_dumps_nonempty).
  rewrite exported_at_rest. exact Himport.
Qed.






(** A record opens exactly when its tokens decrypt. *)








End Isolation.


(** ** Two passwords, one key *)

Module PaddedLaws.
Import Padded.

(** A NUL byte after a password shorter than the block is lost in the
    padding. *)
Lemma hmac_key_nul (password : bytes) :
  (length password < 64)%nat -> hmac_key (password ++ [x00]) = hmac_key password.
Proof.
  intros Hlen. unfold hmac_key. rewrite length_app. cbn [length].
  replace (64 - length password)%nat with (Datatypes.S (64 - (length password + 1)))%nat
    by lia.
  cbn [replicate]. now rewrite <- app_assoc.
Qed.

Lemma derive_nul (salt password : bytes) :
  (length password < 64)%nat ->
  derive (Platform := platform) salt (password ++ [x00])
  = derive (Platform := platform) salt password.
Proof. intros Hlen. cbn [derive platform]. unfold kdf. now rewrite hmac_key_nul. Qed.



Lemma padded_utf8_round_trip (text : string) :
  utf8_decode (Platform := platform) (utf8_encode (Platform := platform) text) = Some text.
Proof. apply ToyLaws.utf8_round_trip. Qed.

Lemma padded_json_round_trip (j : json) :
  json_loads (Platform := platform) (json_dumps (Platform := platform) j) = inr j.
Proof. apply ToyLaws.json_round_trip. Qed.


Lemma padded_json_dumps_nonempty (j : json) :
  utf8_encode (Platform := platform) (json_dumps (Platform := platform) j) <> [].
Proof. apply ToyLaws.dumps_nonempty. Qed.
End PaddedLaws.


(** One favourited record in each collection of [m5]. *)
Lemma favorites_ordering_witness :
  PasswordManager.favorites (H := Toy.platform) Example.m5 =
  [ ("Password", RPassword Example.login); ("Secure Note", RNote Example.memo);
    ("Card", RCard Example.visa); ("Identity", RIdentity Example.me);
    ("File", RFile Example.scan) ].
Proof.
  apply (proj2 (favorites_ordering (H := Toy.platform) Example.m5)); reflexivity.
Defined.

(** A session that holds some other encryption manager imports the bytes
    [m5] exported: it ends with the manager built from the embedded salt. *)
Lemma envelope_salt_consistency_witness :
  let other := EncryptionManager.Make (H := Toy.platform) [] [] "" in
  let m := PasswordManager.set_encryption_manager other Example.m0 in
  PasswordManager.encryption_manager
    (fst (snd (PasswordManager.import_data (H := Toy.platform)
                 (exported_bytes Example.m5 Example.w0) (m, Example.w0))))
  = Example.em0.
Proof.
  cbv zeta.
  pose (doc := exported (H := Toy.platform) Example.m5
                 (clock (Platform := Toy.platform) 0) 0).
  pose (d := match doc with JDict d => d | _ => [] end).
  destruct (envelope_salt_consistency (H := Toy.platform)
              (PasswordManager.set_encryption_manager
                 (EncryptionManager.Make (H := Toy.platform) [] [] "") Example.m0)
              Example.w0) as (_ & _ & Himport).
  destruct (Himport (utf8_encode (Platform := Toy.platform)
                       (json_dumps (Platform := Toy.platform) doc))
                    (json_dumps (Platform := Toy.platform) doc) d
                    (b64encode (Platform := Toy.platform) Example.salt0) Example.salt0
                    (ToyLaws.json_dumps_nonempty doc)
                    (ToyLaws.utf8_round_trip _)
                    (ToyLaws.json_round_trip doc)
                    eq_refl eq_refl (ToyLaws.b64_round_trip _)) as (_ & Hem & _).
  exact Hem.
Defined.

(** * Further properties of the vault engine *)

(** ** Loading and clearing *)

Section LoadData.
Context `{Platform}.
Import PasswordManager.

(** X1.  [load_data] never raises: whatever the vault file holds it
    returns normally (or the embedding stops, at a value of a type the
    records do not hold).  Without a vault file it prints one line and
    leaves the session as it is; on an empty vault file it does nothing at
    all. *)
Theorem load_data_never_raises (m : t) (w : world) :
  let r := load_data (m, w) in
  (fst r = Ok tt \/ fst r = Untyped)
  /\ (disk w !! data_file m = None ->
      r = (Ok tt, (m, warned [Printed "No existing data file found, starting fresh"] w)))
  /\ (disk w !! data_file m = Some [] -> r = (Ok tt, (m, w))).
Proof.
  cbv zeta. rewrite load_data_spec. split; [| split].
  - destruct (disk w !! data_file m) as [[| b lp_data] |]; auto.
    destruct (import_data (b :: lp_data) (m, w)) as [[[] | e |] [m1 w1]]; auto.
  - intros ->. reflexivity.
  - intros ->. reflexivity.
Qed.

(** X2.  [clear_all_data] never raises either.  It empties the five
    collections and the category set, then saves: when the write succeeds
    the vault file holds the export of the emptied vault; when it fails the
    only trace is one printed line, and the vault file is left as the failed
    write left it. *)
Theorem clear_all_data_never_raises (fault : io_fault) (m : t) (w : world) :
  let r := clear_all_data fault (m, w) in
  let m' := fst (snd r) in
  let w' := snd (snd r) in
  fst r = Ok tt
  /\ (passwords m' = [] /\ notes m' = [] /\ cards m' = [] /\ identities m' = []
      /\ files m' = [] /\ categories m' = ∅)
  /\ match fault with
     | NoFault =>
         disk w' !! data_file m = Some (exported_bytes m' w) /\ stdout w' = stdout w
     | OpenFails =>
         disk w' !! data_file m = disk w !! data_file m
         /\ stdout w' = (stdout w ++
              [Printed "Error clearing data: Failed to save data: Permission denied"])%list
     | WriteFailsAfter n =>
         disk w' !! data_file m = Some (take n (exported_bytes m' w))
         /\ stdout w' = (stdout w ++
              [Printed "Error clearing data: Failed to save data: No space left on device"])%list
     end.
Proof.
  cbv zeta. unfold clear_all_data, bind, update, try_except. cbn [fst snd].
  rewrite save_data_spec. cbv zeta.
  destruct fault; cbn [fst snd lift print]; repeat split; cbn; try apply lookup_insert_eq.
Qed.

(** X3.  [export_data] always returns: the session is left as it is, no
    file is touched and nothing is printed; the clock is read once and one
    token is drawn for every sensitive field.  What it returns starts with
    the header and the separator, so [is_valid_lp_file] accepts any file
    that holds it. *)
Theorem export_data_reads_only (m : t) (w : world) :
  exists payload w',
    export_data (m, w) = (Ok (lp_header ++ lp_separator ++ payload)%list, (m, w'))
    /\ disk w' = disk w
    /\ stdout w' = stdout w
    /\ decrypts w' = decrypts w
    /\ ticks w' = Datatypes.S (ticks w)
    /\ draws w' = (tokens m + draws w)%nat
    /\ forall file_path w2,
         disk w2 !! file_path = Some (lp_header ++ lp_separator ++ payload)%list ->
         is_valid_lp_file file_path w2 = (Ok true, w2).
Proof.
  do 2 eexists. split; [apply export_data_spec |].
  repeat (split; [reflexivity |]).
  intros file_path w2 Hfile.
  unfold is_valid_lp_file, try_except, bind, read_file. rewrite Hfile. reflexivity.
Qed.
End LoadData.

(** ** Saving, then loading *)

Section SaveLoad.
Context `{Platform}.
Import PasswordManager.

Hypothesis fernet_round_trip :
  forall (k : fernet_key) (n : nat) (data : string),
    fernet_decrypt k (fernet_encrypt k n data) = inr data.
Hypothesis b64_round_trip : forall data : bytes, b64decode (b64encode data) = Some data.
Hypothesis utf8_round_trip : forall text : string, utf8_decode (utf8_encode text) = Some text.
Hypothesis json_round_trip :
  forall j : json, json_wf j = true -> json_loads (json_dumps j) = inr j.
Hypothesis json_dumps_nonempty : forall j : json, utf8_encode (json_dumps j) <> [].

Lemma exported_bytes_cons (m : t) (w : world) :
  exists rest, exported_bytes m w = ("L"%byte :: rest).
Proof. unfold exported_bytes. eexists. reflexivity. Qed.

(** X4.  What [save_data] writes, [load_data] reads back: after a save
    that succeeds, any session opened with the same master password on the
    same vault file, whatever its encryption manager and whatever it holds,
    and however the rest of the world has changed since, loads the five
    collections of the saved session, record for record, and nothing is
    printed. *)
Theorem save_then_load (m m2 : t) (w : world) :
  EncryptionManager.key (encryption_manager m)
    = derive (EncryptionManager.salt (encryption_manager m))
             (utf8_encode (master_password m)) ->
  master_password m2 = master_password m ->
  data_file m2 = data_file m ->
  exists w1,
    save_data NoFault (m, w) = (Ok tt, (m, w1))
    /\ forall w2,
         disk w2 !! data_file m = disk w1 !! data_file m ->
         exists m' w',
           load_data (m2, w2) = (Ok tt, (m', w'))
           /\ passwords m' = passwords m
           /\ notes m' = notes m
           /\ cards m' = cards m
           /\ identities m' = identities m
           /\ files m' = files m
           /\ stdout w' = stdout w2.
Proof.
  intros Hkey Hpw Hfile.
  exists (with_file (data_file m) (exported_bytes m w) (draw (tokens m) (tick w))).
  split; [rewrite save_data_spec; reflexivity |].
  intros w2 Hsame. cbn [with_file disk] in Hsame. rewrite lookup_insert_eq in Hsame.
  destruct (import_exported fernet_round_trip b64_round_trip utf8_round_trip
              json_round_trip json_dumps_nonempty m m2 w w2 Hkey Hpw)
    as (C & tk & dk & Himport).
  do 2 eexists. split.
  - rewrite load_data_spec, Hfile, Hsame.
    destruct (exported_bytes_cons m w) as [rest Hrest].
    rewrite Hrest in *. rewrite Himport. reflexivity.
  - repeat split.
Qed.
End SaveLoad.

(** ** Loading with a master password that does not open the vault *)

Section AnotherPassword.
Context `{Platform}.
Import PasswordManager.

Hypothesis b64_round_trip : forall data : bytes, b64decode (b64encode data) = Some data.
Hypothesis utf8_round_trip : forall text : string, utf8_decode (utf8_encode text) = Some text.
Hypothesis json_round_trip :
  forall j : json, json_wf j = true -> json_loads (json_dumps j) = inr j.
Hypothesis json_dumps_nonempty : forall j : json, utf8_encode (json_dumps j) <> [].

(** An exported vault imported under a key that rejects its tokens: no
    record opens. *)
Lemma import_with_rejected_key (m m2 : t) (w w2 : world) :
  (forall (i : nat) (data : string),
     rejected_under (derive (EncryptionManager.salt (encryption_manager m))
                            (utf8_encode (master_password m2)))
                    (fernet_encrypt (EncryptionManager.key (encryption_manager m)) i data)) ->
  exists C evs tk dk,
    import_data (exported_bytes m w) (m2, w2) =
    (Ok tt,
     (set_categories C
        (set_files [] (set_identities [] (set_cards [] (set_notes [] (set_passwords []
           (rekeyed m2 (EncryptionManager.salt (encryption_manager m)))))))),
      warned evs (advance tk dk w2)))
    /\ Forall is_warning evs
    /\ length evs = (length (passwords m) + length (notes m) + length (cards m)
                     + length (identities m) + length (files m))%nat.
Proof.
  intros Hrej.
  set (E0 := sealed_envelope m (clock (ticks w)) (draws w)).
  destruct (import_exported_at_rest b64_round_trip utf8_round_trip json_round_trip
              json_dumps_nonempty m m2 w w2) as (C & tk & dk & Himport).
  destruct (sealed_envelope_rejected m (clock (ticks w)) (draws w) _ Hrej)
    as (P & N & Cd & I & F & L).
  fold E0 in P, N, Cd, I, F, L, Himport.
  exists C, (all_warnings (derive (EncryptionManager.salt (encryption_manager m))
                                   (utf8_encode (master_password m2))) E0), tk, dk.
  split; [| split].
  - rewrite Himport. unfold decoded. now rewrite P, N, Cd, I, F.
  - apply all_warnings_are_warnings.
  - rewrite L. apply sealed_envelope_records.
Qed.

(** X5.  A session opened on a saved vault with a master password whose
    key, derived with the salt of the vault, rejects the tokens of the vault
    (as Fernet does under a key other than the one that sealed them) loads
    nothing, and says so only on standard output: [load_data] returns
    normally with the five collections empty, prints one warning for each
    record of the file and leaves the file as it is.  The next save that
    succeeds replaces the vault file by the export of that empty vault. *)
Theorem load_with_rejected_key (m m2 : t) (w w2 : world) :
  (forall (i : nat) (data : string),
     rejected_under (derive (EncryptionManager.salt (encryption_manager m))
                            (utf8_encode (master_password m2)))
                    (fernet_encrypt (EncryptionManager.key (encryption_manager m)) i data)) ->
  disk w2 !! data_file m2 = Some (exported_bytes m w) ->
  exists m' w' evs,
    load_data (m2, w2) = (Ok tt, (m', w'))
    /\ (passwords m' = [] /\ notes m' = [] /\ cards m' = [] /\ identities m' = []
        /\ files m' = [])
    /\ stdout w' = (stdout w2 ++ evs)%list
    /\ Forall is_warning evs
    /\ length evs = (length (passwords m) + length (notes m) + length (cards m)
                     + length (identities m) + length (files m))%nat
    /\ disk w' = disk w2
    /\ exists w3,
         save_data NoFault (m', w') = (Ok tt, (m', w3))
         /\ disk w3 !! data_file m2 = Some (exported_bytes m' w').
Proof.
  intros Hrej Hfile.
  destruct (import_with_rejected_key m m2 w w2 Hrej)
    as (C & evs & tk & dk & Himport & Hwarn & Hlen).
  do 2 eexists. exists evs. split.
  - rewrite load_data_spec, Hfile.
    destruct (exported_bytes_cons m w) as [rest Hrest].
    rewrite Hrest in *. rewrite Himport. reflexivity.
  - split; [repeat split |]. split; [reflexivity |]. split; [exact Hwarn |].
    split; [exact Hlen |]. split; [reflexivity |].
    eexists. split; [rewrite save_data_spec; reflexivity |].
    cbn [with_file disk data_file set_categories set_files set_identities set_cards
         set_notes set_passwords rekeyed set_encryption_manager].
    apply lookup_insert_eq.
Qed.
End AnotherPassword.

(** ** What an import leaves in place *)

Section Invariants.
Context `{Platform}.
Import PasswordManager.


Variable R : t -> t -> Prop.
Hypothesis R_refl : forall m, R m m.
Hypothesis R_trans : forall m1 m2 m3, R m1 m2 -> R m2 m3 -> R m1 m3.

Lemma moves_ret {A} (a : A) : moves R (ret a).
Proof. intros s. apply R_refl. Qed.

Lemma moves_raise {A} (e : exn) : moves R (raise (A := A) e).
Proof. intros s. apply R_refl. Qed.

Lemma moves_untyped {A} : moves R (untyped (A := A)).
Proof. intros s. apply R_refl. Qed.

Lemma moves_self : moves R self.
Proof. intros s. apply R_refl. Qed.

Lemma moves_lift {A} (c : W A) : moves R (lift c).
Proof. intros [m w]. unfold lift. cbn [fst snd]. destruct (c w). apply R_refl. Qed.

Lemma moves_update (f : t -> t) : (forall m, R m (f m)) -> moves R (update f).
Proof. intros Hf s. apply Hf. Qed.

Lemma moves_bind {A B} (c : M A) (k : A -> M B) :
  moves R c -> (forall a, moves R (k a)) -> moves R (bind c k).
Proof.
  intros Hc Hk s. unfold bind. specialize (Hc s).
  destruct (c s) as [[a | e |] s']; cbn [fst snd] in *; [| exact Hc | exact Hc].
  eapply R_trans; [exact Hc | apply Hk].
Qed.

Lemma moves_try {A} (c : M A) (h : exn -> M A) :
  moves R c -> (forall e, moves R (h e)) -> moves R (try_except c h).
Proof.
  intros Hc Hh s. unfold try_except. specialize (Hc s).
  destruct (c s) as [[a | e |] s']; cbn [fst snd] in *; [exact Hc | | exact Hc].
  eapply R_trans; [exact Hc | apply Hh].
Qed.

Lemma moves_for_each {A} (l : list A) (body : A -> M unit) :
  (forall x, moves R (body x)) -> moves R (for_each l body).
Proof.
  intros Hbody. induction l as [| x l IH]; cbn [for_each].
  - apply moves_ret.
  - apply moves_bind; [apply Hbody | intros _; exact IH].
Qed.

Lemma moves_item (d : dict) (k : string) : moves R (item d k).
Proof. unfold item. destruct (dict_get k d); [apply moves_ret | apply moves_raise]. Qed.

Lemma moves_as_str (v : json) : moves R (as_str v).
Proof. destruct v; first [apply moves_ret | apply moves_untyped]. Qed.

Lemma moves_py_iter (v : json) : moves R (py_iter v).
Proof. destruct v; first [apply moves_ret | apply moves_raise]. Qed.

Lemma moves_copy_entry (v : json) : moves R (copy_entry v).
Proof. destruct v; first [apply moves_ret | apply moves_raise]. Qed.

Lemma moves_b64decode (v : json) : moves R (py_b64decode v).
Proof.
  destruct v; try apply moves_raise. unfold py_b64decode.
  destruct (b64decode s); [apply moves_ret | apply moves_raise].
Qed.

Lemma moves_decrypt_field (k : string) (entry : dict) : moves R (decrypt_field k entry).
Proof.
  unfold decrypt_field.
  repeat first [ apply moves_bind; [| intros ?] | apply moves_item | apply moves_self
               | apply moves_lift | apply moves_ret ].
Qed.

Lemma moves_skip (what : string) (entry_data : json) (e : exn) :
  moves R (skip_with_warning what entry_data e).
Proof. destruct entry_data; first [apply moves_lift | apply moves_raise]. Qed.

Hypothesis R_passwords : forall m l, R m (set_passwords l m).
Hypothesis R_notes : forall m l, R m (set_notes l m).
Hypothesis R_cards : forall m l, R m (set_cards l m).
Hypothesis R_identities : forall m l, R m (set_identities l m).
Hypothesis R_files : forall m l, R m (set_files l m).
Hypothesis R_category : forall m c, R m (set_categories ({[c]} ∪ categories m) m).
Hypothesis R_rekeyed : forall m salt, R m (rekeyed m salt).

Lemma moves_add_category (entry : dict) : moves R (add_category entry).
Proof.
  unfold add_category.
  repeat first [ apply moves_bind; [| intros ?] | apply moves_item | apply moves_as_str
               | apply moves_update; intros ?; apply R_category ].
Qed.

Ltac moves :=
  repeat first
    [ apply moves_copy_entry | apply moves_decrypt_field | apply moves_add_category
    | apply moves_skip | apply moves_lift | apply moves_py_iter
    | apply moves_update; intros ?;
      first [ apply R_passwords | apply R_notes | apply R_cards | apply R_identities
            | apply R_files ]
    | apply moves_try; [| intros ?] | apply moves_bind; [| intros ?] ].

Lemma moves_load_collections (d : dict) : moves R (load_collections d).
Proof.
  unfold load_collections.
  repeat first
    [ apply moves_update; intros ?;
      first [ apply R_passwords | apply R_notes | apply R_cards | apply R_identities
            | apply R_files ]
    | apply moves_py_iter
    | apply moves_for_each; intros ?;
      unfold load_password, load_note, load_card, load_identity, load_file; moves
    | apply moves_bind; [| intros ?] ].
Qed.

Lemma moves_adopt_salt (d : dict) : moves R (adopt_salt d).
Proof.
  unfold adopt_salt. destruct (contains d "encryption_salt"); [| apply moves_ret].
  apply moves_bind; [apply moves_item | intros raw].
  apply moves_bind; [apply moves_b64decode | intros salt].
  intros [m w]. cbn. apply R_rekeyed.
Qed.

Lemma moves_import_document (data : json) : moves R (import_document data).
Proof.
  destruct data; try apply moves_raise. unfold import_document.
  destruct (foreign d); [apply moves_raise |].
  apply moves_bind; [apply moves_adopt_salt | intros _; apply moves_load_collections].
Qed.

Lemma moves_import_data (lp_data : bytes) : moves R (import_data lp_data).
Proof.
  unfold import_data.
  destruct (negb _); [apply moves_raise |].
  destruct (_ =? _); [apply moves_raise |].
  destruct (_ >=? _); [apply moves_raise |].
  destruct (utf8_decode _); [| apply moves_raise].
  destruct (json_loads _) as [[] | data]; try apply moves_raise.
  apply moves_import_document.
Qed.
End Invariants.

Section ImportInvariants.
Context `{Platform}.
Import PasswordManager.

(** X6.  Whatever bytes [import_data] is given and however it ends, the
    session keeps its master password, its user manager and the path of its
    vault file, and its encryption manager is either the one it had or one
    built from the same master password and a salt; so a session whose key
    is the one derived from its password and salt stays such a session. *)
Theorem import_data_keeps_identity (lp_data : bytes) (m : t) (w : world) :
  let m' := fst (snd (import_data lp_data (m, w))) in
  master_password m' = master_password m
  /\ user_manager m' = user_manager m
  /\ data_file m' = data_file m
  /\ (encryption_manager m' = encryption_manager m
      \/ exists salt, encryption_manager m' = encryption_manager (rekeyed m salt))
  /\ (EncryptionManager.key (encryption_manager m)
        = derive (EncryptionManager.salt (encryption_manager m))
                 (utf8_encode (master_password m)) ->
      EncryptionManager.key (encryption_manager m')
        = derive (EncryptionManager.salt (encryption_manager m'))
                 (utf8_encode (master_password m'))).
Proof.
  cbv zeta.
  pose (R := fun a b : t =>
    master_password b = master_password a
    /\ user_manager b = user_manager a
    /\ data_file b = data_file a
    /\ (encryption_manager b = encryption_manager a
        \/ exists salt, encryption_manager b = encryption_manager (rekeyed a salt))).
  assert (HR : R m (fst (snd (import_data lp_data (m, w))))).
  { apply (moves_import_data R); unfold R.
    - intros a. repeat split. now left.
    - intros a b c (P1 & U1 & D1 & E1) (P2 & U2 & D2 & E2).
      repeat split; try congruence.
      destruct E2 as [E2 | [salt E2]].
      + destruct E1 as [E1 | [salt E1]]; [left; congruence |].
        right. exists salt. congruence.
      + right. exists salt. rewrite E2. unfold rekeyed. cbn. now rewrite P1.
    - intros a l. repeat split. now left.
    - intros a l. repeat split. now left.
    - intros a l. repeat split. now left.
    - intros a l. repeat split. now left.
    - intros a l. repeat split. now left.
    - intros a c. repeat split. now left.
    - intros a salt. repeat split. right. exists salt. reflexivity. }
  destruct HR as (P & U & D & E). repeat split; try assumption.
  intros Hkey. destruct E as [E | [salt E]].
  - now rewrite E, P.
  - rewrite E, P. reflexivity.
Qed.

(** X7.  [import_data] replaces the five collections but only ever adds to
    the category set: whatever the bytes and however it ends, the set after
    the call is the set before it and some more categories; those of the
    records it displaced stay. *)
Theorem import_data_keeps_categories (lp_data : bytes) (m : t) (w : world) :
  exists added : gset string,
    categories (fst (snd (import_data lp_data (m, w)))) = categories m ∪ added.
Proof.
  assert (Hm : moves (fun a b : t => categories a ⊆ categories b) (import_data lp_data)).
  { apply moves_import_data.
    - intros a. reflexivity.
    - intros a b c. apply transitivity.
    - intros a l. reflexivity.
    - intros a l. reflexivity.
    - intros a l. reflexivity.
    - intros a l. reflexivity.
    - intros a l. reflexivity.
    - intros a c. cbn. set_solver.
    - intros a salt. reflexivity. }
  specialize (Hm (m, w)). cbn [fst] in Hm.
  eexists. symmetry. apply subseteq_union_1_L, Hm.
Qed.
End ImportInvariants.

(** ** What an import raises *)

Section Exceptions.
Context `{Platform}.
Import PasswordManager.


Variable P : exn -> Prop.

Lemma only_ret {A} (a : A) : raises_only P (ret a).
Proof. intros s e s'. discriminate. Qed.

Lemma only_update (f : t -> t) : raises_only P (update f).
Proof. intros s e s'. discriminate. Qed.

Lemma only_bind {A B} (c : M A) (k : A -> M B) :
  raises_only P c -> (forall a, raises_only P (k a)) -> raises_only P (bind c k).
Proof.
  intros Hc Hk s e s'. unfold bind. specialize (Hc s).
  destruct (c s) as [[a | e0 |] s1]; [apply Hk | | discriminate].
  intros [= -> ->]. eapply Hc. reflexivity.
Qed.

(** Only what the handler raises leaves a [try]. *)
Lemma only_try {A} (c : M A) (h : exn -> M A) :
  (forall e, raises_only P (h e)) -> raises_only P (try_except c h).
Proof.
  intros Hh s e s'. unfold try_except.
  destruct (c s) as [[a | e0 |] s1]; [discriminate | apply Hh | discriminate].
Qed.

Lemma only_for_each {A} (l : list A) (body : A -> M unit) :
  (forall x, raises_only P (body x)) -> raises_only P (for_each l body).
Proof.
  intros Hbody. induction l as [| x l IH]; cbn [for_each].
  - apply only_ret.
  - apply only_bind; [apply Hbody | intros _; exact IH].
Qed.

Hypothesis P_type : P TypeError.
Hypothesis P_attribute : P AttributeError.

Lemma only_py_iter (v : json) : raises_only P (py_iter v).
Proof. intros s e s'. destruct v; intros [= <- <-] || discriminate; assumption. Qed.

Lemma only_skip (what : string) (entry_data : json) (x : exn) :
  raises_only P (skip_with_warning what entry_data x).
Proof.
  intros [m w] e s'. destruct entry_data; intros [= <- <-] || discriminate; assumption.
Qed.

Lemma only_load_collections (d : dict) : raises_only P (load_collections d).
Proof.
  unfold load_collections.
  repeat first
    [ apply only_update
    | apply only_py_iter
    | apply only_for_each; intros ?;
      unfold load_password, load_note, load_card, load_identity, load_file;
      apply only_try; intros ?; apply only_skip
    | apply only_bind; [| intros ?] ].
Qed.
End Exceptions.

Section ImportExceptions.
Context `{Platform}.
Import PasswordManager.

(** A salt that cannot be adopted leaves the session as it was. *)
Lemma adopt_salt_raises (d : dict) (s s' : t * world) (e : exn) :
  adopt_salt d s = (Raise e, s') ->
  s' = s
  /\ (e = TypeError \/ exists text, b64decode text = None /\ e = b64decode_error text).
Proof.
  destruct s as [m w]. unfold adopt_salt, contains, item.
  destruct (dict_get "encryption_salt" d) as [raw |]; [| discriminate].
  cbn. destruct raw as [| b | n | text | l | d']; try (intros [= <- <-]; auto).
  unfold py_b64decode. destruct (b64decode text) eqn:Hdec; [discriminate |].
  intros [= <- <-]. eauto.
Qed.

(** X8.  What [import_data] lets out: its own
    [ValueError("Invalid .lp file format. ...")]; what [json.loads] raises
    other than [JSONDecodeError], which it does not catch ([RecursionError]
    for a document nested too deep, [ValueError] for an integer of too many
    digits); what [base64.b64decode] raises on an embedded salt it does not
    decode ([binascii.Error], or [ValueError] for a salt outside ASCII); and
    [TypeError] or [AttributeError] for a document of the wrong shape.  In
    the first three cases the session and the world are exactly as before
    the call.  Once the salt is adopted, the five loops let out [TypeError]
    or [AttributeError] only: no exception raised while a record is
    decrypted or rebuilt leaves them. *)
Theorem import_data_exceptions :
  (forall (lp_data : bytes) (s s' : t * world) (e : exn),
     import_data lp_data s = (Raise e, s') ->
     (e = TypeError \/ e = AttributeError)
     \/ (s' = s
         /\ ((exists detail, e = ValueError ("Invalid .lp file format. " +:+ detail))
             \/ (exists text, json_loads text = inl e
                              /\ forall detail, e <> JSONDecodeError detail)
             \/ (exists text, b64decode text = None /\ e = b64decode_error text))))
  /\ (forall (d : dict) (s s' : t * world) (e : exn),
        load_collections d s = (Raise e, s') -> e = TypeError \/ e = AttributeError).
Proof.
  split.
  - intros lp_data s s' e. unfold import_data.
    destruct (negb _); [intros [= <- <-]; eauto 6 |].
    destruct (_ =? _); [intros [= <- <-]; eauto 6 |].
    destruct (_ >=? _); [intros [= <- <-]; eauto 6 |].
    destruct (utf8_decode _) as [json_data |]; [| intros [= <- <-]; eauto 6].
    destruct (json_loads json_data) as [x | data] eqn:Hloads.
    { destruct x;
        try (intros [= <- <-]; right; split; [reflexivity |]; right; left;
             exists json_data; split; [exact Hloads | discriminate]).
      intros [= <- <-]. right. split; [reflexivity |]. left.
      exists ("Corrupted JSON data: " +:+ msg). reflexivity. }
    destruct data; try (intros [= <- <-]; auto).
    unfold import_document.
    destruct (foreign d); [intros [= <- <-]; eauto 6 |].
    unfold bind at 1.
    destruct (adopt_salt d s) as [[[] | e0 |] s1] eqn:Hadopt; try discriminate.
    + intros Hload. left. revert Hload.
      apply (only_load_collections (fun e => e = TypeError \/ e = AttributeError)); auto.
    + intros [= -> ->].
      apply adopt_salt_raises in Hadopt as [-> [-> | Hb64]]; [auto | eauto 6].
  - intros d s s' e.
    apply (only_load_collections (fun e => e = TypeError \/ e = AttributeError)); auto.
Qed.
End ImportExceptions.

(** ** Backup metadata *)

Section BackupInfo.
Context `{Platform}.
Import PasswordManager.


Lemma inert_ret {A} (a : A) : inert (ret (S := world) a).
Proof. intros w. eexists. split; [reflexivity | discriminate]. Qed.

Lemma inert_raise {A} (e : exn) : inert (raise (S := world) (A := A) e).
Proof. intros w. eexists. split; [reflexivity | discriminate]. Qed.

Lemma inert_bind {A B} (c : W A) (k : A -> W B) :
  inert c -> (forall a, inert (k a)) -> inert (bind c k).
Proof.
  intros Hc Hk w. unfold bind. destruct (Hc w) as (r & -> & Hr).
  destruct r as [a | e |]; [apply Hk | | contradiction].
  eexists. split; [reflexivity | discriminate].
Qed.

Lemma inert_py_len (v : json) : inert (py_len (S := world) v).
Proof. destruct v; first [apply inert_ret | apply inert_raise]. Qed.

Lemma inert_backup_summary (data : json) : inert (backup_summary data).
Proof.
  destruct data; try apply inert_raise. unfold backup_summary.
  destruct (foreign d); [apply inert_raise |].
  repeat first [ apply inert_bind; [apply inert_py_len | intros ?] | apply inert_ret ].
Qed.

(** The body of [get_backup_info], before the [except] that wraps what it
    raises. *)
Lemma get_backup_info_inert (file_path : string) (w : world) :
  exists r, get_backup_info file_path w = (r, w)
    /\ ((exists info, r = Ok info)
        \/ exists detail, r = Raise (ValueError ("Could not read backup file: " +:+ detail))).
Proof.
  unfold get_backup_info, try_except, bind at 1, read_file.
  destruct (disk w !! file_path) as [data |]; [| eauto 6].
  destruct (negb _); [eauto 6 |].
  destruct (_ =? _); [eauto 6 |].
  destruct (_ >=? _); [eauto 6 |].
  destruct (utf8_decode _); [| eauto 6].
  destruct (json_loads _) as [[] | data']; try solve [eauto 6].
  destruct (inert_backup_summary data' w) as (r & -> & Hr).
  destruct r as [info | e |]; [eauto 6 | eauto 6 | contradiction].
Qed.

(** X9.  [get_backup_info] reads and changes nothing but the file it is
    given, and whatever goes wrong (the file is missing, is no backup, holds
    a document of the wrong shape) reaches the caller as one
    [ValueError("Could not read backup file: ...")]. *)
Theorem get_backup_info_errors (file_path : string) (w : world) :
  let r := get_backup_info file_path w in
  snd r = w
  /\ ((exists info, fst r = Ok info)
      \/ exists detail,
           fst r = Raise (ValueError ("Could not read backup file: " +:+ detail))).
Proof.
  cbv zeta. destruct (get_backup_info_inert file_path w) as (r & -> & Hr). auto.
Qed.

Hypothesis utf8_round_trip : forall text : string, utf8_decode (utf8_encode text) = Some text.
Hypothesis json_round_trip :
  forall j : json, json_wf j = true -> json_loads (json_dumps j) = inr j.
Hypothesis json_dumps_nonempty : forall j : json, utf8_encode (json_dumps j) <> [].

Lemma sealed_list_length {A} (seal : nat -> A -> json) (per n : nat) (l : list A) :
  length (sealed_list seal per n l) = length l.
Proof. revert n. induction l as [| e l IH]; intros n; cbn; [| rewrite IH]; reflexivity. Qed.

Lemma backup_summary_envelope (e_passwords e_notes e_cards e_identities e_files : list json)
    (created encryption_salt : string) (w : world) :
  backup_summary (envelope e_passwords e_notes e_cards e_identities e_files
                           created encryption_salt) w =
  (Ok (BackupInfo (JStr "LuckeePass") (JStr "LuckeeSoft") (JStr "1.0") (JStr created)
                  (len e_passwords) (len e_notes) (len e_cards) (len e_identities)
                  (len e_files)),
   w).
Proof. reflexivity. Qed.

(** X10.  On a file holding what [export_data] returned for a vault,
    [get_backup_info] reports [LuckeePass], [LuckeeSoft], version [1.0], the
    time of the export and the number of records of each of the five
    collections; it needs no master password and decrypts nothing. *)
Theorem get_backup_info_exported (m : t) (w w1 : world) (file_path : string) :
  disk w1 !! file_path = Some (exported_bytes m w) ->
  get_backup_info file_path w1 =
  (Ok (BackupInfo (JStr "LuckeePass") (JStr "LuckeeSoft") (JStr "1.0")
                  (JStr (clock (ticks w)))
                  (len (passwords m)) (len (notes m)) (len (cards m))
                  (len (identities m)) (len (files m))),
   w1).
Proof.
  intros Hfile.
  unfold get_backup_info, try_except, bind at 1, read_file. rewrite Hfile.
  unfold exported_bytes.
  change (startswith (lp_header ++ lp_separator ++ ?p)%list lp_header) with true.
  cbn [negb]. rewrite find_separator. cbn [Z.eqb].
  set (payload := utf8_encode (json_dumps (exported m (clock (ticks w)) (draws w)))).
  replace (22 + len lp_separator >=? len (lp_header ++ lp_separator ++ payload)%list)
    with false.
  2:{ symmetry. rewrite Z.geb_leb. apply Z.leb_gt. unfold len. rewrite !length_app.
      assert (payload <> []) by apply json_dumps_nonempty.
      destruct payload; [contradiction |]. cbn. lia. }
  rewrite payload_after_separator. unfold payload.
  rewrite utf8_round_trip, json_round_trip by apply exported_wf.
  unfold exported. cbv zeta. rewrite backup_summary_envelope.
  unfold len. rewrite !sealed_list_length. reflexivity.
Qed.
(** X11.  [is_valid_lp_file] never raises: it answers [True] exactly when
    the file exists and starts with the header.  Every file
    [get_backup_info] accepts is valid in this sense, but not the other way
    round: a file that is the header and nothing else is valid, and
    [get_backup_info] refuses it. *)
Theorem is_valid_lp_file_weaker (file_path : string) (w : world) :
  exists b,
    is_valid_lp_file file_path w = (Ok b, w)
    /\ (b = true <-> exists rest, disk w !! file_path = Some (lp_header ++ rest)%list)
    /\ ((exists info, get_backup_info file_path w = (Ok info, w)) -> b = true)
    /\ (disk w !! file_path = Some lp_header ->
        b = true
        /\ get_backup_info file_path w =
           (Raise (ValueError "Could not read backup file: Invalid .lp file format"), w)).
Proof.
  unfold is_valid_lp_file, get_backup_info, try_except, bind, read_file.
  destruct (disk w !! file_path) as [data |] eqn:Hfile.
  - exists (startswith data lp_header). split; [reflexivity |]. split; [| split].
    + rewrite startswith_spec. split; intros [rest Hrest]; exists rest; congruence.
    + destruct (startswith data lp_header); [reflexivity |].
      intros [info Hinfo]. discriminate.
    + intros [= ->]. split; reflexivity.
  - exists false. split; [reflexivity |]. split; [| split].
    + split; [discriminate | intros [rest Hrest]; discriminate].
    + intros [info Hinfo]. discriminate.
    + discriminate.
Qed.
End BackupInfo.

(** ** Setting the master password *)

Section MasterPassword.
Context `{Platform} `{Hashing}.
Import UserManager.

Lemma init_spec (w : world) :
  init w = (Ok (Make (disk w !! "luckeepass_master.dat")
                     (disk w !! "luckeepass_vault_salt.dat")
                     "luckeepass_master.dat" "luckeepass_vault_salt.dat"), w).
Proof.
  unfold init, _load_master_password_hash, _load_vault_salt, bind.
  rewrite !load_optional_spec. reflexivity.
Qed.

(** X12.  [set_master_password] writes the new hash to its file and never
    assigns [hashed_master_password]: the object keeps the hash it had.  On
    an object built before any password was set, [is_master_password_set]
    stays [False] and [verify_master_password] answers [False] to every
    password, the one just set included.  A vault salt the object holds is
    kept. *)
Theorem set_master_password_keeps_hash (fault_hash fault_salt : io_fault) (um um' : t)
    (master_password : string) (w w' : world) :
  set_master_password fault_hash fault_salt um master_password w = (Ok um', w') ->
  hashed_master_password um' = hashed_master_password um
  /\ (hashed_master_password um = None ->
      is_master_password_set um' = false
      /\ forall password w2, verify_master_password um' password w2 = (Ok false, w2))
  /\ (forall salt, vault_salt um = Some salt -> vault_salt um' = Some salt).
Proof.
  intros Hset.
  assert (Hhash : hashed_master_password um' = hashed_master_password um
                  /\ (forall salt, vault_salt um = Some salt -> vault_salt um' = Some salt)).
  { revert Hset.
    unfold set_master_password, bind, _save_master_password_hash, _save_vault_salt,
      try_except, os_urandom16, write_file, print, ret.
    destruct (bcrypt_hashpw _ _) as [detail | hashed]; [discriminate |].
    destruct fault_hash, fault_salt, (vault_salt um) as [salt |] eqn:Hsalt; cbn;
      intros [= <- <-]; (split; [reflexivity |]); intros salt' [= <-]; assumption
      || discriminate. }
  destruct Hhash as [Hhash Hsalt]. split; [exact Hhash |]. split; [| exact Hsalt].
  intros Hnone. rewrite Hnone in Hhash.
  unfold is_master_password_set, verify_master_password. rewrite Hhash. auto.
Qed.
(** X13.  After a [set_master_password] whose writes succeed, a user
    manager constructed anew finds the hash on disk and
    [verify_master_password] accepts the password; it reads the vault salt
    the first object holds: the salt that was there before, or else the
    sixteen bytes drawn for it. *)
Theorem set_master_password_restart (master_password : string) (hashed : bytes)
    (w : world) :
  bcrypt_hashpw (draws w) (utf8_encode master_password) = inr hashed ->
  hashed <> [] ->
  bcrypt_checkpw (utf8_encode master_password) hashed = Some true ->
  exists um um' w1 um2 salt,
    init w = (Ok um, w)
    /\ set_master_password NoFault NoFault um master_password w = (Ok um', w1)
    /\ init w1 = (Ok um2, w1)
    /\ verify_master_password um2 master_password w1 = (Ok true, w1)
    /\ vault_salt um' = Some salt
    /\ vault_salt um2 = Some salt
    /\ salt = match vault_salt um with
              | Some old => old
              | None => urandom16 (Datatypes.S (draws w))
              end.
Proof.
  intros Hhash Hne Hcheck.
  assert (Hverify : forall salt file1 file2 w1,
            verify_master_password (Make (Some hashed) salt file1 file2) master_password w1
            = (Ok true, w1)).
  { intros. unfold verify_master_password, try_except. cbn [hashed_master_password].
    destruct hashed; [contradiction |]. rewrite Hcheck. reflexivity. }
  destruct (disk w !! "luckeepass_vault_salt.dat") as [old |] eqn:Hold.
  - eexists. eexists. eexists. eexists. eexists.
    split; [rewrite init_spec, Hold; reflexivity |].
    unfold set_master_password, bind, _save_master_password_hash, _save_vault_salt,
      try_except, os_urandom16, write_file, print, ret.
    rewrite Hhash. cbn [vault_salt master_password_file vault_salt_file
                        ticks draws decrypts stdout disk].
    split; [reflexivity |]. rewrite init_spec. cbn [disk].
    rewrite lookup_insert_eq, lookup_insert_ne, Hold by discriminate.
    split; [reflexivity |]. split; [apply Hverify |]. repeat split.
  - eexists. eexists. eexists. eexists. eexists.
    split; [rewrite init_spec, Hold; reflexivity |].
    unfold set_master_password, bind, _save_master_password_hash, _save_vault_salt,
      try_except, os_urandom16, write_file, print, ret.
    rewrite Hhash. cbn [vault_salt master_password_file vault_salt_file
                        ticks draws decrypts stdout disk].
    split; [reflexivity |]. rewrite init_spec. cbn [disk].
    rewrite lookup_insert_eq, lookup_insert_ne, lookup_insert_eq by discriminate.
    split; [reflexivity |]. split; [apply Hverify |]. repeat split.
Qed.

(** X14.  When the hash file cannot be opened, [set_master_password]
    still returns normally: it prints one line, and a user manager
    constructed afterwards finds the hash that was there before, or none. *)
Theorem set_master_password_hides_failure (fault_salt : io_fault)
    (master_password : string) (hashed : bytes) (w : world) :
  bcrypt_hashpw (draws w) (utf8_encode master_password) = inr hashed ->
  exists um um' w1 um2 rest,
    init w = (Ok um, w)
    /\ set_master_password OpenFails fault_salt um master_password w = (Ok um', w1)
    /\ stdout w1 = (stdout w
                    ++ Printed "Error saving master password hash: Permission denied"
                       :: rest)%list
    /\ init w1 = (Ok um2, w1)
    /\ hashed_master_password um2 = hashed_master_password um.
Proof.
  intros Hhash.
  destruct (disk w !! "luckeepass_vault_salt.dat") as [old |] eqn:Hold;
    [| destruct fault_salt];
    (eexists; eexists; eexists; eexists; eexists;
     split; [rewrite init_spec, Hold; reflexivity |]);
    unfold set_master_password, bind, _save_master_password_hash, _save_vault_salt,
      try_except, os_urandom16, write_file, print, ret;
    rewrite Hhash; cbn [vault_salt master_password_file vault_salt_file
                         ticks draws decrypts stdout disk];
    (split; [reflexivity |]); rewrite init_spec; cbn [disk stdout hashed_master_password];
    rewrite <- ?app_assoc; cbn [app];
    (split; [reflexivity |]); (split; [reflexivity |]);
    rewrite ?lookup_insert_ne by discriminate; reflexivity.
Qed.
End MasterPassword.

(** ** Deleting the account *)

Section DeleteUserData.
Context `{Platform} `{Hashing}.
Import UserManager.


Lemma remove_if_exists_spec (locked : string -> bool) (path : string) (w : world) :
  remove_if_exists locked path w =
  match disk w !! path with
  | Some _ => if locked path then (Raise (OSError "Permission denied"), w)
              else (Ok tt, without_file path w)
  | None => (Ok tt, without_file path w)
  end.
Proof.
  unfold remove_if_exists, bind, path_exists, remove_file, without_file.
  destruct (disk w !! path) eqn:Hfile.
  - rewrite bool_decide_eq_true_2 by eauto. rewrite Hfile. reflexivity.
  - rewrite bool_decide_eq_false_2 by (intros [x Hx]; discriminate).
    rewrite delete_id by assumption. now destruct w.
Qed.

Lemma remove_if_exists_unlocked (locked : string -> bool) (path : string) (w : world) :
  locked path = false -> remove_if_exists locked path w = (Ok tt, without_file path w).
Proof.
  intros Hfree. rewrite remove_if_exists_spec, Hfree. now destruct (disk w !! path).
Qed.

Lemma remove_if_exists_locked (locked : string -> bool) (path : string) (content : bytes)
    (w : world) :
  locked path = true -> disk w !! path = Some content ->
  remove_if_exists locked path w = (Raise (OSError "Permission denied"), w).
Proof. intros Hlocked Hfile. now rewrite remove_if_exists_spec, Hfile, Hlocked. Qed.

(** X15.  When no removal is refused, [delete_user_data] returns normally
    and leaves none of the hash file, the salt file and the vault file,
    whichever of them existed; a user manager constructed afterwards has no
    master password and no salt. *)
Theorem delete_user_data_fresh_start (w : world) :
  exists um w' um2,
    init w = (Ok um, w)
    /\ delete_user_data (fun _ => false) um w = (Ok tt, w')
    /\ w' = without_file "luckeepass_data.lp"
              (without_file "luckeepass_vault_salt.dat"
                 (without_file "luckeepass_master.dat" w))
    /\ init w' = (Ok um2, w')
    /\ is_master_password_set um2 = false
    /\ get_vault_salt um2 = None
    /\ disk w' !! "luckeepass_data.lp" = None.
Proof.
  eexists. eexists. eexists.
  split; [apply init_spec |].
  unfold delete_user_data, try_except, bind.
  cbn [master_password_file vault_salt_file].
  rewrite !remove_if_exists_unlocked by reflexivity.
  split; [reflexivity |]. split; [reflexivity |].
  rewrite init_spec. split; [reflexivity |].
  cbn [without_file disk hashed_master_password vault_salt is_master_password_set
       get_vault_salt].
  rewrite lookup_delete_ne, lookup_delete_ne, lookup_delete_eq by discriminate.
  rewrite lookup_delete_ne, lookup_delete_eq by discriminate.
  rewrite lookup_delete_eq. repeat split.
Qed.

(** X16.  [delete_user_data] stops at the first removal that fails, prints
    one line and raises the exception again.  When the vault file is the one
    that cannot be removed, the hash file and the salt file are gone
    already: the vault file stays, and the next start finds no master
    password. *)
Theorem delete_user_data_stops_at_failure (locked : string -> bool) (vault : bytes)
    (w : world) :
  locked "luckeepass_master.dat" = false ->
  locked "luckeepass_vault_salt.dat" = false ->
  locked "luckeepass_data.lp" = true ->
  disk w !! "luckeepass_data.lp" = Some vault ->
  exists um w' um2,
    init w = (Ok um, w)
    /\ delete_user_data locked um w = (Raise (OSError "Permission denied"), w')
    /\ stdout w' = (stdout w ++ [Printed "Error deleting user data: Permission denied"])%list
    /\ disk w' !! "luckeepass_data.lp" = Some vault
    /\ init w' = (Ok um2, w')
    /\ is_master_password_set um2 = false
    /\ get_vault_salt um2 = None.
Proof.
  intros Hmaster Hsalt Hdata Hvault.
  eexists. eexists. eexists.
  split; [apply init_spec |].
  unfold delete_user_data, try_except, bind.
  cbn [master_password_file vault_salt_file].
  assert (Hkept : disk (without_file "luckeepass_vault_salt.dat"
                          (without_file "luckeepass_master.dat" w))
                    !! "luckeepass_data.lp" = Some vault).
  { cbn [without_file disk]. now rewrite !lookup_delete_ne by discriminate. }
  rewrite !remove_if_exists_unlocked by assumption.
  rewrite (remove_if_exists_locked _ _ vault) by assumption.
  split; [reflexivity |]. split; [reflexivity |]. split; [exact Hkept |].
  rewrite init_spec. split; [reflexivity |].
  cbn [without_file disk hashed_master_password vault_salt is_master_password_set
       get_vault_salt print raise snd fst ticks draws decrypts stdout].
  rewrite lookup_delete_ne, lookup_delete_eq by discriminate.
  rewrite lookup_delete_eq. repeat split.
Qed.
End DeleteUserData.

(** ** Generated passwords *)

Section GeneratorMore.
Context `{Platform}.
Import PasswordGenerator.



Lemma generate_password_steps (self : t) (length : Z)
    (use_uppercase use_digits use_symbols exclude_similar : bool) :
  generate_password self length use_uppercase use_digits use_symbols exclude_similar =
  let chars := charset self use_uppercase use_digits use_symbols exclude_similar in
  if str_len chars <? length then
    raise (ValueError "Character set too small for requested length")
  else
    password <- join_choices chars (Z.to_nat length) ;;
    password <- patch use_uppercase (uppercase self) 1 password ;;
    password <- patch use_digits (digits self) 2 password ;;
    password <- patch use_symbols (symbols self) 3 password ;;
    ret password.
Proof. reflexivity. Qed.

Lemma get_some (s : string) (i : nat) :
  (i < String.length s)%nat -> exists c, String.get i s = Some c.
Proof.
  revert i. induction s as [| c s IH]; intros i Hi; cbn in Hi; [lia |].
  destruct i as [| i]; cbn; [eauto |]. apply IH. lia.
Qed.

Lemma get_mem (s : string) (i : nat) (c : ascii) :
  String.get i s = Some c -> str_mem c s = true.
Proof.
  revert i. induction s as [| c' s IH]; intros i; [discriminate |].
  destruct i as [| i]; cbn.
  - intros [= ->]. now destruct (decide (c = c)).
  - intros Hget. destruct (decide (c' = c)); [reflexivity | eapply IH, Hget].
Qed.

Lemma choice_ok (seq : string) (w : world) :
  seq <> EmptyString -> exists c w', choice seq w = (Ok c, w') /\ str_mem c seq = true.
Proof.
  intros Hne. unfold choice.
  destruct (get_some seq (randbelow (draws w) (String.length seq) mod String.length seq))
    as [c Hc].
  { apply Nat.mod_upper_bound. destruct seq; [contradiction | discriminate]. }
  rewrite Hc. do 2 eexists. split; [reflexivity | eapply get_mem, Hc].
Qed.

Lemma choice_mem (seq : string) (w w' : world) (c : ascii) :
  choice seq w = (Ok c, w') -> str_mem c seq = true.
Proof.
  unfold choice. destruct (String.get _ seq) as [c' |] eqn:Hget; [| discriminate].
  intros [= <- <-]. eapply get_mem, Hget.
Qed.

Lemma join_choices_ok (chars : string) (n : nat) (w : world) :
  chars <> EmptyString -> exists pw w', join_choices chars n w = (Ok pw, w').
Proof.
  intros Hne. revert w. induction n as [| n IH]; intros w; cbn [join_choices].
  - do 2 eexists. reflexivity.
  - destruct (choice_ok chars w Hne) as (c & w1 & Hc & _).
    destruct (IH w1) as (rest & w2 & Hrest).
    erewrite bind_ok by exact Hc. erewrite bind_ok by exact Hrest.
    do 2 eexists. reflexivity.
Qed.

Lemma join_choices_mem (chars : string) (n : nat) (w w' : world) (pw : string) (c : ascii) :
  join_choices chars n w = (Ok pw, w') -> str_mem c pw = true -> str_mem c chars = true.
Proof.
  revert w pw w'. induction n as [| n IH]; intros w pw w'; cbn [join_choices].
  - intros [= <- <-]. discriminate.
  - unfold bind. destruct (choice chars w) as [[c0 | e |] w1] eqn:Hc; try discriminate.
    destruct (join_choices chars n w1) as [[rest | e |] w2] eqn:Hrest; try discriminate.
    intros [= <- <-]. cbn. destruct (decide (c0 = c)) as [<- | _].
    + intros _. eapply choice_mem, Hc.
    + eapply IH, Hrest.
Qed.

Lemma patch_ok (selected : bool) (class : string) (k : nat) (password : string)
    (w : world) :
  class <> EmptyString -> exists pw w', patch selected class k password w = (Ok pw, w').
Proof.
  intros Hne. unfold patch. destruct (_ && _).
  - destruct (choice_ok class w Hne) as (c & w1 & Hc & _).
    erewrite bind_ok by exact Hc. do 2 eexists. reflexivity.
  - do 2 eexists. reflexivity.
Qed.

(** A step keeps the password, which then holds a character of the class
    if the class is selected, or it puts a character of the selected class
    in front of [password[k:]]. *)
Lemma patch_inv (selected : bool) (class : string) (k : nat) (password pw : string)
    (w w' : world) :
  patch selected class k password w = (Ok pw, w') ->
  (pw = password
   /\ (selected = true -> str_any (fun c => str_mem c class) password = true))
  \/ (selected = true
      /\ exists c, str_mem c class = true /\ pw = String c (str_drop k password)).
Proof.
  unfold patch. destruct selected; cbn [andb].
  - destruct (str_any _ password); cbn [negb].
    + intros [= <- <-]. left. auto.
    + unfold bind. destruct (choice class w) as [[c | e |] w1] eqn:Hc; try discriminate.
      intros [= <- <-]. right. split; [reflexivity |]. exists c.
      split; [eapply choice_mem, Hc | reflexivity].
  - intros [= <- <-]. left. split; [reflexivity | discriminate].
Qed.

Lemma charset_size (use_uppercase use_digits use_symbols exclude_similar : bool) :
  25 <= str_len (charset init use_uppercase use_digits use_symbols exclude_similar)
  /\ str_len (charset init use_uppercase use_digits use_symbols exclude_similar)
     <= (if exclude_similar then 81 else 88).
Proof.
  destruct use_uppercase, use_digits, use_symbols, exclude_similar;
    vm_compute; split; discriminate.
Qed.

(** X17.  For a length between 1 and 25, whatever the four options,
    [generate_password] returns a password: never longer than asked for,
    at most three characters shorter, and of exactly the length asked for
    when digits and symbols are both off. *)
Theorem generate_password_length_bounds (length : Z)
    (use_uppercase use_digits use_symbols exclude_similar : bool) (w : world) :
  1 <= length <= 25 ->
  exists pw w',
    generate_password init length use_uppercase use_digits use_symbols exclude_similar w
    = (Ok pw, w')
    /\ length - 3 <= str_len pw <= length
    /\ (use_digits = false -> use_symbols = false -> str_len pw = length).
Proof.
  intros Hlen. rewrite generate_password_steps. cbv zeta.
  pose proof (charset_size use_uppercase use_digits use_symbols exclude_similar) as [Hsize _].
  destruct (Z.ltb_spec (str_len (charset init use_uppercase use_digits use_symbols
                                         exclude_similar)) length); [lia |].
  set (chars := charset init use_uppercase use_digits use_symbols exclude_similar) in *.
  assert (Hchars : chars <> EmptyString).
  { intros Heq. rewrite Heq in Hsize. unfold str_len in Hsize. cbn in Hsize. lia. }
  destruct (join_choices_ok chars (Z.to_nat length) w Hchars) as (pw0 & w0 & Hj).
  destruct (patch_ok use_uppercase (uppercase init) 1 pw0 w0) as (pw1 & w1 & Hp1);
    [discriminate |].
  destruct (patch_ok use_digits (digits init) 2 pw1 w1) as (pw2 & w2 & Hp2);
    [discriminate |].
  destruct (patch_ok use_symbols (symbols init) 3 pw2 w2) as (pw3 & w3 & Hp3);
    [discriminate |].
  exists pw3, w3.
  erewrite bind_ok by exact Hj. erewrite bind_ok by exact Hp1.
  erewrite bind_ok by exact Hp2. erewrite bind_ok by exact Hp3.
  split; [reflexivity |].
  apply join_choices_length in Hj.
  assert (L1 : String.length pw1 = String.length pw0).
  { apply patch_inv in Hp1 as [[-> _] | (_ & c & _ & ->)]; [reflexivity |].
    cbn [String.length]. rewrite str_drop_length. lia. }
  assert (L2 : (String.length pw1 - 1 <= String.length pw2 <= String.length pw1
                /\ 1 <= String.length pw2)%nat).
  { apply patch_inv in Hp2 as [[-> _] | (_ & c & _ & ->)]; [lia |].
    cbn [String.length]. rewrite str_drop_length. lia. }
  assert (E2 : use_digits = false -> pw2 = pw1).
  { intros Hoff. destruct (patch_inv _ _ _ _ _ _ _ Hp2) as [[Heq _] | [Hon _]]; congruence. }
  assert (E3 : use_symbols = false -> pw3 = pw2).
  { intros Hoff. destruct (patch_inv _ _ _ _ _ _ _ Hp3) as [[Heq _] | [Hon _]]; congruence. }
  assert (L3 : (String.length pw2 - 2 <= String.length pw3 <= String.length pw2)%nat).
  { apply patch_inv in Hp3 as [[-> _] | (_ & c & _ & ->)]; [lia |].
    cbn [String.length]. rewrite str_drop_length. lia. }
  unfold str_len. split; [lia |].
  intros Hd Hs. rewrite (E3 Hs), (E2 Hd). lia.
Qed.

(** X18.  [generate_password] refuses any length above 88, and any length
    above 81 when similar characters are excluded, whatever the other
    options: it raises [ValueError] before drawing anything. *)
Theorem generate_password_refuses_long (length : Z)
    (use_uppercase use_digits use_symbols exclude_similar : bool) (w : world) :
  (if exclude_similar then 81 else 88) < length ->
  generate_password init length use_uppercase use_digits use_symbols exclude_similar w
  = (Raise (ValueError "Character set too small for requested length"), w).
Proof.
  intros Hlen. rewrite generate_password_steps. cbv zeta.
  pose proof (charset_size use_uppercase use_digits use_symbols exclude_similar) as [_ Hsize].
  destruct (Z.ltb_spec (str_len (charset init use_uppercase use_digits use_symbols
                                         exclude_similar)) length); [reflexivity | lia].
Qed.
Lemma bind_inv {S A B} (c : ST S A) (k : A -> ST S B) (s s' : S) (b : B) :
  bind c k s = (Ok b, s') -> exists a s1, c s = (Ok a, s1) /\ k a s1 = (Ok b, s').
Proof.
  unfold bind. destruct (c s) as [[a | e |] s1]; try discriminate. eauto.
Qed.

Lemma str_mem_app (c : ascii) (a b : string) :
  str_mem c (a +:+ b) = str_mem c a || str_mem c b.
Proof.
  induction a as [| c' a IH]; [reflexivity |].
  change (String c' a +:+ b) with (String c' (a +:+ b)). cbn [str_mem].
  destruct (decide (c' = c)); [reflexivity | exact IH].
Qed.

Lemma str_mem_remove (c x : ascii) (s : string) :
  str_mem c (str_remove x s) = true -> str_mem c s = true.
Proof.
  induction s as [| c' s IH]; [discriminate |]. cbn [str_remove str_mem].
  destruct (decide (c' = x)) as [-> | Hx].
  - intros Hm. destruct (decide (x = c)); [reflexivity | auto].
  - cbn [str_mem]. destruct (decide (c' = c)); auto.
Qed.

Lemma str_mem_drop (c : ascii) (k : nat) (s : string) :
  str_mem c (str_drop k s) = true -> str_mem c s = true.
Proof.
  revert s. induction k as [| k IH]; intros [| c' s]; cbn [str_drop]; auto.
  intros Hmem. cbn [str_mem]. destruct (decide (c' = c)); auto.
Qed.

Lemma str_any_head (class : string) (c : ascii) (rest : string) :
  str_mem c class = true -> str_any (fun c => str_mem c class) (String c rest) = true.
Proof. intros Hc. cbn [str_any]. now rewrite Hc. Qed.

(** The stages of a call that returns. *)
Lemma generate_password_inv (self : t) (length : Z)
    (use_uppercase use_digits use_symbols exclude_similar : bool) (w w' : world)
    (pw : string) :
  generate_password self length use_uppercase use_digits use_symbols exclude_similar w
  = (Ok pw, w') ->
  exists pw0 w0 pw1 w1 pw2 w2,
    join_choices (charset self use_uppercase use_digits use_symbols exclude_similar)
                 (Z.to_nat length) w = (Ok pw0, w0)
    /\ patch use_uppercase (uppercase self) 1 pw0 w0 = (Ok pw1, w1)
    /\ patch use_digits (digits self) 2 pw1 w1 = (Ok pw2, w2)
    /\ patch use_symbols (symbols self) 3 pw2 w2 = (Ok pw, w').
Proof.
  rewrite generate_password_steps. cbv zeta.
  destruct (_ <? _); [discriminate |].
  intros Hrun.
  apply bind_inv in Hrun as (pw0 & w0 & Hj & Hrun).
  apply bind_inv in Hrun as (pw1 & w1 & Hp1 & Hrun).
  apply bind_inv in Hrun as (pw2 & w2 & Hp2 & Hrun).
  apply bind_inv in Hrun as (pw3 & w3 & Hp3 & Hrun).
  injection Hrun as <- <-. eauto 10.
Qed.

(** X19.  Every character of a generated password is a lower-case letter
    or belongs to a class that was selected: no upper-case letter, digit or
    symbol appears unless its option is on. *)
Theorem generate_password_alphabet (self : t) (length : Z)
    (use_uppercase use_digits use_symbols exclude_similar : bool) (w w' : world)
    (pw : string) (c : ascii) :
  generate_password self length use_uppercase use_digits use_symbols exclude_similar w
  = (Ok pw, w') ->
  str_mem c pw = true ->
  str_mem c (lowercase self) = true
  \/ (use_uppercase = true /\ str_mem c (uppercase self) = true)
  \/ (use_digits = true /\ str_mem c (digits self) = true)
  \/ (use_symbols = true /\ str_mem c (symbols self) = true).
Proof.
  intros Hrun.
  apply generate_password_inv in Hrun
    as (pw0 & w0 & pw1 & w1 & pw2 & w2 & Hj & Hp1 & Hp2 & Hp3).
  set (P := fun c : ascii =>
    str_mem c (lowercase self) = true
    \/ (use_uppercase = true /\ str_mem c (uppercase self) = true)
    \/ (use_digits = true /\ str_mem c (digits self) = true)
    \/ (use_symbols = true /\ str_mem c (symbols self) = true)).
  change (str_mem c pw = true -> P c).
  assert (Hstep : forall selected class k password pw' wa wb,
            (selected = true -> forall x, str_mem x class = true -> P x) ->
            patch selected class k password wa = (Ok pw', wb) ->
            (forall x, str_mem x password = true -> P x) ->
            forall x, str_mem x pw' = true -> P x).
  { intros selected class k password pw' wa wb Hclass Hpatch Hall x.
    apply patch_inv in Hpatch as [[-> _] | (Hsel & c0 & Hc0 & ->)]; [apply Hall |].
    cbn [str_mem]. destruct (decide (c0 = x)) as [<- | _].
    - intros _. now apply Hclass.
    - intros Hx. apply Hall. eapply str_mem_drop, Hx. }
  assert (H0 : forall x, str_mem x pw0 = true -> P x).
  { intros x Hx. eapply join_choices_mem in Hx; [| exact Hj].
    unfold charset in Hx. cbv zeta in Hx.
    assert (Hbase : forall chars,
              str_mem x (if exclude_similar then
                 str_remove "5" (str_remove "S" (str_remove "0" (str_remove "O"
                   (str_remove "I" (str_remove "1" (str_remove "l" chars))))))
               else chars) = true -> str_mem x chars = true).
    { intros chars. destruct exclude_similar; [| auto].
      intros Hm. do 7 apply str_mem_remove in Hm. exact Hm. }
    apply Hbase in Hx. unfold P.
    destruct use_uppercase, use_digits, use_symbols;
      rewrite ?str_mem_app in Hx;
      repeat match type of Hx with
             | (_ || _) = true => apply orb_true_iff in Hx as [Hx | Hx]
             end; auto 10. }
  intros Hc. revert c Hc.
  eapply Hstep; [| exact Hp3 |]; [unfold P; auto 10 |].
  eapply Hstep; [| exact Hp2 |]; [unfold P; auto 10 |].
  eapply Hstep; [| exact Hp1 |]; [unfold P; auto 10 |].
  exact H0.
Qed.

(** X20.  Of the selected classes the last one checked is always
    represented: a generated password holds a symbol when symbols are on, a
    digit when digits are on and symbols are off, an upper-case letter when
    only upper case is on. *)
Theorem generate_password_last_class (self : t) (length : Z)
    (use_uppercase use_digits use_symbols exclude_similar : bool) (w w' : world)
    (pw : string) :
  generate_password self length use_uppercase use_digits use_symbols exclude_similar w
  = (Ok pw, w') ->
  (use_symbols = true -> str_any (fun c => str_mem c (symbols self)) pw = true)
  /\ (use_symbols = false -> use_digits = true ->
      str_any (fun c => str_mem c (digits self)) pw = true)
  /\ (use_symbols = false -> use_digits = false -> use_uppercase = true ->
      str_any (fun c => str_mem c (uppercase self)) pw = true).
Proof.
  intros Hrun.
  apply generate_password_inv in Hrun
    as (pw0 & w0 & pw1 & w1 & pw2 & w2 & Hj & Hp1 & Hp2 & Hp3).
  assert (Hlast : forall selected class k password pw' wa wb,
            patch selected class k password wa = (Ok pw', wb) ->
            (selected = true -> str_any (fun c => str_mem c class) pw' = true)
            /\ (selected = false -> pw' = password)).
  { intros selected class k password pw' wa wb Hpatch.
    apply patch_inv in Hpatch as [[-> Hhas] | (Hsel & c0 & Hc0 & ->)].
    - split; [exact Hhas | reflexivity].
    - split; [intros _; now apply str_any_head | congruence]. }
  destruct (Hlast _ _ _ _ _ _ _ Hp1) as [U1 U2].
  destruct (Hlast _ _ _ _ _ _ _ Hp2) as [D1 D2].
  destruct (Hlast _ _ _ _ _ _ _ Hp3) as [S1 S2].
  split; [exact S1 |]. split.
  - intros Hs Hd. rewrite (S2 Hs). now apply D1.
  - intros Hs Hd Hu. rewrite (S2 Hs), (D2 Hd). now apply U1.
Qed.
End GeneratorMore.

(** ** Text *)

Section Text.

Lemma str_filter_app (p : ascii -> bool) (a b : string) :
  str_filter p (a +:+ b) = str_filter p a +:+ str_filter p b.
Proof.
  induction a as [| c a IH]; [reflexivity |].
  change (String c a +:+ b) with (String c (a +:+ b)). cbn [str_filter].
  destruct (p c); [| exact IH].
  change (String c (str_filter p a) +:+ str_filter p b)
    with (String c (str_filter p a +:+ str_filter p b)).
  now rewrite IH.
Qed.

Lemma str_filter_idem (p : ascii -> bool) (s : string) :
  str_filter p (str_filter p s) = str_filter p s.
Proof.
  induction s as [| c s IH]; [reflexivity |]. cbn [str_filter].
  destruct (p c) eqn:Hc; [| exact IH]. cbn [str_filter]. now rewrite Hc, IH.
Qed.

Lemma append_nil_l (s : string) : EmptyString +:+ s = s.
Proof. reflexivity. Qed.

Lemma append_nil_r (s : string) : s +:+ EmptyString = s.
Proof.
  induction s as [| c s IH]; [reflexivity |].
  change (String c s +:+ EmptyString) with (String c (s +:+ EmptyString)). now rewrite IH.
Qed.

Lemma append_assoc (a b c : string) : (a +:+ b) +:+ c = a +:+ (b +:+ c).
Proof.
  induction a as [| x a IH]; [reflexivity |].
  change ((String x a +:+ b) +:+ c) with (String x ((a +:+ b) +:+ c)). now rewrite IH.
Qed.

(** [s = s[:k] + s[k:]] *)
Lemma take_drop_str (k : nat) (s : string) : substring 0 k s +:+ str_drop k s = s.
Proof.
  revert s. induction k as [| k IH]; intros [| c s]; try reflexivity.
  cbn [substring str_drop].
  change (String c (substring 0 k s) +:+ str_drop k s)
    with (String c (substring 0 k s +:+ str_drop k s)).
  now rewrite IH.
Qed.

(** [s[i:i+n] = s[i:][:n]] *)
Lemma substring_drop (i n : nat) (s : string) :
  substring i n s = substring 0 n (str_drop i s).
Proof.
  revert s. induction i as [| i IH]; intros s; [reflexivity |].
  destruct s as [| c s]; [now destruct n |]. cbn [substring str_drop]. apply IH.
Qed.

Lemma str_drop_drop (a b : nat) (s : string) :
  str_drop a (str_drop b s) = str_drop (b + a) s.
Proof.
  revert s. induction b as [| b IH]; intros s; [reflexivity |].
  destruct s as [| c s]; [now destruct a |]. cbn [str_drop Nat.add]. apply IH.
Qed.

Lemma str_drop_all (k : nat) (s : string) :
  (String.length s <= k)%nat -> str_drop k s = EmptyString.
Proof.
  revert s. induction k as [| k IH]; intros [| c s] Hk; try reflexivity.
  - cbn in Hk. lia.
  - cbn [str_drop]. apply IH. cbn in Hk. lia.
Qed.

(** The separators of a join do not count for a filter that drops them. *)
Lemma str_filter_concat (p : ascii -> bool) (sep : string) (l : list string) :
  str_filter p sep = EmptyString ->
  str_filter p (String.concat sep l) = str_filter p (String.concat EmptyString l).
Proof.
  intros Hsep. induction l as [| x l IH]; [reflexivity |].
  destruct l as [| y l]; [reflexivity |].
  change (String.concat sep (x :: y :: l)) with (x +:+ sep +:+ String.concat sep (y :: l)).
  change (String.concat EmptyString (x :: y :: l))
    with (x +:+ EmptyString +:+ String.concat EmptyString (y :: l)).
  rewrite !str_filter_app, Hsep, IH. reflexivity.
Qed.

Lemma concat_snoc (l : list string) (x : string) :
  String.concat EmptyString (l ++ [x]) = String.concat EmptyString l +:+ x.
Proof.
  induction l as [| y l IH]; [reflexivity |].
  destruct l as [| z l].
  - cbn [app]. change (String.concat EmptyString [y; x]) with (y +:+ EmptyString +:+ x).
    reflexivity.
  - change ((y :: z :: l) ++ [x])%list with (y :: (z :: l) ++ [x])%list.
    change (String.concat EmptyString (y :: (z :: l) ++ [x])%list)
      with (y +:+ EmptyString +:+ String.concat EmptyString ((z :: l) ++ [x])%list).
    rewrite IH.
    change (String.concat EmptyString (y :: z :: l))
      with (y +:+ EmptyString +:+ String.concat EmptyString (z :: l)).
    cbn [append]. now rewrite !append_assoc.
Qed.

Lemma substring_add (a b : nat) (s : string) :
  substring 0 (a + b) s = substring 0 a s +:+ substring 0 b (str_drop a s).
Proof.
  revert s. induction a as [| a IH]; intros s; [now destruct s |].
  destruct s as [| c s]; [now destruct b |]. cbn [Nat.add substring str_drop].
  change (String c (substring 0 a s) +:+ substring 0 b (str_drop a s))
    with (String c (substring 0 a s +:+ substring 0 b (str_drop a s))).
  now rewrite IH.
Qed.

Lemma substring_all (k : nat) (s : string) :
  (String.length s <= k)%nat -> substring 0 k s = s.
Proof.
  revert s. induction k as [| k IH]; intros [| c s] Hk; try reflexivity.
  - cbn in Hk. lia.
  - cbn [substring]. rewrite IH; [reflexivity |]. cbn in Hk. lia.
Qed.

(** The first [m] blocks of [k] characters are the first [m * k]
    characters. *)
Lemma concat_blocks (k m : nat) (s : string) :
  String.concat EmptyString
    (map (fun i => str_slice i (i + k) s) (map (fun j => (j * k)%nat) (seq 0 m)))
  = substring 0 (m * k) s.
Proof.
  induction m as [| m IH]; [now destruct s |].
  rewrite seq_S, !map_app. cbn [map Nat.add]. rewrite concat_snoc, IH.
  unfold str_slice. replace (m * k + k - m * k)%nat with k by lia.
  rewrite (substring_drop (m * k)).
  replace (Datatypes.S m * k)%nat with (m * k + k)%nat by lia.
  now rewrite substring_add.
Qed.

Lemma py_range_covers (n : nat) : (n <= Nat.div (n + 4 - 1) 4 * 4)%nat.
Proof.
  pose proof (Nat.div_mod_eq (n + 4 - 1) 4) as Hdm.
  pose proof (Nat.mod_upper_bound (n + 4 - 1) 4) as Hlt. lia.
Qed.

(** The blocks of [format_card_number], joined without the spaces, are the
    digits. *)
Lemma card_blocks (digits : string) :
  String.concat EmptyString
    (map (fun i => str_slice i (i + 4) digits) (py_range (String.length digits) 4))
  = digits.
Proof.
  unfold py_range. rewrite concat_blocks. apply substring_all, py_range_covers.
Qed.
End Text.

(** ** Card and phone numbers *)

Section Formatting.

(** X21.  [format_card_number] keeps the digits of its argument, in
    order, and formatting a formatted number changes nothing. *)
Theorem format_card_number_digits (card_number : string) :
  str_filter isdigit (format_card_number card_number) = str_filter isdigit card_number
  /\ format_card_number (format_card_number card_number) = format_card_number card_number.
Proof.
  assert (Hdigits : str_filter isdigit (format_card_number card_number)
                    = str_filter isdigit card_number).
  { unfold format_card_number. cbv zeta.
    rewrite str_filter_concat by reflexivity.
    rewrite card_blocks. apply str_filter_idem. }
  split; [exact Hdigits |].
  unfold format_card_number at 1. cbv zeta. rewrite Hdigits. reflexivity.
Qed.


Lemma three_parts (s : string) :
  str_slice 0 3 s +:+ str_slice 3 6 s +:+ str_drop 6 s = s.
Proof.
  unfold str_slice. cbn [Nat.sub].
  rewrite (substring_drop 3), <- (str_drop_drop 3 3 s : str_drop 3 (str_drop 3 s) = str_drop 6 s).
  now rewrite !take_drop_str.
Qed.

Lemma phone_layout_digits (digits phone : string) :
  str_filter isdigit digits = digits ->
  (10 <= String.length digits)%nat ->
  str_filter isdigit (phone_layout digits phone) = digits.
Proof.
  intros Hd Hn. unfold phone_layout. cbv zeta.
  destruct (Nat.eqb_spec (String.length digits) 10) as [H10 | H10].
  - rewrite !str_filter_app.
    change (str_filter isdigit "(") with EmptyString.
    change (str_filter isdigit ") ") with EmptyString.
    change (str_filter isdigit "-") with EmptyString.
    rewrite !append_nil_l, <- !str_filter_app, three_parts. exact Hd.
  - destruct (Nat.eqb_spec (String.length digits) 11) as [H11 | H11]; cbn [andb].
    + destruct (bool_decide_reflect (String.get 0 digits = Some "1"%char)) as [H1 | H1].
      * rewrite !str_filter_app.
        change (str_filter isdigit "+1 (") with "1".
        change (str_filter isdigit ") ") with EmptyString.
        change (str_filter isdigit "-") with EmptyString.
        rewrite !append_nil_l. destruct digits as [| c digits]; [discriminate |].
        cbn in H1. injection H1 as ->.
        change (str_slice 1 4 (String "1" digits)) with (str_slice 0 3 digits).
        change (str_slice 4 7 (String "1" digits)) with (str_slice 3 6 digits).
        change (str_drop 7 (String "1" digits)) with (str_drop 6 digits).
        rewrite <- !str_filter_app, three_parts.
        cbn [str_filter] in Hd. change (isdigit "1") with true in Hd. cbv iota in Hd.
        injection Hd as Hd. now rewrite Hd.
      * destruct (Nat.ltb_spec 10 (String.length digits)); [| lia].
        rewrite !str_filter_app.
        change (str_filter isdigit "+") with EmptyString.
        change (str_filter isdigit " (") with EmptyString.
        change (str_filter isdigit ") ") with EmptyString.
        change (str_filter isdigit "-") with EmptyString.
        rewrite !append_nil_l, <- !str_filter_app, three_parts.
        unfold str_slice. rewrite Nat.sub_0_r, take_drop_str. exact Hd.
    + destruct (Nat.ltb_spec 10 (String.length digits)); [| lia].
      rewrite !str_filter_app.
      change (str_filter isdigit "+") with EmptyString.
      change (str_filter isdigit " (") with EmptyString.
      change (str_filter isdigit ") ") with EmptyString.
      change (str_filter isdigit "-") with EmptyString.
      rewrite !append_nil_l, <- !str_filter_app, three_parts.
      unfold str_slice. rewrite Nat.sub_0_r, take_drop_str. exact Hd.
Qed.

Lemma phone_layout_short (digits phone : string) :
  (String.length digits < 10)%nat -> phone_layout digits phone = phone.
Proof.
  intros Hn. unfold phone_layout. cbv zeta.
  destruct (Nat.eqb_spec (String.length digits) 10); [lia |].
  destruct (Nat.eqb_spec (String.length digits) 11); [lia |]. cbn [andb].
  destruct (Nat.ltb_spec 10 (String.length digits)); [lia | reflexivity].
Qed.

Lemma phone_layout_long (digits phone phone' : string) :
  (10 <= String.length digits)%nat -> phone_layout digits phone = phone_layout digits phone'.
Proof.
  intros Hn. unfold phone_layout. cbv zeta.
  destruct (Nat.eqb_spec (String.length digits) 10); [reflexivity |].
  destruct (_ && _); [reflexivity |].
  destruct (Nat.ltb_spec 10 (String.length digits)); [reflexivity | lia].
Qed.

(** X22.  [format_phone_number] keeps the digits of its argument, in
    order; formatting a formatted number changes nothing; and text with
    fewer than ten digits is returned as it is. *)
Theorem format_phone_number_digits (phone : string) :
  str_filter isdigit (format_phone_number phone) = str_filter isdigit phone
  /\ format_phone_number (format_phone_number phone) = format_phone_number phone
  /\ ((String.length (str_filter isdigit phone) < 10)%nat ->
      format_phone_number phone = phone).
Proof.
  change (format_phone_number phone) with (phone_layout (str_filter isdigit phone) phone).
  assert (Hdigits : str_filter isdigit (phone_layout (str_filter isdigit phone) phone)
                    = str_filter isdigit phone).
  { destruct (Nat.lt_ge_cases (String.length (str_filter isdigit phone)) 10) as [Hn | Hn].
    - now rewrite phone_layout_short.
    - apply phone_layout_digits; [apply str_filter_idem | exact Hn]. }
  split; [exact Hdigits |]. split.
  - change (format_phone_number ?x) with (phone_layout (str_filter isdigit x) x).
    rewrite Hdigits.
    destruct (Nat.lt_ge_cases (String.length (str_filter isdigit phone)) 10) as [Hn | Hn].
    + now rewrite !phone_layout_short.
    + now apply phone_layout_long.
  - apply phone_layout_short.
Qed.
End Formatting.

(** ** File names *)

Section FileKinds.
Import FileEntry.

Lemma dot_in (s : string) :
  bool_decide ("."%char ∈ list_ascii_of_string s) = str_mem "." s.
Proof.
  induction s as [| c s IH]; cbn [list_ascii_of_string str_mem].
  - apply bool_decide_eq_false_2. apply not_elem_of_nil.
  - destruct (decide (c = "."%char)) as [-> | Hne].
    + apply bool_decide_eq_true_2. apply elem_of_cons. now left.
    + rewrite <- IH. apply bool_decide_ext. rewrite elem_of_cons.
      split; [intros [Heq | Hin]; [congruence | exact Hin] | auto].
Qed.

Lemma str_split_whole (sep : ascii) (s : string) :
  str_mem sep s = false -> str_split sep s = [s].
Proof.
  induction s as [| c s IH]; [reflexivity |]. cbn [str_mem str_split].
  destruct (decide (c = sep)); [discriminate |]. intros Hs. now rewrite IH.
Qed.

(** After the last separator comes the last piece. *)
Lemma str_split_last (sep : ascii) (stem ext : string) :
  str_mem sep ext = false ->
  exists first middle,
    str_split sep (stem +:+ String sep ext) = (first :: middle ++ [ext])%list.
Proof.
  intros Hext. induction stem as [| c stem (first & middle & IH)].
  - exists EmptyString, []. change (EmptyString +:+ String sep ext) with (String sep ext).
    cbn [str_split]. destruct (decide (sep = sep)); [| contradiction].
    now rewrite str_split_whole.
  - change (String c stem +:+ String sep ext) with (String c (stem +:+ String sep ext)).
    cbn [str_split]. rewrite IH. destruct (decide (c = sep)).
    + exists EmptyString, (first :: middle). reflexivity.
    + exists (String c first), middle. reflexivity.
Qed.

(** No piece of a split holds the separator. *)
Lemma str_split_pieces (sep : ascii) (s piece : string) :
  piece ∈ str_split sep s -> str_mem sep piece = false.
Proof.
  revert piece. induction s as [| c s IH]; intros piece; cbn [str_split].
  - intros Hin. apply list_elem_of_singleton in Hin as ->. reflexivity.
  - destruct (decide (c = sep)) as [-> | Hne].
    + intros Hin. apply elem_of_cons in Hin as [-> | Hin]; [reflexivity | now apply IH].
    + destruct (str_split sep s) as [| p ps] eqn:Hsplit.
      * intros Hin. apply list_elem_of_singleton in Hin as ->. cbn [str_mem].
        destruct (decide (c = sep)); [contradiction | reflexivity].
      * intros Hin. apply elem_of_cons in Hin as [-> | Hin].
        -- cbn [str_mem]. destruct (decide (c = sep)); [contradiction |].
           apply IH. apply elem_of_cons. now left.
        -- apply IH. apply elem_of_cons. now right.
Qed.

Lemma lower_char_idem (c : ascii) : lower_char (lower_char c) = lower_char c.
Proof. destruct c as [[] [] [] [] [] [] [] []]; reflexivity. Qed.

Lemma lower_char_dot (c : ascii) : lower_char c = "."%char -> c = "."%char.
Proof. destruct c as [[] [] [] [] [] [] [] []]; vm_compute; congruence. Qed.

Lemma lower_idem (s : string) : lower (lower s) = lower s.
Proof.
  induction s as [| c s IH]; [reflexivity |]. cbn [lower]. now rewrite lower_char_idem, IH.
Qed.

Lemma lower_dot (s : string) : str_mem "." s = false -> str_mem "." (lower s) = false.
Proof.
  induction s as [| c s IH]; [reflexivity |]. cbn [lower str_mem].
  destruct (decide (c = "."%char)); [discriminate |].
  destruct (decide (lower_char c = "."%char)) as [Hc | _]; [| exact IH].
  apply lower_char_dot in Hc. contradiction.
Qed.

(** X23.  [get_file_extension] holds no dot and is its own lower case; it
    is empty for a name without a dot, and for a name that ends in a dot and
    a dot-free suffix it is that suffix in lower case. *)
Theorem get_file_extension_spec (self : t) :
  let extension := get_file_extension self in
  str_mem "." extension = false
  /\ lower extension = extension
  /\ (str_mem "." (file_name self) = false -> extension = EmptyString)
  /\ (forall stem ext,
        file_name self = stem +:+ String "." ext -> str_mem "." ext = false ->
        extension = lower ext).
Proof.
  cbv zeta. unfold get_file_extension. rewrite dot_in.
  split; [| split; [| split]].
  - destruct (str_mem "." (file_name self)); [| reflexivity].
    destruct (last (str_split "." (file_name self))) as [piece |] eqn:Hlast; [| reflexivity].
    apply lower_dot. apply (str_split_pieces _ (file_name self)).
    now apply last_Some_elem_of.
  - destruct (str_mem "." (file_name self)); [| reflexivity].
    destruct (last _); [apply lower_idem | reflexivity].
  - intros ->. reflexivity.
  - intros stem ext Hname Hext. rewrite Hname.
    destruct (str_split_last "." stem ext Hext) as (first & middle & ->).
    rewrite str_mem_app. cbn [str_mem].
    destruct (decide ("."%char = "."%char)); [| contradiction].
    rewrite orb_true_r.
    change (first :: middle ++ [ext])%list with ((first :: middle) ++ [ext])%list.
    now rewrite last_snoc.
Qed.

(** X24.  No file is of two kinds: at most one of [is_image],
    [is_document] and [is_archive] holds, and none holds for a name without
    a dot. *)
Theorem file_kinds_exclusive (self : t) :
  is_image self && is_document self = false
  /\ is_image self && is_archive self = false
  /\ is_document self && is_archive self = false
  /\ (str_mem "." (file_name self) = false ->
      is_image self = false /\ is_document self = false /\ is_archive self = false).
Proof.
  unfold is_image, is_document, is_archive.
  assert (Hdisjoint : forall e : string,
            (e ∈ image_extensions -> e ∈ document_extensions -> False)
            /\ (e ∈ image_extensions -> e ∈ archive_extensions -> False)
            /\ (e ∈ document_extensions -> e ∈ archive_extensions -> False)).
  { intros e. unfold image_extensions, document_extensions, archive_extensions.
    repeat split; intros H1 H2; set_unfold in H1; set_unfold in H2;
      destruct_or!; subst; discriminate. }
  destruct (Hdisjoint (get_file_extension self)) as (H1 & H2 & H3).
  assert (Hboth : forall P Q `{Decision P, Decision Q},
            (P -> Q -> False) -> bool_decide P && bool_decide Q = false).
  { intros P Q ? ? Hno. destruct (decide P).
    - rewrite (bool_decide_eq_false_2 Q) by auto. apply andb_false_r.
    - now rewrite (bool_decide_eq_false_2 P). }
  split; [now apply Hboth |]. split; [now apply Hboth |]. split; [now apply Hboth |].
  intros Hnodot. unfold get_file_extension. rewrite dot_in, Hnodot.
  repeat split; now apply bool_decide_eq_false_2.
Qed.
End FileKinds.

(** ** The models and their dicts *)

Section ModelsReadBack.
Context `{Platform}.

Hypothesis b64_round_trip : forall data : bytes, b64decode (b64encode data) = Some data.

(** X25.  For each of the five models, [from_dict(to_dict(e))] is [e],
    field for field, attachments included; the only effect is reading the
    clock, twice for the record and twice for each attachment. *)
Theorem records_read_back (w : world) :
  (forall e : PasswordEntry.t,
     PasswordEntry.from_dict (JDict (PasswordEntry.to_dict e)) w
     = (Ok e, advance (2 + 2 * length (PasswordEntry.attached_files e)) 0 w))
  /\ (forall e : SecureNote.t,
        SecureNote.from_dict (JDict (SecureNote.to_dict e)) w
        = (Ok e, advance (2 + 2 * length (SecureNote.attached_files e)) 0 w))
  /\ (forall e : CardEntry.t,
        CardEntry.from_dict (JDict (CardEntry.to_dict e)) w
        = (Ok e, advance (2 + 2 * length (CardEntry.attached_files e)) 0 w))
  /\ (forall e : IdentityEntry.t,
        IdentityEntry.from_dict (JDict (IdentityEntry.to_dict e)) w
        = (Ok e, advance (2 + 2 * length (IdentityEntry.attached_files e)) 0 w))
  /\ (forall e : FileEntry.t,
        FileEntry.from_dict (JDict (FileEntry.to_dict e)) w = (Ok e, advance 2 0 w)).
Proof.
  repeat split; intros e.
  - now apply password_from_to_dict.
  - now apply note_from_to_dict.
  - now apply card_from_to_dict.
  - now apply identity_from_to_dict.
  - now apply file_from_to_dict.
Qed.
End ModelsReadBack.

(** * Further instances on the sample data *)

(** [m5] saves; a session of another installation, opened with the same
    master password, loads the five records. *)
Lemma save_then_load_witness :
  exists w1,
    PasswordManager.save_data (H := Toy.platform) NoFault (Example.m5, Example.w0)
      = (Ok tt, (Example.m5, w1))
    /\ forall w2,
         disk w2 !! "luckeepass_data.lp" = disk w1 !! "luckeepass_data.lp" ->
         exists m' w',
           PasswordManager.load_data (Example.m_new, w2) = (Ok tt, (m', w'))
           /\ PasswordManager.passwords m' = [Example.login]
           /\ PasswordManager.notes m' = [Example.memo]
           /\ PasswordManager.cards m' = [Example.visa]
           /\ PasswordManager.identities m' = [Example.me]
           /\ PasswordManager.files m' = [Example.scan]
           /\ stdout w' = stdout w2.
Proof.
  apply (save_then_load (H := Toy.platform)
           ToyLaws.fernet_round_trip ToyLaws.b64_round_trip ToyLaws.utf8_round_trip
           ToyLaws.json_round_trip_wf ToyLaws.json_dumps_nonempty
           Example.m5 Example.m_new Example.w0); reflexivity.
Defined.

(** The vault [m5] saved, opened with another master password, whose key
    rejects every token of the file: five warnings, no record. *)
Lemma load_with_rejected_key_witness :
  exists m' w' evs,
    PasswordManager.load_data (H := Toy.platform) (Example.m_other, Example.w_saved)
      = (Ok tt, (m', w'))
    /\ (PasswordManager.passwords m' = [] /\ PasswordManager.notes m' = []
        /\ PasswordManager.cards m' = [] /\ PasswordManager.identities m' = []
        /\ PasswordManager.files m' = [])
    /\ stdout w' = (stdout Example.w_saved ++ evs)%list
    /\ Forall is_warning evs
    /\ length evs = 5%nat
    /\ disk w' = disk Example.w_saved
    /\ exists w3,
         PasswordManager.save_data NoFault (m', w') = (Ok tt, (m', w3))
         /\ disk w3 !! "luckeepass_data.lp"
            = Some (exported_bytes (H := Toy.platform) m' w').
Proof.
  apply (load_with_rejected_key (H := Toy.platform)
           ToyLaws.b64_round_trip ToyLaws.utf8_round_trip ToyLaws.json_round_trip_wf
           ToyLaws.json_dumps_nonempty
           Example.m5 Example.m_other Example.w0 Example.w_saved);
    [| reflexivity].
  intros i data. apply ToyLaws.fernet_wrong_key_exn. discriminate.
Defined.

(** A backup whose embedded salt is text that is not decoded: the import
    raises [binascii.Error] and leaves the session as it was. *)
Lemma import_data_exceptions_witness :
  let e := BinasciiError in
  (e = TypeError \/ e = AttributeError)
  \/ ((Example.m_nul, Example.w0) = (Example.m_nul, Example.w0)
      /\ ((exists detail, e = ValueError ("Invalid .lp file format. " +:+ detail))
          \/ (exists text, json_loads (Platform := Padded.platform) text = inl e
                           /\ forall detail, e <> JSONDecodeError detail)
          \/ (exists text, b64decode (Platform := Padded.platform) text = None
                           /\ e = b64decode_error text))).
Proof.
  apply (proj1 (import_data_exceptions (H := Padded.platform)) Example.unsalted
           (Example.m_nul, Example.w0) (Example.m_nul, Example.w0)).
  unfold Example.unsalted.
  rewrite (import_data_framed (H := Padded.platform) _ _ _ _
             (PaddedLaws.padded_json_dumps_nonempty _) (PaddedLaws.padded_utf8_round_trip _)
             (PaddedLaws.padded_json_round_trip _)).
  reflexivity.
Defined.

(** The backup of [m5] holds one record of each kind. *)
Lemma get_backup_info_exported_witness :
  PasswordManager.get_backup_info (H := Toy.platform) "backup.lp" Example.w_backup =
  (Ok (BackupInfo (JStr "LuckeePass") (JStr "LuckeeSoft") (JStr "1.0")
                  (JStr (clock (Platform := Toy.platform) 0)) 1 1 1 1 1),
   Example.w_backup).
Proof.
  apply (get_backup_info_exported (H := Toy.platform) ToyLaws.utf8_round_trip
           ToyLaws.json_round_trip_wf ToyLaws.json_dumps_nonempty
           Example.m5 Example.w0 Example.w_backup "backup.lp").
  reflexivity.
Defined.

(** On the fresh installation the object still has no hash after the
    password was set, and holds the salt that was drawn. *)
Lemma set_master_password_keeps_hash_witness :
  exists um',
    fst Example.s_setup = Ok um'
    /\ UserManager.hashed_master_password um' = None
    /\ UserManager.is_master_password_set um' = false
    /\ UserManager.verify_master_password (H := Toy.platform) um' "correct-horse"
         (snd Example.s_setup) = (Ok false, snd Example.s_setup).
Proof.
  eexists. split; [reflexivity |].
  destruct (set_master_password_keeps_hash (H := Toy.platform) (H0 := Toy.hashing)
              NoFault NoFault Example.um_fresh
              (UserManager.Make None (Some (replicate 16 "*"%byte))
                 "luckeepass_master.dat" "luckeepass_vault_salt.dat")
              "correct-horse" Example.w0 (snd Example.s_setup) eq_refl)
    as (Hhash & Hunset & _).
  split; [exact Hhash |].
  destruct (Hunset eq_refl) as [Hset Hverify].
  split; [exact Hset | apply Hverify].
Defined.
(** On the fresh installation, a restart after the password was set accepts
    it and reads the salt that was drawn. *)
Lemma set_master_password_restart_witness :
  exists um um' w1 um2 salt,
    UserManager.init Example.w0 = (Ok um, Example.w0)
    /\ UserManager.set_master_password (H := Toy.platform) (H0 := Toy.hashing) NoFault NoFault um
         "correct-horse" Example.w0 = (Ok um', w1)
    /\ UserManager.init w1 = (Ok um2, w1)
    /\ UserManager.verify_master_password (H := Toy.platform) um2 "correct-horse" w1 = (Ok true, w1)
    /\ UserManager.vault_salt um' = Some salt
    /\ UserManager.vault_salt um2 = Some salt
    /\ salt = replicate 16 "*"%byte.
Proof.
  destruct (set_master_password_restart (H := Toy.platform) (H0 := Toy.hashing)
              "correct-horse" (list_byte_of_string "correct-horse") Example.w0)
    as (um & um' & w1 & um2 & salt & Hinit & Hset & Hinit2 & Hverify & Hsalt' & Hsalt2
        & Hsalt);
    [reflexivity | discriminate | reflexivity |].
  exists um, um', w1, um2, salt. repeat (split; [assumption |]).
  rewrite Hsalt. injection Hinit as <-. reflexivity.
Defined.

(** The hash file of the account cannot be opened: the old hash stays. *)
Lemma set_master_password_hides_failure_witness :
  exists um um' w1 um2 rest,
    UserManager.init Example.w_account = (Ok um, Example.w_account)
    /\ UserManager.set_master_password (H := Toy.platform) (H0 := Toy.hashing) OpenFails NoFault um
         "another" Example.w_account = (Ok um', w1)
    /\ stdout w1 = (stdout Example.w_account
                    ++ Printed "Error saving master password hash: Permission denied"
                       :: rest)%list
    /\ UserManager.init w1 = (Ok um2, w1)
    /\ UserManager.hashed_master_password um2 = UserManager.hashed_master_password um.
Proof.
  apply (set_master_password_hides_failure (H := Toy.platform) (H0 := Toy.hashing)
           NoFault "another" (list_byte_of_string "another") Example.w_account).
  reflexivity.
Defined.

(** The vault file of the account is locked: the account is deleted, the
    vault file is not. *)
Lemma delete_user_data_stops_at_failure_witness :
  exists um w' um2,
    UserManager.init Example.w_account = (Ok um, Example.w_account)
    /\ UserManager.delete_user_data Example.vault_locked um Example.w_account
       = (Raise (OSError "Permission denied"), w')
    /\ stdout w' = (stdout Example.w_account
                    ++ [Printed "Error deleting user data: Permission denied"])%list
    /\ disk w' !! "luckeepass_data.lp" = Some Example.corrupt
    /\ UserManager.init w' = (Ok um2, w')
    /\ UserManager.is_master_password_set um2 = false
    /\ UserManager.get_vault_salt um2 = None.
Proof.
  apply (delete_user_data_stops_at_failure Example.vault_locked
           Example.corrupt Example.w_account); reflexivity.
Defined.

(** Sixteen characters with every option on. *)
Lemma generate_password_length_bounds_witness :
  exists pw w',
    PasswordGenerator.generate_password (H := Toy.platform) PasswordGenerator.init
      16 true true true true Example.w0 = (Ok pw, w')
    /\ 16 - 3 <= str_len pw <= 16
    /\ (true = false -> true = false -> str_len pw = 16).
Proof.
  apply (generate_password_length_bounds (H := Toy.platform) 16 true true true true
           Example.w0).
  lia.
Defined.

(** A hundred characters, which the length box of the dialog allows. *)
Lemma generate_password_refuses_long_witness :
  PasswordGenerator.generate_password (H := Toy.platform) PasswordGenerator.init
    100 true true true true Example.w0
  = (Raise (ValueError "Character set too small for requested length"), Example.w0).
Proof.
  apply (generate_password_refuses_long (H := Toy.platform) 100 true true true true
           Example.w0).
  reflexivity.
Defined.

(** The digit of the password generated from lower case and digits. *)
Lemma generate_password_alphabet_witness :
  str_mem "0" (PasswordGenerator.lowercase PasswordGenerator.init) = true
  \/ (false = true /\ str_mem "0" (PasswordGenerator.uppercase PasswordGenerator.init) = true)
  \/ (true = true /\ str_mem "0" (PasswordGenerator.digits PasswordGenerator.init) = true)
  \/ (false = true /\ str_mem "0" (PasswordGenerator.symbols PasswordGenerator.init) = true).
Proof.
  apply (generate_password_alphabet (H := Toy.platform) PasswordGenerator.init 8
           false true false false Example.w0 (snd Example.s_generated) "0aaaaaa" "0");
    reflexivity.
Defined.

(** That password holds a digit. *)
Lemma generate_password_last_class_witness :
  (false = true ->
   str_any (fun c => str_mem c (PasswordGenerator.symbols PasswordGenerator.init))
           "0aaaaaa" = true)
  /\ (false = false -> true = true ->
      str_any (fun c => str_mem c (PasswordGenerator.digits PasswordGenerator.init))
              "0aaaaaa" = true)
  /\ (false = false -> true = false -> false = true ->
      str_any (fun c => str_mem c (PasswordGenerator.uppercase PasswordGenerator.init))
              "0aaaaaa" = true).
Proof.
  apply (generate_password_last_class (H := Toy.platform) PasswordGenerator.init 8
           false true false false Example.w0 (snd Example.s_generated) "0aaaaaa").
  reflexivity.
Defined.

(** The sample records, [login] with its attachment. *)
Lemma records_read_back_witness :
  PasswordEntry.from_dict (H := Toy.platform) (JDict (PasswordEntry.to_dict (H := Toy.platform) Example.login))
    Example.w0 = (Ok Example.login, World 4 0 0 [] ∅)
  /\ FileEntry.from_dict (H := Toy.platform) (JDict (FileEntry.to_dict (H := Toy.platform) Example.scan))
       Example.w0 = (Ok Example.scan, World 2 0 0 [] ∅).
Proof.
  destruct (records_read_back (H := Toy.platform) ToyLaws.b64_round_trip Example.w0)
    as (Hpassword & _ & _ & _ & Hfile).
  split; [apply Hpassword | apply Hfile].
Defined.
